(** * phew-read: persistence and domain logic, embedded in Rocq

    A shallow embedding of the reading-app core: the file helpers
    (genre inference, author extraction), the SQLite-backed store and its
    encoding layer, the AI gate, the recommendation ranking and the pager
    of the reader screen.

    Conventions of the embedding.
    - A JavaScript string is a [string]: one [ascii] per UTF-16 code unit,
      for code units below 256.
    - A JavaScript [number] that the code uses as an integer is a [Z];
      prices and ratings are carried as rationals and never computed on.
    - [undefined] and [null] are [None].
    - The wall clock ([Date.now()], [new Date().toISOString()]) is an
      explicit argument of the operation that reads it.
    - An operation that can throw returns a [Result]. *)

From Stdlib Require Import QArith Ascii Sorted Permutation.
From stdpp Require Import base option list gmap strings pretty.

Local Open Scope Z_scope.
Local Open Scope stdpp_scope.

(** stdpp keeps [simpl] away from string concatenation; the proofs below
    compute with it. *)
#[local] Arguments String.append !s1 s2 : simpl nomatch.

(** ** JavaScript string primitives *)

Module JsString.

Definition chr (n : N) : ascii := Ascii.ascii_of_N n.
Definition code (c : ascii) : N := Ascii.N_of_ascii c.

Definition dquote : ascii := chr 34.
Definition backslash : ascii := chr 92.

(** [String.prototype.toLowerCase], one code unit at a time: A-Z and the
    Latin-1 capitals (except the multiplication sign) move up by 32. *)
Definition lower_char (c : ascii) : ascii :=
  let n := code c in
  if ((65 <=? n) && (n <=? 90))%N
     || ((192 <=? n) && (n <=? 222) && negb (n =? 215))%N
  then chr (n + 32) else c.

Fixpoint toLowerCase (s : string) : string :=
  match s with
  | EmptyString => EmptyString
  | String c s' => String (lower_char c) (toLowerCase s')
  end.

(** [s.startsWith(pre)] *)
Fixpoint startsWith (s pre : string) {struct pre} : bool :=
  match pre, s with
  | EmptyString, _ => true
  | String p pre', String c s' => Ascii.eqb c p && startsWith s' pre'
  | String _ _, EmptyString => false
  end.

(** [s.includes(sub)] *)
Fixpoint includes (s sub : string) : bool :=
  startsWith s sub
  || match s with
     | EmptyString => false
     | String _ s' => includes s' sub
     end.

(** White space and line terminators, as [\s] and [trim] see them
    (code units below 256): TAB, LF, VT, FF, CR, SP and NBSP. *)
Definition is_space (c : ascii) : bool :=
  let n := code c in
  ((9 <=? n) && (n <=? 13) || (n =? 32) || (n =? 160))%N.

(** Line terminators: what [.] refuses to match. *)
Definition is_line_terminator (c : ascii) : bool :=
  let n := code c in ((n =? 10) || (n =? 13))%N.

Fixpoint trimStart (s : string) : string :=
  match s with
  | EmptyString => EmptyString
  | String c s' => if is_space c then trimStart s' else s
  end.

(** Drops the white space at the end: a space is kept only when something
    that survives follows it. *)
Fixpoint trimEnd (s : string) : string :=
  match s with
  | EmptyString => EmptyString
  | String c s' =>
      match trimEnd s' with
      | EmptyString => if is_space c then EmptyString else String c EmptyString
      | t => String c t
      end
  end.

Definition trim (s : string) : string := trimEnd (trimStart s).

(** JavaScript truthiness of a string. *)
Definition truthy (s : string) : bool :=
  match s with EmptyString => false | String _ _ => true end.

(** [sep.join] on an array of strings. *)
Fixpoint join (sep : string) (l : list string) : string :=
  match l with
  | [] => EmptyString
  | [x] => x
  | x :: rest => x +:+ sep +:+ join sep rest
  end.

End JsString.

(** ** FileService: genre inference *)

Module FileService.
Import JsString.

(** The keyword table of [detectGenre], in declaration order. *)
Definition genreKeywords : list (string * list string) :=
  [ ("finance", ["finance"; "money"; "investment"; "wealth"; "trading"; "economics"; "business"]);
    ("business", ["business"; "entrepreneur"; "management"; "leadership"; "startup"; "strategy"]);
    ("technical", ["programming"; "code"; "development"; "software"; "computer"; "tech"; "algorithm"]);
    ("fiction", ["novel"; "story"; "fiction"; "tale"; "adventure"; "romance"]);
    ("mystery", ["mystery"; "detective"; "crime"; "murder"; "thriller"]);
    ("scifi", ["science fiction"; "sci-fi"; "space"; "future"; "robot"; "alien"]);
    ("fantasy", ["fantasy"; "magic"; "wizard"; "dragon"; "kingdom"]);
    ("biography", ["biography"; "memoir"; "life of"; "autobiography"]);
    ("history", ["history"; "historical"; "war"; "ancient"; "civilization"]);
    ("selfhelp", ["self help"; "self-help"; "improve"; "success"; "motivation"; "productivity"]);
    ("health", ["health"; "fitness"; "diet"; "nutrition"; "wellness"; "medical"]);
    ("philosophy", ["philosophy"; "wisdom"; "ethics"; "meaning"; "existence"]) ].

(** [keywords.some(keyword => titleLower.includes(keyword) ||
    contentLower.includes(keyword))] *)
Definition keywordHit (titleLower contentLower : string) (keywords : list string) : bool :=
  existsb (fun keyword => includes titleLower keyword || includes contentLower keyword) keywords.

(** The loop over [Object.entries(genreKeywords)], pushing the genres
    that hit. *)
Fixpoint collectGenres (titleLower contentLower : string)
    (table : list (string * list string)) : list string :=
  match table with
  | [] => []
  | (genre, keywords) :: rest =>
      if keywordHit titleLower contentLower keywords
      then genre :: collectGenres titleLower contentLower rest
      else collectGenres titleLower contentLower rest
  end.

(** [content?.toLowerCase() || ''] *)
Definition lowerContent (content : option string) : string :=
  match content with
  | Some c => toLowerCase c
  | None => EmptyString
  end.

Definition detectGenre (title : string) (content : option string) : list string :=
  let titleLower := toLowerCase title in
  let contentLower := lowerContent content in
  let genres := collectGenres titleLower contentLower genreKeywords in
  match genres with
  | [] => ["general"]
  | _ :: _ => genres
  end.

(** [keyword] occurs in [s] as a substring. *)
Definition occursIn (keyword s : string) : Prop :=
  exists pre post, s = pre +:+ keyword +:+ post.

(** No keyword of the table occurs in the lower-cased title or in the
    lower-cased excerpt. *)
Definition noKeyword (title : string) (content : option string) : Prop :=
  forall genre keywords keyword,
    In (genre, keywords) genreKeywords -> In keyword keywords ->
    ~ occursIn keyword (toLowerCase title) /\ ~ occursIn keyword (lowerContent content).

(** ** A backtracking matcher for the regular expressions of the source

    The two patterns of [extractAuthorFromFilename] are sequences of
    single-character classes, greedy or lazy repetitions of such classes,
    and capture groups; both are anchored by [^] and [$]. [run] tries the
    alternatives in the order of the ECMAScript backtracking semantics: a
    greedy repetition takes one more character first, a lazy one tries the
    rest of the pattern first. *)

Inductive node : Type :=
| One (p : ascii -> bool)                  (* one character of the class *)
| Many (greedy : bool) (p : ascii -> bool) (* class* or class*? *)
| Open (k : nat)                           (* start of capture group k *)
| Close (k : nat).                         (* end of capture group k *)

Record marks : Type := MkMarks {
  opened : list (nat * nat);
  closed : list (nat * nat)
}.

Definition noMarks : marks := MkMarks [] [].

Definition markOpen (k pos : nat) (m : marks) : marks :=
  MkMarks ((k, pos) :: opened m) (closed m).

Definition markClose (k pos : nat) (m : marks) : marks :=
  MkMarks (opened m) ((k, pos) :: closed m).

Fixpoint run (ns : list node) : string -> nat -> marks -> option marks :=
  match ns with
  | [] => fun s pos m =>
      match s with
      | EmptyString => Some m          (* [$]: only the end of input *)
      | String _ _ => None
      end
  | One p :: ns' => fun s pos m =>
      match s with
      | String c s' => if p c then run ns' s' (S pos) m else None
      | EmptyString => None
      end
  | Many true p :: ns' =>
      fix greedy (s : string) (pos : nat) (m : marks) {struct s} : option marks :=
        match s with
        | String c s' =>
            if p c then
              match greedy s' (S pos) m with
              | Some r => Some r
              | None => run ns' s pos m
              end
            else run ns' s pos m
        | EmptyString => run ns' s pos m
        end
  | Many false p :: ns' =>
      fix lazy (s : string) (pos : nat) (m : marks) {struct s} : option marks :=
        match run ns' s pos m with
        | Some r => Some r
        | None =>
            match s with
            | String c s' => if p c then lazy s' (S pos) m else None
            | EmptyString => None
            end
        end
  | Open k :: ns' => fun s pos m => run ns' s pos (markOpen k pos m)
  | Close k :: ns' => fun s pos m => run ns' s pos (markClose k pos m)
  end.

Fixpoint findMark (k : nat) (l : list (nat * nat)) : option nat :=
  match l with
  | [] => None
  | (k', pos) :: rest => if Nat.eqb k k' then Some pos else findMark k rest
  end.

(** [match[k]]: the text of capture group [k]. *)
Definition group (input : string) (m : marks) (k : nat) : option string :=
  match findMark k (opened m), findMark k (closed m) with
  | Some a, Some b => Some (String.substring a (b - a) input)
  | _, _ => None
  end.

(** [filename.match(pattern)] for a pattern that starts with [^]: only the
    attempt at index 0 can succeed. *)
Definition matchAnchored (pattern : list node) (input : string) : option marks :=
  run pattern input 0%nat noMarks.

Definition dot (c : ascii) : bool := negb (is_line_terminator c).
Definition lit (c : ascii) (x : ascii) : bool := Ascii.eqb x c.
(** A literal under the [i] flag. *)
Definition litNoCase (c : ascii) (x : ascii) : bool :=
  Ascii.eqb (lower_char x) (lower_char c).

(** [/^(.+?)\s*-\s*(.+)$/], commented "Author - Title" in the source. *)
Definition hyphenPattern : list node :=
  [ Open 1; One dot; Many false dot; Close 1;
    Many true is_space; One (lit "-"); Many true is_space;
    Open 2; One dot; Many true dot; Close 2 ].

(** [/^(.+?)\s*by\s*(.+)$/i], commented "Title by Author" in the source. *)
Definition byPattern : list node :=
  [ Open 1; One dot; Many false dot; Close 1;
    Many true is_space; One (litNoCase "b"); One (litNoCase "y"); Many true is_space;
    Open 2; One dot; Many true dot; Close 2 ].

Definition patterns : list (list node) := [hyphenPattern; byPattern].

(** [a || b] on optional strings: [undefined] and the empty string are
    falsy. *)
Definition orElse (a b : option string) : option string :=
  match a with
  | Some s => if truthy s then a else b
  | None => b
  end.

(** The [for (const pattern of patterns)] loop: the first pattern that
    matches decides, and the value returned is
    [match[2]?.trim() || match[1]?.trim()]. *)
Fixpoint firstMatch (ps : list (list node)) (filename : string) : option string :=
  match ps with
  | [] => None
  | pattern :: rest =>
      match matchAnchored pattern filename with
      | Some m => orElse (trim <$> group filename m 2) (trim <$> group filename m 1)
      | None => firstMatch rest filename
      end
  end.

Definition extractAuthorFromFilename (filename : string) : option string :=
  firstMatch patterns filename.

(** No character of [s] is in the class [p]. *)
Fixpoint noneOf (p : ascii -> bool) (s : string) : bool :=
  match s with
  | EmptyString => true
  | String c s' => negb (p c) && noneOf p s'
  end.

(** [uri.split('.').pop()]: the text after the last dot, the whole text
    when there is none ([cur] is the segment being read). *)
Fixpoint lastSegment (cur : string) (s : string) : string :=
  match s with
  | EmptyString => cur
  | String c s' =>
      if Ascii.eqb c "." then lastSegment EmptyString s'
      else lastSegment (cur +:+ String c EmptyString) s'
  end.

(** The [switch] on the extension. *)
Definition getFileTypeFromUri (uri : string) : string :=
  let extension := toLowerCase (lastSegment EmptyString uri) in
  if String.eqb extension "pdf" then "pdf"
  else if String.eqb extension "epub" then "epub"
  else if String.eqb extension "txt" then "txt"
  else if String.eqb extension "doc" then "doc"
  else if String.eqb extension "docx" then "doc"
  else "txt".

(** No character of class [p] in [s] is followed by one of class [q]. *)
Fixpoint noPair (p q : ascii -> bool) (s : string) : bool :=
  match s with
  | EmptyString => true
  | String c s' =>
      match s' with
      | EmptyString => true
      | String d _ => negb (p c && q d) && noPair p q s'
      end
  end.

(** The shape shared by the two patterns: [^(.+?)\s*], the characters of
    a separator given by their classes, [\s*(.+)$]. *)
Definition separated (seps : list (ascii -> bool)) : list node :=
  [Open 1; One dot; Many false dot; Close 1; Many true is_space]
  ++ map One seps
  ++ [Many true is_space; Open 2; One dot; Many true dot; Close 2].

(** What follows group 1 in such a pattern. *)
Definition afterFirst (seps : list (ascii -> bool)) : list node :=
  Many true is_space :: map One seps
  ++ [Many true is_space; Open 2; One dot; Many true dot; Close 2].

(** The marks of group 2 when the separator [sep] is found at [start] and
    [u] is the text after it. *)
Definition secondGroup (sep u : string) (start : nat) (m : marks) : marks :=
  markClose 2 (start + String.length sep + String.length u)
    (markOpen 2 (start + String.length sep
                 + (String.length u - String.length (trimStart u))) m).

(** The text [s] starts with characters of the classes [seps], in order. *)
Fixpoint sepAt (seps : list (ascii -> bool)) (s : string) : bool :=
  match seps with
  | [] => true
  | p :: seps' =>
      match s with
      | String c s' => p c && sepAt seps' s'
      | EmptyString => false
      end
  end.

(** In [a +:+ rest], no separator starts at a character of [a]. *)
Fixpoint clearBefore (seps : list (ascii -> bool)) (a rest : string) : bool :=
  match a with
  | EmptyString => true
  | String _ a' => negb (sepAt seps (a +:+ rest)) && clearBefore seps a' rest
  end.

(** White space at the start, at the end of a text. *)
Definition startsWithSpace (s : string) : bool :=
  match s with
  | EmptyString => false
  | String c _ => is_space c
  end.

Fixpoint endsWithSpace (s : string) : bool :=
  match s with
  | EmptyString => false
  | String c s' =>
      match s' with
      | EmptyString => is_space c
      | String _ _ => endsWithSpace s'
      end
  end.

(** [sep] is a separator of the classes [seps] that does not start with
    white space, and [u] is one line with something other than white space
    in it. *)
Definition goodSeparator (seps : list (ascii -> bool)) (sep u : string) : Prop :=
  sepAt seps sep = true
  /\ String.length sep = length seps
  /\ startsWithSpace sep = false
  /\ truthy sep = true
  /\ noneOf is_line_terminator u = true
  /\ truthy (trimStart u) = true.

End FileService.

(** ** The JSON encoding of string arrays

    [JSON.stringify] and [JSON.parse] belong to the language, not to the
    repository; they are modelled here on the values the store passes to
    them, arrays of strings. [stringify] follows QuoteJSONString; [parse]
    is the JSON grammar for an array of string literals, white space
    included. A text that is not such an array, or that holds an escape
    above code unit 255, is reported as a failure ([None]): the store never
    writes one. *)

Module JSON.
Import JsString.

Definition hexDigit (n : N) : ascii :=
  if (n <? 10)%N then chr (48 + n) else chr (87 + n).

Definition hexValue (c : ascii) : option N :=
  let n := code c in
  if ((48 <=? n) && (n <=? 57))%N then Some (n - 48)%N
  else if ((97 <=? n) && (n <=? 102))%N then Some (n - 87)%N
  else if ((65 <=? n) && (n <=? 70))%N then Some (n - 55)%N
  else None.

(** The two-character escapes, by the character after the backslash. *)
Definition unescape (e : ascii) : option ascii :=
  let n := code e in
  if (n =? 34)%N then Some (chr 34)          (* the quote *)
  else if (n =? 92)%N then Some (chr 92)     (* the backslash *)
  else if (n =? 47)%N then Some (chr 47)     (* the slash *)
  else if (n =? 98)%N then Some (chr 8)      (* backspace *)
  else if (n =? 102)%N then Some (chr 12)    (* form feed *)
  else if (n =? 110)%N then Some (chr 10)    (* line feed *)
  else if (n =? 114)%N then Some (chr 13)    (* carriage return *)
  else if (n =? 116)%N then Some (chr 9)     (* tab *)
  else None.

(** One code unit of a string, quoted. *)
Definition quoteChar (c : ascii) : string :=
  let n := code c in
  if (n =? 8)%N then String backslash "b"
  else if (n =? 9)%N then String backslash "t"
  else if (n =? 10)%N then String backslash "n"
  else if (n =? 12)%N then String backslash "f"
  else if (n =? 13)%N then String backslash "r"
  else if (n =? 34)%N then String backslash (String dquote EmptyString)
  else if (n =? 92)%N then String backslash (String backslash EmptyString)
  else if (n <? 32)%N then
    String backslash
      (String "u" (String "0" (String "0"
        (String (hexDigit (n / 16)) (String (hexDigit (n mod 16)) EmptyString)))))
  else String c EmptyString.

Fixpoint quoteBody (s : string) : string :=
  match s with
  | EmptyString => EmptyString
  | String c s' => quoteChar c +:+ quoteBody s'
  end.

Definition quote (s : string) : string :=
  String dquote (quoteBody s +:+ String dquote EmptyString).

Definition stringify (l : list string) : string :=
  "[" +:+ join "," (map quote l) +:+ "]".

Definition is_json_space (c : ascii) : bool :=
  let n := code c in ((n =? 32) || (n =? 9) || (n =? 10) || (n =? 13))%N.

Inductive pstate : Type :=
| PStart                     (* before the opening bracket *)
| PAfterOpen                 (* after the opening bracket *)
| PInString (acc : string)   (* inside a string literal *)
| PAfterElem                 (* after a string literal *)
| PAfterComma                (* after a comma *)
| PDone.                     (* after the closing bracket *)

Definition snoc (s : string) (c : ascii) : string := s +:+ String c EmptyString.

Fixpoint parseFrom (st : pstate) (elems : list string) (input : string)
    {struct input} : option (list string) :=
  match input with
  | EmptyString =>
      match st with
      | PDone => Some elems
      | _ => None
      end
  | String c rest =>
      match st with
      | PStart =>
          if is_json_space c then parseFrom PStart elems rest
          else if Ascii.eqb c "[" then parseFrom PAfterOpen elems rest
          else None
      | PAfterOpen =>
          if is_json_space c then parseFrom PAfterOpen elems rest
          else if Ascii.eqb c "]" then parseFrom PDone elems rest
          else if Ascii.eqb c dquote then parseFrom (PInString EmptyString) elems rest
          else None
      | PInString acc =>
          if Ascii.eqb c dquote then parseFrom PAfterElem (elems ++ [acc]) rest
          else if Ascii.eqb c backslash then
            match rest with
            | String e rest1 =>
                if Ascii.eqb e "u" then
                  match rest1 with
                  | String h1 (String h2 (String h3 (String h4 rest2))) =>
                      match hexValue h1, hexValue h2, hexValue h3, hexValue h4 with
                      | Some a, Some b, Some c', Some d =>
                          let n := (((a * 16 + b) * 16 + c') * 16 + d)%N in
                          if (n <? 256)%N
                          then parseFrom (PInString (snoc acc (chr n))) elems rest2
                          else None
                      | _, _, _, _ => None
                      end
                  | _ => None
                  end
                else
                  match unescape e with
                  | Some x => parseFrom (PInString (snoc acc x)) elems rest1
                  | None => None
                  end
            | EmptyString => None
            end
          else if (code c <? 32)%N then None
          else parseFrom (PInString (snoc acc c)) elems rest
      | PAfterElem =>
          if is_json_space c then parseFrom PAfterElem elems rest
          else if Ascii.eqb c "," then parseFrom PAfterComma elems rest
          else if Ascii.eqb c "]" then parseFrom PDone elems rest
          else None
      | PAfterComma =>
          if is_json_space c then parseFrom PAfterComma elems rest
          else if Ascii.eqb c dquote then parseFrom (PInString EmptyString) elems rest
          else None
      | PDone =>
          if is_json_space c then parseFrom PDone elems rest
          else None
      end
  end.

Definition parse (text : string) : option (list string) :=
  parseFrom PStart [] text.

End JSON.

(** ** Results of operations that can throw *)

Inductive Result (A : Type) : Type :=
| Ok (a : A)
| Throw (message : string).
Arguments Ok {A} a.
Arguments Throw {A} message.

#[global] Instance Result_ret : MRet Result := @Ok.
#[global] Instance Result_bind : MBind Result := fun A B f m =>
  match m with
  | Ok a => f a
  | Throw e => Throw e
  end.

(** ** types/database.ts: the domain records *)

Module Book.
Record t : Type := mk {
  id : string;
  title : string;
  author : option string;
  filePath : string;
  coverImage : option string;
  lastPageRead : Z;
  totalPages : Z;
  categoryId : option string;
  genreTags : option (list string);
  fileType : string;
  isCompleted : bool;
  isFavorite : bool;
  source : string;
  price : option Q;
  affiliateUrl : option string;
  createdAt : string;
  updatedAt : string
}.
End Book.

(** [Omit<Book, 'id'>], the argument of [createBook]. *)
Module NewBook.
Record t : Type := mk {
  title : string;
  author : option string;
  filePath : string;
  coverImage : option string;
  lastPageRead : Z;
  totalPages : Z;
  categoryId : option string;
  genreTags : option (list string);
  fileType : string;
  isCompleted : bool;
  isFavorite : bool;
  source : string;
  price : option Q;
  affiliateUrl : option string;
  createdAt : string;
  updatedAt : string
}.
End NewBook.

Module UserSubscription.
Record t : Type := mk {
  id : string;
  tier : string;
  price : Q;
  features : list string;
  booksPerMonth : Z;
  hasAI : bool;
  hasNaturalTTS : bool;
  expiresAt : option string;
  createdAt : string
}.
End UserSubscription.

(** [Partial<UserSubscription>]: [None] is a property that is not there; a
    property that is there holds a value of its field's type. [expiresAt],
    optional in the interface, can be there and hold [undefined] (as
    [cancelSubscription] passes it): [Some None]. *)
Module PartialSubscription.
Record t : Type := mk {
  id : option string;
  tier : option string;
  price : option Q;
  features : option (list string);
  booksPerMonth : option Z;
  hasAI : option bool;
  hasNaturalTTS : option bool;
  expiresAt : option (option string);
  createdAt : option string
}.
Definition empty : t := mk None None None None None None None None None.
End PartialSubscription.

Module RecommendedBook.
Record t : Type := mk {
  id : string;
  title : string;
  author : string;
  genre : string;
  rating : Q;
  coverUrl : string;
  price : Q;
  affiliateUrl : string;
  description : string;
  isAvailableInArchive : bool
}.
End RecommendedBook.

(** ** The rows of the six SQLite tables, as the engine returns them *)

Module BookRow.
Record t : Type := mk {
  id : string;
  title : string;
  author : option string;
  filePath : string;
  coverImage : option string;
  lastPageRead : Z;
  totalPages : Z;
  categoryId : option string;
  genreTags : option string;
  fileType : string;
  isCompleted : Z;
  isFavorite : Z;
  source : string;
  price : option Q;
  affiliateUrl : option string;
  createdAt : string;
  updatedAt : string
}.

(** [SET lastPageRead = ?, updatedAt = ?] *)
Definition setProgress (page : Z) (now : string) (r : t) : t :=
  mk (id r) (title r) (author r) (filePath r) (coverImage r) page (totalPages r)
     (categoryId r) (genreTags r) (fileType r) (isCompleted r) (isFavorite r)
     (source r) (price r) (affiliateUrl r) (createdAt r) now.

(** [SET isFavorite = ?, updatedAt = ?] *)
Definition setFavorite (fav : Z) (now : string) (r : t) : t :=
  mk (id r) (title r) (author r) (filePath r) (coverImage r) (lastPageRead r)
     (totalPages r) (categoryId r) (genreTags r) (fileType r) (isCompleted r) fav
     (source r) (price r) (affiliateUrl r) (createdAt r) now.

(** [SET isCompleted = 1, categoryId = ?, updatedAt = ?] *)
Definition setCompleted (category : string) (now : string) (r : t) : t :=
  mk (id r) (title r) (author r) (filePath r) (coverImage r) (lastPageRead r)
     (totalPages r) (Some category) (genreTags r) (fileType r) 1 (isFavorite r)
     (source r) (price r) (affiliateUrl r) (createdAt r) now.

(** [SET categoryId = ?, updatedAt = ?] *)
Definition setCategory (category : string) (now : string) (r : t) : t :=
  mk (id r) (title r) (author r) (filePath r) (coverImage r) (lastPageRead r)
     (totalPages r) (Some category) (genreTags r) (fileType r) (isCompleted r)
     (isFavorite r) (source r) (price r) (affiliateUrl r) (createdAt r) now.
End BookRow.

Module SubscriptionRow.
Record t : Type := mk {
  id : string;
  tier : string;
  price : Q;
  features : string;
  booksPerMonth : Z;
  hasAI : Z;
  hasNaturalTTS : Z;
  expiresAt : option string;
  createdAt : string
}.
End SubscriptionRow.

Module Category.
Record t : Type := mk {
  id : string; name : string; icon : string; color : string;
  createdAt : string; updatedAt : string
}.
End Category.

Module Note.
Record t : Type := mk {
  id : string; bookId : string; content : string; page : Z;
  chapter : option string; createdAt : string; updatedAt : string
}.
End Note.

Module ChatHistory.
Record t : Type := mk {
  id : string; bookId : string; question : string; answer : string;
  page : option Z; createdAt : string
}.
End ChatHistory.

Module SettingsRow.
Record t : Type := mk {
  id : string; ttsMode : string; ttsVoice : string; fontSize : string;
  theme : string; autoSync : Z
}.
End SettingsRow.

(** [AppSettings], as [getSettings] returns it, and [Partial<AppSettings>]. *)
Module AppSettings.
Record t : Type := mk {
  id : string; ttsMode : string; ttsVoice : string; fontSize : string;
  theme : string; autoSync : bool
}.
End AppSettings.

Module PartialSettings.
Record t : Type := mk {
  id : option string; ttsMode : option string; ttsVoice : option string;
  fontSize : option string; theme : option string; autoSync : option bool
}.
End PartialSettings.

(** [Omit<Note, 'id'>], the argument of [createNote]. *)
Module NewNote.
Record t : Type := mk {
  bookId : string; content : string; page : Z;
  chapter : option string; createdAt : string; updatedAt : string
}.
End NewNote.

(** ** services/database.ts *)

Module DatabaseService.
Import JsString.

(** The database file: each table is a finite map from its primary key. *)
Record Store : Type := MkStore {
  categories : gmap string Category.t;
  books : gmap string BookRow.t;
  notes : gmap string Note.t;
  chatHistory : gmap string ChatHistory.t;
  userSubscription : gmap string SubscriptionRow.t;
  settings : gmap string SettingsRow.t
}.

Definition withBooks (b : gmap string BookRow.t) (s : Store) : Store :=
  MkStore (categories s) b (notes s) (chatHistory s) (userSubscription s) (settings s).

Definition withUserSubscription (u : gmap string SubscriptionRow.t) (s : Store) : Store :=
  MkStore (categories s) (books s) (notes s) (chatHistory s) u (settings s).

(** The service object: its [db] field is [null] until [init] has run. *)
Record t : Type := mk { db : option Store }.

Definition notInitialized : string := "Database not initialized".

(** [if (!this.db) throw new Error('Database not initialized')] *)
Definition requireDb (this : t) : Result Store :=
  match db this with
  | Some s => Ok s
  | None => Throw notInitialized
  end.

(** [Boolean(n)] on an integer column. *)
Definition Boolean (n : Z) : bool := negb (n =? 0).

(** [b ? 1 : 0] *)
Definition bit (b : bool) : Z := if b then 1 else 0.

Definition jsonParse (text : string) : Result (list string) :=
  match JSON.parse text with
  | Some l => Ok l
  | None => Throw "SyntaxError: JSON Parse error"
  end.

(** [result.genreTags ? JSON.parse(result.genreTags) : []] *)
Definition decodeGenreTags (column : option string) : Result (list string) :=
  match column with
  | Some text => if truthy text then jsonParse text else Ok []
  | None => Ok []
  end.

(** The object built by the read path:
    [{...result, genreTags: ..., isCompleted: Boolean(..), isFavorite: Boolean(..)}] *)
Definition decodeBook (r : BookRow.t) : Result Book.t :=
  tags ← decodeGenreTags (BookRow.genreTags r);
  mret (Book.mk (BookRow.id r) (BookRow.title r) (BookRow.author r)
          (BookRow.filePath r) (BookRow.coverImage r) (BookRow.lastPageRead r)
          (BookRow.totalPages r) (BookRow.categoryId r) (Some tags)
          (BookRow.fileType r) (Boolean (BookRow.isCompleted r))
          (Boolean (BookRow.isFavorite r)) (BookRow.source r) (BookRow.price r)
          (BookRow.affiliateUrl r) (BookRow.createdAt r) (BookRow.updatedAt r)).

(** [SELECT * FROM books WHERE id = ?] through [getFirstAsync]. *)
Definition getBookById (id : string) (this : t) : Result (option Book.t) :=
  s ← requireDb this;
  match books s !! id with
  | None => mret None
  | Some r => b ← decodeBook r; mret (Some b)
  end.

(** The row that [createBook] binds to its INSERT. *)
Definition encodeBook (id : string) (book : NewBook.t) : BookRow.t :=
  BookRow.mk id (NewBook.title book) (NewBook.author book) (NewBook.filePath book)
    (NewBook.coverImage book) (NewBook.lastPageRead book) (NewBook.totalPages book)
    (NewBook.categoryId book)
    (Some (JSON.stringify (default [] (NewBook.genreTags book))))
    (NewBook.fileType book)
    (bit (NewBook.isCompleted book)) (bit (NewBook.isFavorite book))
    (NewBook.source book) (NewBook.price book) (NewBook.affiliateUrl book)
    (NewBook.createdAt book) (NewBook.updatedAt book).

(** [createBook]: the id is [Date.now().toString()]; [now] is the clock
    reading in milliseconds. A plain INSERT fails on a primary key that is
    already there. *)
Definition createBook (now : Z) (book : NewBook.t) (this : t) : Result (string * t) :=
  s ← requireDb this;
  let id := pretty now in
  match books s !! id with
  | Some _ => Throw "UNIQUE constraint failed: books.id"
  | None => mret (id, mk (Some (withBooks (<[id := encodeBook id book]> (books s)) s)))
  end.

(** [UPDATE books SET ... WHERE id = ?]: the row with that key, if any. *)
Definition updateBookRow (f : BookRow.t -> BookRow.t) (bookId : string) (s : Store) : Store :=
  withBooks (alter f bookId (books s)) s.

Definition updateBookProgress (now : string) (bookId : string) (lastPageRead : Z)
    (this : t) : Result t :=
  s ← requireDb this;
  mret (mk (Some (updateBookRow (BookRow.setProgress lastPageRead now) bookId s))).

Definition toggleBookFavorite (now : string) (bookId : string) (this : t) : Result t :=
  s ← requireDb this;
  book ← getBookById bookId this;
  match book with
  | None => mret this
  | Some b =>
      mret (mk (Some (updateBookRow
                        (BookRow.setFavorite (if Book.isFavorite b then 0 else 1) now)
                        bookId s)))
  end.

(** The id of the seeded Read category. *)
Definition readCategoryId : string := "4".

Definition markBookCompleted (now : string) (bookId : string) (this : t) : Result t :=
  s ← requireDb this;
  mret (mk (Some (updateBookRow (BookRow.setCompleted readCategoryId now) bookId s))).

(** [SELECT * FROM userSubscription WHERE id = '1'] and its decoding. *)
Definition getUserSubscription (this : t) : Result (option UserSubscription.t) :=
  s ← requireDb this;
  match userSubscription s !! "1" with
  | None => mret None
  | Some r =>
      features ← jsonParse (SubscriptionRow.features r);
      mret (Some (UserSubscription.mk (SubscriptionRow.id r) (SubscriptionRow.tier r)
                    (SubscriptionRow.price r) features (SubscriptionRow.booksPerMonth r)
                    (Boolean (SubscriptionRow.hasAI r))
                    (Boolean (SubscriptionRow.hasNaturalTTS r))
                    (SubscriptionRow.expiresAt r) (SubscriptionRow.createdAt r)))
  end.

(** [{ ...current, ...subscription }] *)
Definition merge (current : UserSubscription.t) (p : PartialSubscription.t)
    : UserSubscription.t :=
  UserSubscription.mk
    (default (UserSubscription.id current) (PartialSubscription.id p))
    (default (UserSubscription.tier current) (PartialSubscription.tier p))
    (default (UserSubscription.price current) (PartialSubscription.price p))
    (default (UserSubscription.features current) (PartialSubscription.features p))
    (default (UserSubscription.booksPerMonth current) (PartialSubscription.booksPerMonth p))
    (default (UserSubscription.hasAI current) (PartialSubscription.hasAI p))
    (default (UserSubscription.hasNaturalTTS current) (PartialSubscription.hasNaturalTTS p))
    (default (UserSubscription.expiresAt current) (PartialSubscription.expiresAt p))
    (default (UserSubscription.createdAt current) (PartialSubscription.createdAt p)).

(** [UPDATE userSubscription SET tier = ?, price = ?, features = ?,
    booksPerMonth = ?, hasAI = ?, hasNaturalTTS = ?, expiresAt = ?
    WHERE id = '1']: the columns [id] and [createdAt] are not in the SET
    list. *)
Definition writeSubscription (updated : UserSubscription.t) (r : SubscriptionRow.t)
    : SubscriptionRow.t :=
  SubscriptionRow.mk (SubscriptionRow.id r)
    (UserSubscription.tier updated) (UserSubscription.price updated)
    (JSON.stringify (UserSubscription.features updated))
    (UserSubscription.booksPerMonth updated)
    (bit (UserSubscription.hasAI updated)) (bit (UserSubscription.hasNaturalTTS updated))
    (UserSubscription.expiresAt updated)
    (SubscriptionRow.createdAt r).

Definition updateSubscription (subscription : PartialSubscription.t) (this : t) : Result t :=
  s ← requireDb this;
  current ← getUserSubscription this;
  match current with
  | None => mret this
  | Some cur =>
      let updated := merge cur subscription in
      mret (mk (Some (withUserSubscription
                        (alter (writeSubscription updated) "1" (userSubscription s)) s)))
  end.

(** The database after [init] on a new file: the six empty tables with
    the data that [createDefaultData] inserts ([now] is the clock's ISO
    reading). *)
Definition defaultCategories (now : string) : gmap string Category.t :=
  list_to_map
    [ ("1", Category.mk "1" "Finance" "DollarSign" "#10B981" now now);
      ("2", Category.mk "2" "Leisure" "Coffee" "#F59E0B" now now);
      ("3", Category.mk "3" "Discipline" "Target" "#EF4444" now now);
      ("4", Category.mk "4" "Read" "CheckCircle" "#8B5CF6" now now);
      ("5", Category.mk "5" "Favorites" "Heart" "#EC4899" now now) ].

Definition defaultSubscription (now : string) : SubscriptionRow.t :=
  SubscriptionRow.mk "1" "free" 0
    (JSON.stringify ["Basic reading"; "Notes"; "Basic TTS"]) 0 0 0 None now.

Definition defaultSettings : SettingsRow.t :=
  SettingsRow.mk "1" "offline" "robotic" "medium" "light" 0.

Definition initialized (now : string) : t :=
  mk (Some (MkStore (defaultCategories now) ∅ ∅ ∅
              {[ "1" := defaultSubscription now ]} {[ "1" := defaultSettings ]})).

Definition updateBookCategory (now : string) (bookId categoryId : string) (this : t)
    : Result t :=
  s ← requireDb this;
  mret (mk (Some (updateBookRow (BookRow.setCategory categoryId now) bookId s))).

Definition withNotes (n : gmap string Note.t) (s : Store) : Store :=
  MkStore (categories s) (books s) n (chatHistory s) (userSubscription s) (settings s).

Definition withSettings (g : gmap string SettingsRow.t) (s : Store) : Store :=
  MkStore (categories s) (books s) (notes s) (chatHistory s) (userSubscription s) g.

Definition withCategories (c : gmap string Category.t) (s : Store) : Store :=
  MkStore c (books s) (notes s) (chatHistory s) (userSubscription s) (settings s).

(** [createNote]: the id is [Date.now().toString()]; a plain INSERT fails
    on a primary key that is already there. The reference from [bookId]
    to [books] is not checked here: the code does not turn the checking
    of foreign keys on. *)
Definition createNote (now : Z) (note : NewNote.t) (this : t) : Result (string * t) :=
  s ← requireDb this;
  let id := pretty now in
  match notes s !! id with
  | Some _ => Throw "UNIQUE constraint failed: notes.id"
  | None =>
      mret (id, mk (Some (withNotes
                            (<[id := Note.mk id (NewNote.bookId note) (NewNote.content note)
                                       (NewNote.page note) (NewNote.chapter note)
                                       (NewNote.createdAt note) (NewNote.updatedAt note)]>
                               (notes s)) s)))
  end.

(** [DELETE FROM notes WHERE id = ?] *)
Definition deleteNote (id : string) (this : t) : Result t :=
  s ← requireDb this;
  mret (mk (Some (withNotes (delete id (notes s)) s))).

(** [SELECT * FROM settings WHERE id = '1'] and its decoding. *)
Definition getSettings (this : t) : Result (option AppSettings.t) :=
  s ← requireDb this;
  match settings s !! "1" with
  | None => mret None
  | Some r =>
      mret (Some (AppSettings.mk (SettingsRow.id r) (SettingsRow.ttsMode r)
                    (SettingsRow.ttsVoice r) (SettingsRow.fontSize r)
                    (SettingsRow.theme r) (Boolean (SettingsRow.autoSync r))))
  end.

(** [{ ...current, ...settings }] *)
Definition mergeSettings (current : AppSettings.t) (p : PartialSettings.t) : AppSettings.t :=
  AppSettings.mk
    (default (AppSettings.id current) (PartialSettings.id p))
    (default (AppSettings.ttsMode current) (PartialSettings.ttsMode p))
    (default (AppSettings.ttsVoice current) (PartialSettings.ttsVoice p))
    (default (AppSettings.fontSize current) (PartialSettings.fontSize p))
    (default (AppSettings.theme current) (PartialSettings.theme p))
    (default (AppSettings.autoSync current) (PartialSettings.autoSync p)).

(** [UPDATE settings SET ttsMode = ?, ttsVoice = ?, fontSize = ?, theme = ?,
    autoSync = ? WHERE id = '1'] *)
Definition writeSettings (updated : AppSettings.t) (r : SettingsRow.t) : SettingsRow.t :=
  SettingsRow.mk (SettingsRow.id r) (AppSettings.ttsMode updated)
    (AppSettings.ttsVoice updated) (AppSettings.fontSize updated)
    (AppSettings.theme updated) (bit (AppSettings.autoSync updated)).

Definition updateSettings (settings' : PartialSettings.t) (this : t) : Result t :=
  s ← requireDb this;
  current ← getSettings this;
  match current with
  | None => mret this
  | Some cur =>
      let updated := mergeSettings cur settings' in
      mret (mk (Some (withSettings (alter (writeSettings updated) "1" (settings s)) s)))
  end.

(** *** [init]

    [file] is the database file that [openDatabaseAsync] finds ([None] for
    a new one, whose tables [createTables] creates empty); [clock] gives the
    successive readings of [new Date().toISOString()]. *)

Definition emptyStore : Store := MkStore ∅ ∅ ∅ ∅ ∅ ∅.

(** [INSERT OR IGNORE]: a row whose key is taken is left as it is. *)
Definition insertOrIgnore {V : Type} (k : string) (v : V) (m : gmap string V)
    : gmap string V :=
  match m !! k with
  | Some _ => m
  | None => <[k := v]> m
  end.

(** The array [defaultCategories]: ten readings of the clock. *)
Definition defaultCategoryRows (clock : nat -> string) : list Category.t :=
  [ Category.mk "1" "Finance" "DollarSign" "#10B981" (clock 0%nat) (clock 1%nat);
    Category.mk "2" "Leisure" "Coffee" "#F59E0B" (clock 2%nat) (clock 3%nat);
    Category.mk "3" "Discipline" "Target" "#EF4444" (clock 4%nat) (clock 5%nat);
    Category.mk "4" "Read" "CheckCircle" "#8B5CF6" (clock 6%nat) (clock 7%nat);
    Category.mk "5" "Favorites" "Heart" "#EC4899" (clock 8%nat) (clock 9%nat) ].

Definition createDefaultData (clock : nat -> string) (s : Store) : Store :=
  let categories' :=
    fold_left (fun m category => insertOrIgnore (Category.id category) category m)
      (defaultCategoryRows clock) (categories s) in
  let subscription' :=
    insertOrIgnore "1" (defaultSubscription (clock 10%nat)) (userSubscription s) in
  let settings' := insertOrIgnore "1" defaultSettings (settings s) in
  MkStore categories' (books s) (notes s) (chatHistory s) subscription' settings'.

Definition init (clock : nat -> string) (file : option Store) : t :=
  mk (Some (createDefaultData clock (default emptyStore file))).

(** Every row of [books] can be decoded: what the read path needs of a
    stored book. *)
Definition readable (this : t) : Prop :=
  forall s id r, db this = Some s -> books s !! id = Some r ->
    exists tags, decodeGenreTags (BookRow.genreTags r) = Ok tags.

End DatabaseService.

(** ** services/subscriptionService.ts *)

Module SubscriptionTier.
Record t : Type := mk {
  id : string; name : string; price : Q; features : list string;
  booksPerMonth : Z; hasAI : bool; hasNaturalTTS : bool; color : string
}.
End SubscriptionTier.

Module SubscriptionService.

Definition getCurrentSubscription (this : DatabaseService.t)
    : Result (option UserSubscription.t) :=
  DatabaseService.getUserSubscription this.

Definition tiers : list SubscriptionTier.t :=
  [ SubscriptionTier.mk "free" "Free" 0
      ["Basic reading"; "Notes"; "Basic TTS (robotic)"; "Local files only"]
      0 false false "#6B7280";
    SubscriptionTier.mk "basic" "Basic" (5 # 1)
      ["Everything in Free"; "AI explanations"; "1 free book/month"; "Natural TTS"]
      1 true true "#3B82F6";
    SubscriptionTier.mk "premium" "Premium" (8 # 1)
      ["Everything in Basic"; "2 free books/month"; "Priority AI responses";
       "Advanced search"]
      2 true true "#8B5CF6";
    SubscriptionTier.mk "pro" "Pro" (10 # 1)
      ["Everything in Premium"; "5 free books/month"; "Unlimited AI chat";
       "Early access features"]
      5 true true "#F59E0B" ].

(** [tiers.find(tier => tier.id === tierName)] *)
Definition getTierByName (tierName : string) : option SubscriptionTier.t :=
  List.find (fun tier => String.eqb (SubscriptionTier.id tier) tierName) tiers.

Definition canAccessFeature (userTier : string) (feature : string) : bool :=
  match getTierByName userTier with
  | None => false
  | Some tier =>
      if String.eqb feature "ai" then SubscriptionTier.hasAI tier
      else if String.eqb feature "naturalTTS" then SubscriptionTier.hasNaturalTTS tier
      else if String.eqb feature "freeBooks" then 0 <? SubscriptionTier.booksPerMonth tier
      else false
  end.

(** [30 * 24 * 60 * 60 * 1000] *)
Definition thirtyDays : Z := 30 * 24 * 60 * 60 * 1000.

(** [tiers[0].features] *)
Definition freeFeatures : list string :=
  from_option SubscriptionTier.features [] (head tiers).

(** The update that [cancelSubscription] sends: [expiresAt] is there and
    holds [undefined]. *)
Definition freeSubscription : PartialSubscription.t :=
  PartialSubscription.mk None (Some "free") (Some 0%Q) (Some freeFeatures)
    (Some 0) (Some false) (Some false) (Some None) None.

(** [cancelSubscription]: what it returns and the store it leaves; a
    throw of the store is caught and reported as [false]. *)
Definition cancelSubscription (this : DatabaseService.t) : bool * DatabaseService.t :=
  match DatabaseService.updateSubscription freeSubscription this with
  | Ok this' => (true, this')
  | Throw _ => (false, this)
  end.

Section Clock.

(** [new Date(ms).toISOString()], which throws a [RangeError] on a time
    value out of the range of dates. *)
Variable toISOString : Z -> Result string.

(** The update that [upgradeSubscription] sends for a tier. *)
Definition upgradeTo (tier : SubscriptionTier.t) (expiresAt : string)
    : PartialSubscription.t :=
  PartialSubscription.mk None (Some (SubscriptionTier.id tier))
    (Some (SubscriptionTier.price tier)) (Some (SubscriptionTier.features tier))
    (Some (SubscriptionTier.booksPerMonth tier)) (Some (SubscriptionTier.hasAI tier))
    (Some (SubscriptionTier.hasNaturalTTS tier)) (Some (Some expiresAt)) None.

(** [upgradeSubscription]: [now] is the reading of [Date.now()]. Whatever
    is thrown inside is caught and reported as [false]. *)
Definition upgradeSubscription (now : Z) (tierId : string) (this : DatabaseService.t)
    : bool * DatabaseService.t :=
  match List.find (fun t => String.eqb (SubscriptionTier.id t) tierId) tiers with
  | None => (false, this)
  | Some tier =>
      match toISOString (now + thirtyDays) with
      | Throw _ => (false, this)
      | Ok expiresAt =>
          match DatabaseService.updateSubscription (upgradeTo tier expiresAt) this with
          | Ok this' => (true, this')
          | Throw _ => (false, this)
          end
      end
  end.

End Clock.

End SubscriptionService.

(** ** AIService *)

Module AIService.
Import JsString.

Record AIResponse : Type := mkResponse {
  success : bool;
  content : string;
  error : option string
}.

(** What [askQuestion] hands to [fetch]. *)
Record FetchRequest : Type := mkRequest {
  url : string;
  authorization : string;
  model : string;
  systemContent : string;
  userContent : string;
  max_tokens : Z
}.

(** What the body of a response gives: [response.json()] throws, or
    [data.choices[0]?.message?.content] is read ([None] when it is
    missing). *)
Inductive Body : Type :=
| BodyThrows (message : string)
| BodyContent (text : option string).

(** What the network gives back: [fetch] rejects, or a response arrives. *)
Inductive FetchOutcome : Type :=
| FetchThrows (message : string)
| Response (ok : bool) (statusText : string) (body : Body).

Definition baseUrl : string := "https://openrouter.ai/api/v1/chat/completions".

Definition subscriptionRequired : string :=
  "AI features require a paid subscription. Upgrade to Basic ($5/month) or higher to access AI explanations and summaries.".

Definition notConfigured : string :=
  "AI service not configured. Please check your API key settings.".

Definition failure (message : string) : AIResponse :=
  mkResponse false EmptyString (Some message).

Definition newline : string := String (chr 10) EmptyString.

Section Collaborator.

(** [process.env.EXPO_PUBLIC_OPENROUTER_API_KEY || ''] *)
Variable apiKey : string.
(** The network. *)
Variable fetch : FetchRequest -> FetchOutcome.

Definition buildRequest (question bookContent bookTitle : string) (page : option Z)
    : FetchRequest :=
  let pageContext :=
    match page with
    | Some n => if n =? 0 then EmptyString else " (Page " +:+ pretty n +:+ ")"
    | None => EmptyString
    end in
  mkRequest baseUrl ("Bearer " +:+ apiKey) "openai/gpt-3.5-turbo"
    ("You are a helpful reading assistant for the book " +:+ String dquote bookTitle
       +:+ String dquote ". Provide clear, concise answers about the book content. Focus on explanations, summaries, and insights that help the reader understand better.")
    ("Book: " +:+ bookTitle +:+ pageContext +:+ newline +:+ newline
       +:+ "Content context: " +:+ String.substring 0 2000 bookContent +:+ "..."
       +:+ newline +:+ newline +:+ "Question: " +:+ question)
    500.

(** The body of the [try] block, with the requests it sent. *)
Definition attempt (question bookContent bookTitle : string) (page : option Z)
    (this : DatabaseService.t) : Result AIResponse * list FetchRequest :=
  match SubscriptionService.getCurrentSubscription this with
  | Throw e => (Throw e, [])
  | Ok subscription =>
      if negb (from_option UserSubscription.hasAI false subscription)
      then (Ok (failure subscriptionRequired), [])
      else if negb (truthy apiKey)
      then (Ok (failure notConfigured), [])
      else
        let request := buildRequest question bookContent bookTitle page in
        (match fetch request with
         | FetchThrows e => Throw e
         | Response ok statusText body =>
             if negb ok then Throw ("AI request failed: " +:+ statusText)
             else
               match body with
               | BodyThrows e => Throw e
               | BodyContent text =>
                   let content :=
                     match text with
                     | Some x => if truthy x then x else "No response received"
                     | None => "No response received"
                     end in
                   Ok (mkResponse true content None)
               end
         end, [request])
  end.

(** [askQuestion]: the [catch] turns whatever was thrown into a failure. *)
Definition askQuestion (question bookContent bookTitle : string) (page : option Z)
    (this : DatabaseService.t) : AIResponse * list FetchRequest :=
  let '(outcome, sent) := attempt question bookContent bookTitle page this in
  (match outcome with
   | Ok response => response
   | Throw e => failure e
   end, sent).

(** [summarizePage] and [explainConcept]: [askQuestion] on a question
    built from the page number, from the concept. *)
Definition summarizePage (pageContent bookTitle : string) (page : Z)
    (this : DatabaseService.t) : AIResponse * list FetchRequest :=
  askQuestion ("Please provide a concise summary of this page (" +:+ pretty page +:+ ").")
    pageContent bookTitle (Some page) this.

Definition explainConcept (concept bookContent bookTitle : string)
    (this : DatabaseService.t) : AIResponse * list FetchRequest :=
  askQuestion ("Please explain the concept of " +:+ String dquote concept
               +:+ String dquote " as mentioned in this book.")
    bookContent bookTitle None this.

End Collaborator.
End AIService.

(** ** services/ttsService.ts

    The calls into the speech module are recorded in the order they are
    made and are taken to resolve. The flag [isSpeaking] is followed up to
    the moment [speak] returns; the speech events that raise and lower it
    afterwards are not part of the model. *)

Module TTSService.
Import JsString.

Record Voice : Type := mkVoice {
  identifier : string;
  name : string;
  quality : string
}.

(** [callbacks] tells that [onStart], [onDone] and [onError] are set. *)
Record SpeechOptions : Type := mkOptions {
  rate : Q;
  pitch : Q;
  language : string;
  voice : option string;
  callbacks : bool
}.

Inductive SpeechCall : Type :=
| Stop
| GetAvailableVoices
| Speak (text : string) (options : SpeechOptions).

Definition naturalRequired : string :=
  "Natural TTS requires a paid subscription. Upgrade to Basic ($5/month) or higher.".

Section Platform.

(** [Platform.OS === 'web'] *)
Variable web : bool.
(** What [Speech.getAvailableVoicesAsync()] resolves to. *)
Variable voices : list Voice.

(** [voices.find(voice => voice.quality === 'Enhanced' ||
    voice.name.includes('Premium'))] *)
Definition findNatural : option Voice :=
  List.find (fun v => String.eqb (quality v) "Enhanced" || includes (name v) "Premium") voices.

(** [speak]: what it returns or throws, the flag [isSpeaking] it leaves,
    and the calls it made. *)
Definition speak (text : string) (useNaturalVoice : bool) (this : DatabaseService.t)
    (isSpeaking : bool) : Result unit * bool * list SpeechCall :=
  match SubscriptionService.getCurrentSubscription this with
  | Throw e => (Throw e, false, [])
  | Ok subscription =>
      let canUseNaturalTTS := from_option UserSubscription.hasNaturalTTS false subscription in
      if useNaturalVoice && negb canUseNaturalTTS
      then (Throw naturalRequired, false, [])
      else
        let stopped := if isSpeaking then [Stop] else [] in
        let asksVoices := useNaturalVoice && canUseNaturalTTS && negb web in
        let naturalVoice := if asksVoices then findNatural else None in
        let speechOptions :=
          mkOptions (if useNaturalVoice then 9 # 10 else 8 # 10)
            (if useNaturalVoice then 1 else 9 # 10)
            "en-US" (identifier <$> naturalVoice) (negb web) in
        (Ok tt, false,
         stopped ++ (if asksVoices then [GetAvailableVoices] else [])
         ++ [Speak text speechOptions])
  end.

End Platform.
End TTSService.

(** ** RecommendationService *)

Module RecommendationService.
Import JsString.

(** The tally [genreCount] and the catalog [bookDatabase] are object
    literals: a read [object[key]] finds the object's own property or,
    without one, the member of that name that every object inherits from
    [Object.prototype]. These are the names of those members. *)
Definition objectPrototypeMembers : list string :=
  [ "constructor"; "__proto__"; "hasOwnProperty"; "isPrototypeOf";
    "propertyIsEnumerable"; "toLocaleString"; "toString"; "valueOf";
    "__defineGetter__"; "__defineSetter__"; "__lookupGetter__"; "__lookupSetter__" ].

Definition inherited (name : string) : bool :=
  existsb (String.eqb name) objectPrototypeMembers.

(** What a property of the tally holds: a number, or the text that [+ 1]
    makes of an inherited member (a function, or [Object.prototype]
    itself under [__proto__]). The wording of that text is the
    implementation's; read as a number it is NaN. *)
Inductive value : Type :=
| Count (n : Z)
| Text.

(** An object built by assignments: its own properties in the order of
    their creation. *)
Definition tally : Type := list (string * value).

(** A tally that holds numbers only. *)
Definition record : Type := list (string * Z).

(** The own property under [key], if there is one. *)
Fixpoint own {V : Type} (key : string) (object : list (string * V)) : option V :=
  match object with
  | [] => None
  | (k, v) :: rest => if String.eqb k key then Some v else own key rest
  end.

(** [object[key] = v] for a key other than [__proto__]: the own property
    is overwritten in place, or created behind the others. *)
Fixpoint assign {V : Type} (key : string) (v : V) (object : list (string * V))
    : list (string * V) :=
  match object with
  | [] => [(key, v)]
  | (k, w) :: rest =>
      if String.eqb k key then (k, v) :: rest else (k, w) :: assign key v rest
  end.

(** [genreCount[genre] = (genreCount[genre] || 0) + 1]. A number is
    counted up; without an own property an inherited member is read, which
    is truthy, and [+ 1] makes text of it; text stays text. The assignment
    to [__proto__] goes to the inherited setter, which ignores a value
    that is not an object. *)
Definition bump (genre : string) (genreCount : tally) : tally :=
  let next :=
    match own genre genreCount with
    | Some (Count n) => Count (n + 1)
    | Some Text => Text
    | None => if inherited genre then Text else Count (0 + 1)
    end in
  if String.eqb genre "__proto__" then genreCount else assign genre next genreCount.

(** One round of [books.forEach]:
    [if (book.genreTags && Array.isArray(book.genreTags))], every tag is
    counted. *)
Definition tallyStep (genreCount : tally) (book : Book.t) : tally :=
  match Book.genreTags book with
  | Some tags => fold_left (fun acc genre => bump genre acc) tags genreCount
  | None => genreCount
  end.

Definition analyzeGenrePreferences (books : list Book.t) : tally :=
  fold_left tallyStep books [].

(** Property keys that are array indices: canonical decimal numerals
    below 2^32 - 1. *)
Fixpoint digitsValue (acc : N) (s : string) : option N :=
  match s with
  | EmptyString => Some acc
  | String c s' =>
      let n := code c in
      if ((48 <=? n) && (n <=? 57))%N then digitsValue (acc * 10 + (n - 48))%N s'
      else None
  end.

Definition arrayIndex (s : string) : option N :=
  match s with
  | EmptyString => None
  | String c s' =>
      if Ascii.eqb c "0" && truthy s' then None
      else match digitsValue 0%N s with
           | Some v => if (v <? 4294967295)%N then Some v else None
           | None => None
           end
  end.

Definition isArrayIndex (s : string) : bool :=
  match arrayIndex s with
  | Some _ => true
  | None => false
  end.

Fixpoint insertIndexed {V : Type} (e : N * (string * V)) (l : list (N * (string * V)))
    : list (N * (string * V)) :=
  match l with
  | [] => [e]
  | x :: rest => if (fst e <? fst x)%N then e :: x :: rest else x :: insertIndexed e rest
  end.

Definition indexed {V : Type} (r : list (string * V)) : list (N * (string * V)) :=
  omap (fun e => i ← arrayIndex (fst e); Some (i, e)) r.

(** [Object.entries]: the array-index keys in ascending numeric order,
    then the other keys in the order of their creation. *)
Definition entries {V : Type} (r : list (string * V)) : list (string * V) :=
  map snd (foldr insertIndexed [] (indexed r))
  ++ List.filter (fun e => negb (isArrayIndex (fst e))) r.

(** [b - a] on the values of two entries: [None] is NaN, the difference
    when one of the two is text. *)
Definition difference (a b : value) : option Z :=
  match a, b with
  | Count x, Count y => Some (y - x)
  | _, _ => None
  end.

(** The comparator [([,a], [,b]) => b - a] called on [x] and [e]: a
    positive result puts [x] behind [e]; [sort] takes NaN for 0. *)
Definition behind (x e : string * value) : bool :=
  match difference (snd x) (snd e) with
  | Some d => 0 <? d
  | None => false
  end.

(** A stable sort under that comparator: an entry goes behind the entries
    that precede it and are not put behind it. *)
Fixpoint insertSorted (e : string * value) (sorted : tally) : tally :=
  match sorted with
  | [] => [e]
  | x :: rest =>
      if behind x e then e :: x :: rest
      else x :: insertSorted e rest
  end.

Definition sort (l : tally) : tally :=
  fold_left (fun sorted e => insertSorted e sorted) l [].

(** The language fixes the order that [sort] leaves only for a
    comparator that is consistent on the values at hand. This one is when
    the values are all numbers, and also when the numbers among them are
    all the same (every call then gives 0 or NaN); with text beside two
    different numbers it is not, and the order is the implementation's. *)
Definition isCount (v : value) : bool :=
  match v with
  | Count _ => true
  | Text => false
  end.

Definition sameCount (a b : value) : bool :=
  match a, b with
  | Count x, Count y => x =? y
  | _, _ => true
  end.

Definition consistent (l : tally) : bool :=
  forallb (fun e => isCount (snd e)) l
  || forallb (fun x => forallb (fun y => sameCount (snd x) (snd y)) l) l.

Definition fin1 : RecommendedBook.t :=
  RecommendedBook.mk "fin-1" "Rich Dad Poor Dad" "Robert Kiyosaki" "Finance" (47 # 10)
    "https://images.pexels.com/photos/159711/books-bookstore-book-reading-159711.jpeg?auto=compress&cs=tinysrgb&w=300&h=400&fit=crop"
    (1299 # 100) "https://amazon.com/dp/1612680194"
    "A guide to financial literacy and building wealth through smart investments." true.

Definition fin2 : RecommendedBook.t :=
  RecommendedBook.mk "fin-2" "The Intelligent Investor" "Benjamin Graham" "Finance" (48 # 10)
    "https://images.pexels.com/photos/159711/books-bookstore-book-reading-159711.jpeg?auto=compress&cs=tinysrgb&w=300&h=400&fit=crop"
    (1599 # 100) "https://amazon.com/dp/0060555661"
    "The definitive book on value investing and market analysis." true.

Definition bus1 : RecommendedBook.t :=
  RecommendedBook.mk "bus-1" "Atomic Habits" "James Clear" "Business" (49 # 10)
    "https://images.pexels.com/photos/159711/books-bookstore-book-reading-159711.jpeg?auto=compress&cs=tinysrgb&w=300&h=400&fit=crop"
    (1399 # 100) "https://amazon.com/dp/0735211299"
    "An easy way to build good habits and break bad ones." true.

Definition bus2 : RecommendedBook.t :=
  RecommendedBook.mk "bus-2" "The Lean Startup" "Eric Ries" "Business" (45 # 10)
    "https://images.pexels.com/photos/159711/books-bookstore-book-reading-159711.jpeg?auto=compress&cs=tinysrgb&w=300&h=400&fit=crop"
    (1499 # 100) "https://amazon.com/dp/0307887898"
    "How constant innovation creates radically successful businesses." false.

Definition fic1 : RecommendedBook.t :=
  RecommendedBook.mk "fic-1" "The Seven Husbands of Evelyn Hugo" "Taylor Jenkins Reid" "Fiction" (48 # 10)
    "https://images.pexels.com/photos/159711/books-bookstore-book-reading-159711.jpeg?auto=compress&cs=tinysrgb&w=300&h=400&fit=crop"
    (1199 # 100) "https://amazon.com/dp/1501161938"
    "A captivating novel about a reclusive Hollywood icon." true.

Definition tech1 : RecommendedBook.t :=
  RecommendedBook.mk "tech-1" "Clean Code" "Robert C. Martin" "Technical" (47 # 10)
    "https://images.pexels.com/photos/159711/books-bookstore-book-reading-159711.jpeg?auto=compress&cs=tinysrgb&w=300&h=400&fit=crop"
    (2499 # 100) "https://amazon.com/dp/0132350884"
    "A handbook of agile software craftsmanship." true.

(** The mock catalog, in declaration order. *)
Definition bookDatabase : list (string * list RecommendedBook.t) :=
  [ ("finance", [fin1; fin2]);
    ("business", [bus1; bus2]);
    ("fiction", [fic1]);
    ("technical", [tech1]) ].

(** [Object.values(bookDatabase).flat()] *)
Definition allBooks : list RecommendedBook.t := flat_map snd bookDatabase.

(** [recommendations.some(rec => rec.id === book.id)] *)
Definition included (recommendations : list RecommendedBook.t) (book : RecommendedBook.t)
    : bool :=
  existsb (fun rec => String.eqb (RecommendedBook.id rec) (RecommendedBook.id book))
    recommendations.

(** The backfill: [if (recommendations.length < 6) { ... }] *)
Definition backfill (recommendations : list RecommendedBook.t) : list RecommendedBook.t :=
  if (length recommendations <? 6)%nat then
    let remaining :=
      firstn (6 - length recommendations)
        (List.filter (fun book => negb (included recommendations book)) allBooks) in
    recommendations ++ remaining
  else recommendations.

(** [bookDatabase[genre] || []]: the array under an own key; without an
    own key the inherited member of that name, which is truthy and not an
    array ([None]); the empty array otherwise. *)
Definition catalogOf (genre : string) : option (list RecommendedBook.t) :=
  match own genre bookDatabase with
  | Some genreBooks => Some genreBooks
  | None => if inherited genre then None else Some []
  end.

(** The names of the three genres that lead the sorted entries. *)
Definition topGenres (genreFrequency : tally) : list string :=
  map fst (firstn 3 (sort (entries genreFrequency))).

(** [topGenres.forEach(genre => recommendations.push(...genreBooks))]:
    [None] when a spread throws, which it does on what is not iterable. *)
Fixpoint gather (genres : list string) (recommendations : list RecommendedBook.t)
    : option (list RecommendedBook.t) :=
  match genres with
  | [] => Some recommendations
  | genre :: rest =>
      match catalogOf genre with
      | Some genreBooks => gather rest (recommendations ++ genreBooks)
      | None => None
      end
  end.

(** What a call comes to: a value, a throw, or a result that the
    language leaves to the implementation. *)
Inductive Outcome (A : Type) : Type :=
| Returns (a : A)
| Throws (message : string)
| Unspecified.
Arguments Returns {A} a.
Arguments Throws {A} message.
Arguments Unspecified {A}.

Definition notIterable : string := "TypeError: genreBooks is not iterable".

(** [generateRecommendations]. Where the comparator is not consistent
    the order of the sorted entries is not fixed; with at most three
    entries all of them are selected whatever the order, so that the call
    still throws when one of them names no array. *)
Definition generateRecommendations (genreFrequency : tally)
    : Outcome (list RecommendedBook.t) :=
  let sortable := entries genreFrequency in
  if consistent sortable then
    match gather (topGenres genreFrequency) [] with
    | Some recommendations => Returns (firstn 8 (backfill recommendations))
    | None => Throws notIterable
    end
  else if (length sortable <=? 3)%nat
          && existsb (fun e => match catalogOf (fst e) with
                               | Some _ => false
                               | None => true
                               end) sortable
  then Throws notIterable
  else Unspecified.

(** [getRecommendations], from the books that [getAllBooks] returned:
    whatever is thrown is caught and the empty list returned. [None] is a
    result that the language leaves to the implementation. *)
Definition recommend (books : list Book.t) : option (list RecommendedBook.t) :=
  match generateRecommendations (analyzeGenrePreferences books) with
  | Returns recommendations => Some recommendations
  | Throws _ => Some []
  | Unspecified => None
  end.

(** *** Vocabulary of the properties *)

(** How often [genre] occurs in a list of tags, and in the tags of a
    library. *)
Fixpoint countTag (genre : string) (tags : list string) : Z :=
  match tags with
  | [] => 0
  | t :: rest => (if String.eqb t genre then 1 else 0) + countTag genre rest
  end.

Fixpoint occurrences (genre : string) (books : list Book.t) : Z :=
  match books with
  | [] => 0
  | b :: rest => countTag genre (default [] (Book.genreTags b)) + occurrences genre rest
  end.

(** The tags of a library in reading order, and the distinct genres among
    them in the order of their first appearance. *)
Definition allTags (books : list Book.t) : list string :=
  flat_map (fun b => default [] (Book.genreTags b)) books.

Definition note (seen : list string) (genre : string) : list string :=
  if existsb (String.eqb genre) seen then seen else seen ++ [genre].

Definition firstSeen (tags : list string) : list string := fold_left note tags [].

(** The position of a genre among the keys of the catalog (4 when the
    catalog has no such key). *)
Fixpoint catalogRank (catalog : list (string * list RecommendedBook.t)) (genre : string) : nat :=
  match catalog with
  | [] => 0
  | (g, _) :: rest => if String.eqb g genre then 0 else S (catalogRank rest genre)
  end.

(** The reading of the tie-break by catalog declaration order: of two
    selected genres with the same count, the one declared first in the
    catalog comes first. *)
Definition tiesByCatalogOrder (genreFrequency : tally) : Prop :=
  forall i j g1 g2,
    topGenres genreFrequency !! i = Some g1 -> topGenres genreFrequency !! j = Some g2 ->
    own g1 genreFrequency = own g2 genreFrequency ->
    (catalogRank bookDatabase g1 < catalogRank bookDatabase g2)%nat ->
    (i < j)%nat.

(** A tally that holds numbers only, as a tally. *)
Definition numbers (r : record) : tally := map (fun e => (fst e, Count (snd e))) r.

(** No tag of the library is the name of a member that objects inherit. *)
Definition plainTags (books : list Book.t) : Prop :=
  Forall (fun genre => inherited genre = false) (allTags books).

(** Every entry of [first] that is in [result] stands before every entry
    of [second] that is. *)
Definition ahead (first second result : list RecommendedBook.t) : Prop :=
  forall i j a b,
    result !! i = Some a -> result !! j = Some b ->
    In a first -> In b second -> (i < j)%nat.

(** The same on ids, as a test. *)
Definition inIds (x : string) (ids : list string) : bool := existsb (String.eqb x) ids.

Fixpoint aheadIds (first second ids : list string) : bool :=
  match ids with
  | [] => true
  | x :: rest =>
      (if inIds x second
       then negb (inIds x first) && negb (existsb (fun y => inIds y first) rest)
       else true)
      && aheadIds first second rest
  end.

(** The order that the sort leaves: no entry stands before one with a
    greater count. *)
Definition byCountDesc (a b : string * Z) : Prop := snd b <= snd a.

(** The entries whose count is [n]. *)
Definition withCount (n : Z) (l : record) : record :=
  List.filter (fun e => snd e =? n) l.

(** The shelf of the catalog that a genre name selects. *)
Inductive shelfName : Type := Finance | Business | Fiction | Technical | Elsewhere.

Definition classify (genre : string) : shelfName :=
  if String.eqb "finance" genre then Finance
  else if String.eqb "business" genre then Business
  else if String.eqb "fiction" genre then Fiction
  else if String.eqb "technical" genre then Technical
  else Elsewhere.

Definition shelf (c : shelfName) : list RecommendedBook.t :=
  match c with
  | Finance => [fin1; fin2]
  | Business => [bus1; bus2]
  | Fiction => [fic1]
  | Technical => [tech1]
  | Elsewhere => []
  end.

(** In a list of genres, "finance" comes once and before any "fiction",
    or neither comes. *)
Fixpoint financeLeads (genres : list string) : bool :=
  match genres with
  | [] => true
  | g :: rest =>
      if String.eqb "finance" g then negb (existsb (String.eqb "finance") rest)
      else if String.eqb "fiction" g then false
      else financeLeads rest
  end.

(** The recommendations as a function of the shelves that the selected
    genres name. *)
Definition fromShelves (cs : list shelfName) : list RecommendedBook.t :=
  firstn 8 (backfill (flat_map shelf cs)).

Fixpoint financeLeadsOnShelves (cs : list shelfName) : bool :=
  match cs with
  | [] => true
  | Finance :: rest =>
      negb (existsb (fun c => match c with Finance => true | _ => false end) rest)
  | Fiction :: _ => false
  | _ :: rest => financeLeadsOnShelves rest
  end.

(** *** The same on plain tags

    For a library whose tags name no inherited member the tally holds
    numbers throughout and every read finds an own property or nothing.
    This is the computation on such a library, written on numbers; the
    properties of the ranking are proved on it and carried over. *)
Module Plain.

Fixpoint bump (genre : string) (genreCount : record) : record :=
  match genreCount with
  | [] => [(genre, 0 + 1)]
  | (g, n) :: rest =>
      if String.eqb g genre then (g, n + 1) :: rest
      else (g, n) :: bump genre rest
  end.

Definition tallyStep (genreCount : record) (book : Book.t) : record :=
  match Book.genreTags book with
  | Some tags => fold_left (fun acc genre => bump genre acc) tags genreCount
  | None => genreCount
  end.

Definition analyzeGenrePreferences (books : list Book.t) : record :=
  fold_left tallyStep books [].

(** An entry goes behind the entries with a greater or equal count that
    precede it. *)
Fixpoint insertByCount (e : string * Z) (sorted : record) : record :=
  match sorted with
  | [] => [e]
  | x :: rest =>
      if snd x <? snd e then e :: x :: rest
      else x :: insertByCount e rest
  end.

Definition sortByCount (l : record) : record :=
  fold_left (fun sorted e => insertByCount e sorted) l [].

(** The array under an own key of the catalog, the empty one without. *)
Fixpoint catalogOf (catalog : list (string * list RecommendedBook.t)) (genre : string)
    : list RecommendedBook.t :=
  match catalog with
  | [] => []
  | (g, l) :: rest => if String.eqb g genre then l else catalogOf rest genre
  end.

Definition topGenres (genreFrequency : record) : list string :=
  map fst (firstn 3 (sortByCount (entries genreFrequency))).

Definition generateRecommendations (genreFrequency : record) : list RecommendedBook.t :=
  let recommendations := flat_map (catalogOf bookDatabase) (topGenres genreFrequency) in
  firstn 8 (backfill recommendations).

Definition recommend (books : list Book.t) : list RecommendedBook.t :=
  generateRecommendations (analyzeGenrePreferences books).

(** The count of a genre in a tally of numbers, 0 without an entry. *)
Fixpoint count (genre : string) (r : record) : Z :=
  match r with
  | [] => 0
  | (g, n) :: rest => if String.eqb g genre then n else count genre rest
  end.

End Plain.

End RecommendationService.

(** ** app/reader/[id].tsx: the pager of the reader screen *)

Module Reader.
Import JsString.

(** [content.split(/\s+/)]: [cur] is the piece being read, [gap] tells
    that the previous character was white space. A separator at either
    end leaves an empty piece there, and the empty text is one empty
    piece. *)
Fixpoint splitFrom (cur : string) (gap : bool) (s : string) : list string :=
  match s with
  | EmptyString => [cur]
  | String c s' =>
      if is_space c then
        if gap then splitFrom EmptyString true s'
        else cur :: splitFrom EmptyString true s'
      else splitFrom (cur +:+ String c EmptyString) false s'
  end.

Definition split (s : string) : list string := splitFrom EmptyString false s.

(** [Math.ceil(a / b)] for integers [a] and [b > 0]. *)
Definition ceilDiv (a b : Z) : Z := (a + b - 1) / b.

(** [Array.prototype.slice(start, end)]: a negative index counts from the
    end, and both are clamped to the array. *)
Definition relativeIndex (len k : Z) : Z :=
  if k <? 0 then Z.max (len + k) 0 else Z.min k len.

Definition slice {A : Type} (l : list A) (startIndex endIndex : Z) : list A :=
  let len := Z.of_nat (length l) in
  let a := relativeIndex len startIndex in
  let b := relativeIndex len endIndex in
  firstn (Z.to_nat (b - a)) (skipn (Z.to_nat a) l).

Definition wordsPerPage : Z := 400.

Definition placeholder : string :=
  "This file type requires the full native version of the app for optimal reading. You can still add notes and use AI features with the visible content.".

Definition unreadable : string :=
  "Unable to read file content. This may be a PDF or EPUB file that requires a native reader.".

(** The state hooks of the screen that the pager uses. *)
Record State : Type := MkState {
  book : option Book.t;
  content : string;
  currentPage : Z;
  totalPages : Z
}.

Definition initial : State := MkState None EmptyString 0 0.

(** The words of the page on display. *)
Definition pageWords (st : State) : list string :=
  let words := split (content st) in
  let startIndex := currentPage st * wordsPerPage in
  let endIndex := startIndex + wordsPerPage in
  slice words startIndex endIndex.

Definition getPageContent (st : State) : string :=
  if truthy (content st) then join " " (pageWords st) else EmptyString.

Section FileSystem.

(** [FileSystem.readAsStringAsync]: [None] when it rejects. *)
Variable readAsStringAsync : string -> option string.

(** [FileService.readTextFile] *)
Definition readTextFile (uri : string) : string :=
  match readAsStringAsync uri with
  | Some text => text
  | None => unreadable
  end.

(** [loadBook], on the book that [getBookById] found. *)
Definition loadFound (foundBook : Book.t) (st : State) : State :=
  if String.eqb (Book.fileType foundBook) "txt" then
    let fileContent := readTextFile (Book.filePath foundBook) in
    let words := Z.of_nat (length (split fileContent)) in
    let pages := ceilDiv words 400 in
    MkState (Some foundBook) fileContent (Book.lastPageRead foundBook) pages
  else
    MkState (Some foundBook) placeholder (Book.lastPageRead foundBook) 1.

(** [loadBook]: a missing book and a failing store leave the screen as it
    is (the screen navigates back). *)
Definition loadBook (id : string) (this : DatabaseService.t) (st : State) : State :=
  match DatabaseService.getBookById id this with
  | Ok (Some foundBook) => loadFound foundBook st
  | Ok None => st
  | Throw _ => st
  end.

End FileSystem.

Definition withPage (page : Z) (st : State) : State :=
  MkState (book st) (content st) page (totalPages st).

(** [goToPage]: the screen state afterwards and what the store calls did
    ([now] and [now'] are the clock readings of the two store calls). *)
Definition goToPage (now now' : string) (page : Z) (st : State) (this : DatabaseService.t)
    : State * Result DatabaseService.t :=
  if (page <? 0) || (totalPages st <=? page) then (st, Ok this)
  else
    let st' := withPage page st in
    match book st with
    | None => (st', Ok this)
    | Some b =>
        (st',
         this1 ← DatabaseService.updateBookProgress now (Book.id b) page this;
         if (totalPages st - 1 <=? page) && negb (Book.isCompleted b)
         then DatabaseService.markBookCompleted now' (Book.id b) this1
         else mret this1)
    end.

(** *** Vocabulary of the properties *)

(** The words of a text: its maximal runs of characters that are not
    white space ([cur] is the word being read). *)
Fixpoint wordsFrom (cur : string) (s : string) : list string :=
  match s with
  | EmptyString => if truthy cur then [cur] else []
  | String c s' =>
      if is_space c then
        if truthy cur then cur :: wordsFrom EmptyString s' else wordsFrom EmptyString s'
      else wordsFrom (cur +:+ String c EmptyString) s'
  end.

Definition wordsOf (s : string) : list string := wordsFrom EmptyString s.

(** The empty pieces that [split] leaves besides the words: one in front
    of a text that begins with white space, one behind a text that ends
    with white space, and one for the empty text. *)
Definition leading (s : string) : list string :=
  if FileService.startsWithSpace s then [EmptyString] else [].

Definition trailing (s : string) : list string :=
  match s with
  | EmptyString => [EmptyString]
  | String _ _ => if FileService.endsWithSpace s then [EmptyString] else []
  end.

(** The buttons Previous and Next. *)
Definition previousPage (now now' : string) (st : State) (this : DatabaseService.t)
    : State * Result DatabaseService.t :=
  goToPage now now' (currentPage st - 1) st this.

Definition nextPage (now now' : string) (st : State) (this : DatabaseService.t)
    : State * Result DatabaseService.t :=
  goToPage now now' (currentPage st + 1) st this.

(** [toggleTTS]. [subscription] is the copy that the screen loaded,
    [isSpeaking] the screen's flag and [serviceSpeaking] the flag of
    [TTSService]. The result: the screen's flag, the alert shown if any,
    the flag of the service, and the calls into the speech module. *)
Definition toggleTTS (web : bool) (voices : list TTSService.Voice)
    (subscription : option UserSubscription.t) (isSpeaking : bool) (st : State)
    (this : DatabaseService.t) (serviceSpeaking : bool)
    : bool * option (string * string) * bool * list TTSService.SpeechCall :=
  if isSpeaking then (false, None, false, [TTSService.Stop])
  else
    let pageContent := getPageContent st in
    if truthy pageContent then
      let useNaturalVoice := from_option UserSubscription.hasNaturalTTS false subscription in
      match TTSService.speak web voices pageContent useNaturalVoice this serviceSpeaking with
      | (Ok _, flag, calls) => (false, None, flag, calls)
      | (Throw message, flag, calls) => (false, Some ("TTS Error", message), flag, calls)
      end
    else (false, None, serviceSpeaking, []).

(** The note form of the screen. *)
Record NoteForm : Type := MkForm {
  noteText : string;
  showNoteModal : bool
}.

(** [addNote]: the form afterwards, the alert shown if any, and the
    store. [now] is the reading of [Date.now()] inside [createNote];
    [created] and [updated] are the two ISO readings taken before. *)
Definition addNote (now : Z) (created updated : string) (form : NoteForm) (st : State)
    (this : DatabaseService.t)
    : NoteForm * option (string * string) * DatabaseService.t :=
  if negb (truthy (trim (noteText form))) then (form, None, this)
  else
    match book st with
    | None => (form, None, this)
    | Some b =>
        match DatabaseService.createNote now
                (NewNote.mk (Book.id b) (trim (noteText form)) (currentPage st) None
                   created updated) this with
        | Ok (_, this') =>
            (MkForm EmptyString false, Some ("Success", "Note added successfully!"), this')
        | Throw _ => (form, Some ("Error", "Failed to add note"), this)
        end
    end.

End Reader.

(** ** Sample data for the examples below *)

Module Examples.

Definition clock : string := "2024-05-01T10:00:00.000Z".
Definition later : string := "2024-05-02T08:30:00.000Z".

(** The book that [addBook] builds for a picked file. *)
Definition pickedBook : NewBook.t :=
  NewBook.mk "Money and War" None "file:///books/1714557600000_Money and War.txt" None
    0 0 (Some "2") (Some (FileService.detectGenre "Money and War.txt" None)) "txt"
    false false "local" None None clock clock.

(** A store right after [init], and the same with one book imported. *)
Definition service0 : DatabaseService.t := DatabaseService.initialized clock.

Definition service1 : DatabaseService.t :=
  match DatabaseService.createBook 1714557600000 pickedBook service0 with
  | Ok (_, this) => this
  | Throw _ => service0
  end.

(** A partial update that names only [createdAt]. *)
Definition backdated : PartialSubscription.t :=
  PartialSubscription.mk None None None None None None None None (Some later).

(** The update that [upgradeSubscription('basic')] sends. *)
Definition upgradeToBasic : PartialSubscription.t :=
  PartialSubscription.mk None (Some "basic") (Some (5 # 1)%Q)
    (Some ["Everything in Free"; "AI explanations"; "1 free book/month"; "Natural TTS"])
    (Some 1) (Some true) (Some true) (Some (Some "2024-05-31T10:00:00.000Z")) None.

(** A text of a thousand words, the file that holds it, and the book
    stored for it. *)
Definition thousandWords : string := JsString.join " " (repeat "lorem" 1000).

(** The same thousand words behind one space, and four hundred words
    with a line feed at the end, each as the one file of a disk. *)
Definition indented : string := " " +:+ thousandWords.

Definition indentedDisk (uri : string) : option string := Some indented.

Definition fourHundredLine : string :=
  JsString.join " " (repeat "lorem" 400) +:+ String (JsString.chr 10) EmptyString.

Definition lineDisk (uri : string) : option string := Some fourHundredLine.

Definition disk (uri : string) : option string :=
  if String.eqb uri "file:///books/lorem.txt" then Some thousandWords else None.

Definition loremBook : Book.t :=
  Book.mk "1714557600001" "Lorem" None "file:///books/lorem.txt" None 0 0 (Some "2")
    (Some ["general"]) "txt" false false "local" None None clock clock.

(** Libraries: a book tagged by [detectGenre] for each title. *)
Definition tagged (title : string) : Book.t :=
  Book.mk title title None ("file:///books/" +:+ title) None 0 0 (Some "2")
    (Some (FileService.detectGenre title None)) "txt" false false "local" None None
    clock clock.

(** A book with the given tags. *)
Definition withTags (title : string) (tags : list string) : Book.t :=
  Book.mk title title None ("file:///books/" +:+ title) None 0 0 (Some "2")
    (Some tags) "txt" false false "local" None None clock clock.

(** Sorted by title as [getAllBooks] returns them: one fiction book, then
    one finance book. *)
Definition twoBooks : list Book.t := [tagged "A Novel"; tagged "Money"].

(** Five books tagged finance, one tagged fiction, and history in between. *)
Definition sixBooks : list Book.t :=
  [ tagged "A Tale of Two Cities"; tagged "Economics"; tagged "Money";
    tagged "Money and War"; tagged "Trading"; tagged "Wealth" ].

(** The store after the upgrade to the Basic tier. *)
Definition service2 : DatabaseService.t :=
  match DatabaseService.updateSubscription upgradeToBasic service0 with
  | Ok this => this
  | Throw _ => service0
  end.

(** A calendar that always reads the same date. *)
Definition endOfMay (ms : Z) : Result string := Ok "2024-05-31T10:00:00.000Z".

(** A network that always answers. *)
Definition answering (request : AIService.FetchRequest) : AIService.FetchOutcome :=
  AIService.Response true "OK" (AIService.BodyContent (Some "It is about whales.")).

End Examples.

(** * Properties *)

(** ** Strings *)

Module JsStringFacts.
Import JsString.

Lemma append_nil_r (s : string) : s +:+ EmptyString = s.
Proof. induction s as [|c s IH]; simpl; [reflexivity | f_equal; exact IH]. Qed.

Lemma append_assoc (a b c : string) : (a +:+ b) +:+ c = a +:+ (b +:+ c).
Proof. induction a as [|x a IH]; simpl; [reflexivity | f_equal; exact IH]. Qed.

Lemma startsWith_spec (s pre : string) :
  startsWith s pre = true <-> exists post, s = pre +:+ post.
Proof.
  revert s. induction pre as [|p pre IH]; intros s; simpl.
  - split; [intros _; now exists s | reflexivity].
  - destruct s as [|c s].
    + split; [discriminate | intros [post H]; discriminate].
    + rewrite andb_true_iff, IH. split.
      * intros [Hc [post ->]]. apply Ascii.eqb_eq in Hc. subst. now exists post.
      * intros [post H]. injection H as -> ->. split; [apply Ascii.eqb_refl | now exists post].
Qed.

(** [includes] decides the occurrence of a substring. *)
Lemma includes_spec (s sub : string) :
  includes s sub = true <-> exists pre post, s = pre +:+ sub +:+ post.
Proof.
  induction s as [|c s IH].
  - simpl. rewrite orb_false_r, startsWith_spec. split.
    + intros [post H]. now exists EmptyString, post.
    + intros [pre [post H]]. destruct pre; [now exists post | discriminate].
  - cbn [includes]. rewrite orb_true_iff, startsWith_spec, IH. split.
    + intros [[post H] | [pre [post H]]].
      * now exists EmptyString, post.
      * exists (String c pre), post. simpl. now rewrite H.
    + intros [pre [post H]]. destruct pre as [|x pre].
      * left. now exists post.
      * right. simpl in H. injection H as _ H. now exists pre, post.
Qed.

Lemma includes_false (s sub : string) :
  includes s sub = false <-> ~ exists pre post, s = pre +:+ sub +:+ post.
Proof.
  rewrite <- includes_spec. destruct (includes s sub); split; auto; try discriminate.
  intros H. now destruct H.
Qed.

End JsStringFacts.

(** ** FileService *)

Module FileServiceFacts.
Import JsString FileService JsStringFacts.

Lemma keywordHit_false (tl cl : string) (keywords : list string) :
  (forall keyword, In keyword keywords ->
     includes tl keyword = false /\ includes cl keyword = false) ->
  keywordHit tl cl keywords = false.
Proof.
  unfold keywordHit. induction keywords as [|k ks IH]; intros H; simpl; [reflexivity|].
  destruct (H k (or_introl eq_refl)) as [-> ->]. simpl.
  apply IH. intros kw Hkw. apply H. now right.
Qed.

Lemma keywordHit_true (tl cl : string) (keywords : list string) :
  keywordHit tl cl keywords = true <->
  exists keyword, In keyword keywords /\ (occursIn keyword tl \/ occursIn keyword cl).
Proof.
  unfold keywordHit, occursIn. rewrite existsb_exists. split.
  - intros [k [Hin H]]. exists k. split; [exact Hin|].
    apply orb_true_iff in H. now rewrite !includes_spec in H.
  - intros [k [Hin H]]. exists k. split; [exact Hin|].
    apply orb_true_iff. now rewrite !includes_spec.
Qed.

Lemma collectGenres_none (tl cl : string) (table : list (string * list string)) :
  (forall genre keywords, In (genre, keywords) table -> keywordHit tl cl keywords = false) ->
  collectGenres tl cl table = [].
Proof.
  induction table as [|[g ks] rest IH]; intros H; simpl; [reflexivity|].
  rewrite (H g ks (or_introl eq_refl)). apply IH.
  intros g' ks' Hin. apply (H g' ks'). now right.
Qed.

(** The genres collected are those of the table whose keywords hit. *)
Lemma collectGenres_In (tl cl : string) (table : list (string * list string)) (genre : string) :
  In genre (collectGenres tl cl table) <->
  exists keywords, In (genre, keywords) table /\ keywordHit tl cl keywords = true.
Proof.
  induction table as [|[g ks] rest IH]; simpl.
  - split; [tauto | intros [? [[] _]]].
  - destruct (keywordHit tl cl ks) eqn:Hhit; simpl; rewrite ?IH; split.
    + intros [<- | [ks' [Hin H]]]; [exists ks; auto | exists ks'; auto].
    + intros [ks' [[Heq | Hin] H]]; [injection Heq as -> _; now left | right; exists ks'; auto].
    + intros [ks' [Hin H]]. exists ks'; auto.
    + intros [ks' [[Heq | Hin] H]]; [injection Heq as _ <-; congruence | exists ks'; auto].
Qed.

Lemma detectGenre_no_keyword (title : string) (content : option string) :
  noKeyword title content -> detectGenre title content = ["general"].
Proof.
  intros H. unfold detectGenre. cbv zeta.
  rewrite collectGenres_none; [reflexivity|].
  intros genre keywords Hin. apply keywordHit_false.
  intros keyword Hkw. destruct (H genre keywords keyword Hin Hkw) as [H1 H2].
  unfold occursIn in *. now rewrite !includes_false.
Qed.

Lemma detectGenre_finance (title : string) (content : option string) :
  In "finance" (detectGenre title content) <->
  exists keyword,
    In keyword ["finance"; "money"; "investment"; "wealth"; "trading"; "economics"; "business"]
    /\ (occursIn keyword (toLowerCase title) \/ occursIn keyword (lowerContent content)).
Proof.
  rewrite <- keywordHit_true. unfold detectGenre. cbv zeta.
  destruct (collectGenres _ _ genreKeywords) as [|g gs] eqn:Hc.
  - split.
    + intros [H | []]. discriminate.
    + intros H. exfalso.
      assert (Hin : In "finance" (collectGenres (toLowerCase title) (lowerContent content) genreKeywords)).
      { apply collectGenres_In. eexists. split; [left; reflexivity | exact H]. }
      rewrite Hc in Hin. destruct Hin.
  - rewrite <- Hc, collectGenres_In. split.
    + intros [ks [Hin H]]. simpl in Hin.
      repeat (destruct Hin as [Hin | Hin];
              [first [discriminate Hin | injection Hin as <-; exact H] |]).
      destruct Hin.
    + intros H. eexists. split; [left; reflexivity | exact H].
Qed.

(** C2, the example as the code computes it: no keyword of the table is a
    substring of "the intelligent investor" (the finance keywords hold
    "investment", not "investor"), so the title gets the fallback genre and
    "finance" is not in the result. *)
Lemma detectGenre_intelligent_investor_not_finance :
  ~ In "finance" (detectGenre "The Intelligent Investor" None).
Proof. vm_compute. intros [H | []]. discriminate. Qed.

(** C2, amended: "The Intelligent Investor" (no excerpt) yields exactly
    ["general"]; "finance" is in the result exactly when one of the finance
    keywords occurs in the lower-cased title or excerpt; and whenever no
    keyword of the table occurs in either, the result is exactly
    ["general"]. *)
Theorem detectGenre_keywords :
  detectGenre "The Intelligent Investor" None = ["general"]
  /\ (forall title content,
        In "finance" (detectGenre title content) <->
        exists keyword,
          In keyword ["finance"; "money"; "investment"; "wealth"; "trading"; "economics"; "business"]
          /\ (occursIn keyword (toLowerCase title) \/ occursIn keyword (lowerContent content)))
  /\ (forall title content, noKeyword title content -> detectGenre title content = ["general"]).
Proof.
  split; [reflexivity|]. split.
  - exact detectGenre_finance.
  - exact detectGenre_no_keyword.
Qed.

Ltac absent_keywords :=
  intros ? ? ? Hin Hkw; simpl in Hin;
  repeat (destruct Hin as [Hin | Hin];
          [injection Hin as <- <-; simpl in Hkw;
           repeat (destruct Hkw as [<- | Hkw];
                   [split; apply includes_false; reflexivity |]);
           destruct Hkw |]);
  destruct Hin.

Lemma detectGenre_keywords_witness :
  noKeyword "Moby Dick" (Some "Call me Ishmael.")
  /\ detectGenre "Moby Dick" (Some "Call me Ishmael.") = ["general"].
Proof.
  assert (H : noKeyword "Moby Dick" (Some "Call me Ishmael.")) by absent_keywords.
  split; [exact H|].
  exact (proj2 (proj2 detectGenre_keywords) "Moby Dick" (Some "Call me Ishmael.") H).
Defined.

(** *** Author extraction *)

(** A pattern that demands a character of a class fails on a text that has
    none. *)
Lemma run_needs_char (p : ascii -> bool) (before after : list node) :
  forall s pos m, noneOf p s = true -> run (before ++ One p :: after) s pos m = None.
Proof.
  induction before as [|n before IH]; intros s pos m Hs.
  - destruct s as [|c s]; simpl in *; [reflexivity|].
    apply andb_true_iff in Hs as [Hc _]. now destruct (p c).
  - destruct n as [q | [|] q | k | k]; cbn [app run].
    + destruct s as [|c s]; [reflexivity|].
      simpl in Hs. apply andb_true_iff in Hs as [_ Hs].
      destruct (q c); [now apply IH | reflexivity].
    + revert pos m. induction s as [|c s IHs]; intros pos m.
      * now apply IH.
      * assert (Hs' : noneOf p s = true) by (simpl in Hs; now apply andb_true_iff in Hs).
        destruct (q c); [rewrite (IHs Hs')|]; now apply IH.
    + revert pos m. induction s as [|c s IHs]; intros pos m.
      * now rewrite IH.
      * assert (Hs' : noneOf p s = true) by (simpl in Hs; now apply andb_true_iff in Hs).
        rewrite IH by exact Hs. destruct (q c); [now apply IHs | reflexivity].
    + now apply IH.
    + now apply IH.
Qed.

Lemma hyphenPattern_needs_hyphen (filename : string) :
  noneOf (lit "-") filename = true -> matchAnchored hyphenPattern filename = None.
Proof.
  intros H. unfold matchAnchored.
  exact (run_needs_char (lit "-")
           [Open 1; One dot; Many false dot; Close 1; Many true is_space]
           [Many true is_space; Open 2; One dot; Many true dot; Close 2]
           filename 0%nat noMarks H).
Qed.

Lemma byPattern_needs_b (filename : string) :
  noneOf (litNoCase "b") filename = true -> matchAnchored byPattern filename = None.
Proof.
  intros H. unfold matchAnchored.
  exact (run_needs_char (litNoCase "b")
           [Open 1; One dot; Many false dot; Close 1; Many true is_space]
           [One (litNoCase "y"); Many true is_space; Open 2; One dot; Many true dot; Close 2]
           filename 0%nat noMarks H).
Qed.

(** The hyphen pattern is tried first: when it matches, it decides. *)
Lemma hyphenPattern_first (filename : string) (m : marks) :
  matchAnchored hyphenPattern filename = Some m ->
  extractAuthorFromFilename filename
  = orElse (trim <$> group filename m 2) (trim <$> group filename m 1).
Proof. intros H. unfold extractAuthorFromFilename, patterns. cbn [firstMatch]. now rewrite H. Qed.

(** A file name that matches neither pattern has no author. *)
Lemma extractAuthor_no_match (filename : string) :
  matchAnchored hyphenPattern filename = None ->
  matchAnchored byPattern filename = None ->
  extractAuthorFromFilename filename = None.
Proof.
  intros H1 H2. unfold extractAuthorFromFilename, patterns. cbn [firstMatch].
  now rewrite H1, H2.
Qed.

Lemma extractAuthor_plain_name (filename : string) :
  noneOf (lit "-") filename = true -> noneOf (litNoCase "b") filename = true ->
  extractAuthorFromFilename filename = None.
Proof.
  intros H1 H2.
  apply extractAuthor_no_match; [now apply hyphenPattern_needs_hyphen | now apply byPattern_needs_b].
Qed.

(** C1, as the code runs: on both file names of the claim the value
    returned is the text of the second capture group, trimmed. For the
    hyphen pattern, whose comment reads "Author - Title", that is the title
    part with its extension, not the author; for the "by" pattern it is the
    author with the extension still attached. A name with neither
    separator has no author. *)
Theorem extractAuthor_returns_second_group :
  extractAuthorFromFilename "Tony Robbins - Awaken the Giant Within.txt"
    = Some "Awaken the Giant Within.txt"
  /\ extractAuthorFromFilename "Atomic Habits by James Clear.txt"
    = Some "James Clear.txt"
  /\ extractAuthorFromFilename "Meditations.txt" = None.
Proof. repeat split; vm_compute; reflexivity. Qed.

End FileServiceFacts.

(** ** The JSON encoding round-trips *)

Module JSONFacts.
Import JsString JSON JsStringFacts.

(** Reading back one quoted code unit puts that unit at the end of the
    string being read. All 256 units are run. *)
Lemma parseFrom_quoteChar (c : ascii) (acc : string) (elems : list string) (rest : string) :
  parseFrom (PInString acc) elems (quoteChar c +:+ rest)
  = parseFrom (PInString (snoc acc c)) elems rest.
Proof.
  destruct c as [[] [] [] [] [] [] [] []]; reflexivity.
Qed.

Lemma snoc_append (acc : string) (c : ascii) (s : string) :
  snoc acc c +:+ s = acc +:+ String c s.
Proof. unfold snoc. now rewrite append_assoc. Qed.

Lemma parseFrom_quoteBody (s : string) :
  forall acc elems rest,
    parseFrom (PInString acc) elems (quoteBody s +:+ rest)
    = parseFrom (PInString (acc +:+ s)) elems rest.
Proof.
  induction s as [|c s IH]; intros acc elems rest.
  - simpl. now rewrite append_nil_r.
  - cbn [quoteBody]. rewrite append_assoc, parseFrom_quoteChar, IH.
    now rewrite snoc_append.
Qed.

Lemma parseFrom_closing_quote (acc : string) (elems : list string) (rest : string) :
  parseFrom (PInString acc) elems (String dquote rest)
  = parseFrom PAfterElem (elems ++ [acc]) rest.
Proof. reflexivity. Qed.

(** A quoted string, read from the character after its opening quote. *)
Lemma parseFrom_quoted (s : string) (elems : list string) (rest : string) :
  parseFrom (PInString EmptyString) elems (quoteBody s +:+ String dquote rest)
  = parseFrom PAfterElem (elems ++ [s]) rest.
Proof. now rewrite parseFrom_quoteBody, parseFrom_closing_quote. Qed.

Lemma quote_append (s rest : string) :
  quote s +:+ rest = String dquote (quoteBody s +:+ String dquote rest).
Proof. unfold quote. simpl. f_equal. now rewrite append_assoc. Qed.

Lemma parseFrom_elements (l : list string) :
  forall x elems,
    parseFrom (PInString EmptyString) elems
      (quoteBody x +:+ String dquote
         (match l with
          | [] => "]"
          | _ :: _ => "," +:+ join "," (map quote l) +:+ "]"
          end))
    = Some (elems ++ x :: l).
Proof.
  induction l as [|y l IH]; intros x elems; rewrite parseFrom_quoted.
  - reflexivity.
  - change (map quote (y :: l)) with (quote y :: map quote l).
    assert (Hjoin : join "," (quote y :: map quote l) +:+ "]"
                    = String dquote (quoteBody y +:+ String dquote
                        (match l with
                         | [] => "]"
                         | _ :: _ => "," +:+ join "," (map quote l) +:+ "]"
                         end))).
    { destruct l as [|z l]; cbn [map join].
      - apply quote_append.
      - rewrite append_assoc, quote_append. reflexivity. }
    rewrite Hjoin.
    change (parseFrom PAfterElem (elems ++ [x]) ("," +:+ String dquote ?r))
      with (parseFrom (PInString EmptyString) (elems ++ [x]) r).
    rewrite IH. now rewrite <- app_assoc.
Qed.

(** [JSON.parse(JSON.stringify(l))] is [l], for every array of strings. *)
Lemma parse_stringify (l : list string) : parse (stringify l) = Some l.
Proof.
  destruct l as [|x l]; [reflexivity|].
  unfold parse, stringify.
  assert (Hjoin : join "," (map quote (x :: l)) +:+ "]"
                  = String dquote (quoteBody x +:+ String dquote
                      (match l with
                       | [] => "]"
                       | _ :: _ => "," +:+ join "," (map quote l) +:+ "]"
                       end))).
  { destruct l as [|z l]; cbn [map join].
    - apply quote_append.
    - rewrite append_assoc, quote_append. reflexivity. }
  rewrite Hjoin.
  change (parseFrom PStart [] ("[" +:+ String dquote ?r))
    with (parseFrom (PInString EmptyString) [] r).
  now rewrite parseFrom_elements.
Qed.

(** The text written for an array is never the empty string. *)
Lemma stringify_truthy (l : list string) : truthy (stringify l) = true.
Proof. reflexivity. Qed.

End JSONFacts.

(** ** The store *)

Module DatabaseServiceFacts.
Import JsString DatabaseService JSONFacts.

Lemma decodeGenreTags_stringify (g : list string) :
  decodeGenreTags (Some (JSON.stringify g)) = Ok g.
Proof.
  unfold decodeGenreTags, jsonParse.
  now rewrite stringify_truthy, parse_stringify.
Qed.

(** What a successful [getBookById] says about the store. *)
Lemma getBookById_Some (id : string) (this : t) (b : Book.t) :
  getBookById id this = Ok (Some b) ->
  exists s r, db this = Some s /\ books s !! id = Some r /\ decodeBook r = Ok b.
Proof.
  unfold getBookById, requireDb. destruct (db this) as [s|]; [|discriminate].
  cbn. destruct (books s !! id) as [r|] eqn:Hr; [|discriminate].
  destruct (decodeBook r) as [b'|e] eqn:Hb; cbn; [|discriminate].
  intros H. injection H as <-. now exists s, r.
Qed.

Lemma getBookById_None (id : string) (this : t) :
  getBookById id this = Ok None ->
  exists s, db this = Some s /\ books s !! id = None.
Proof.
  unfold getBookById, requireDb. destruct (db this) as [s|]; [|discriminate].
  cbn. destruct (books s !! id) as [r|] eqn:Hr.
  - destruct (decodeBook r); cbn; discriminate.
  - intros _. now exists s.
Qed.

Lemma getBookById_lookup (id : string) (s : Store) (r : BookRow.t) :
  books s !! id = Some r ->
  getBookById id (mk (Some s)) = (b ← decodeBook r; mret (Some b)).
Proof. intros H. unfold getBookById. cbn. now rewrite H. Qed.

Lemma decodeBook_inv (r : BookRow.t) (b : Book.t) :
  decodeBook r = Ok b ->
  exists tags,
    decodeGenreTags (BookRow.genreTags r) = Ok tags
    /\ b = Book.mk (BookRow.id r) (BookRow.title r) (BookRow.author r)
             (BookRow.filePath r) (BookRow.coverImage r) (BookRow.lastPageRead r)
             (BookRow.totalPages r) (BookRow.categoryId r) (Some tags)
             (BookRow.fileType r) (Boolean (BookRow.isCompleted r))
             (Boolean (BookRow.isFavorite r)) (BookRow.source r) (BookRow.price r)
             (BookRow.affiliateUrl r) (BookRow.createdAt r) (BookRow.updatedAt r).
Proof.
  unfold decodeBook. destruct (decodeGenreTags (BookRow.genreTags r)) as [tags|e]; cbn.
  - intros H. injection H as <-. now exists tags.
  - discriminate.
Qed.

Lemma books_updateBookRow (f : BookRow.t -> BookRow.t) (bookId : string) (s : Store) (r : BookRow.t) :
  books s !! bookId = Some r ->
  books (updateBookRow f bookId s) !! bookId = Some (f r).
Proof. intros H. unfold updateBookRow. cbn. now rewrite lookup_alter_eq, H. Qed.

Lemma Boolean_bit (b : bool) : Boolean (bit b) = b.
Proof. now destruct b. Qed.

(** C3: the text that [createBook] stores for [genreTags] is read back by
    [getBookById] as the same sequence of strings, whatever the sequence
    (the empty one included; a book without [genreTags] is stored as the
    empty sequence), and a NULL column is read as the empty sequence. *)
Theorem genreTags_round_trip :
  DatabaseService.decodeGenreTags None = Ok []
  /\ (forall g, DatabaseService.decodeGenreTags (Some (JSON.stringify g)) = Ok g)
  /\ (forall (now : Z) (book : NewBook.t) (this : DatabaseService.t) (s : Store),
        db this = Some s -> books s !! pretty now = None ->
        exists this' b,
          createBook now book this = Ok (pretty now, this')
          /\ getBookById (pretty now) this' = Ok (Some b)
          /\ Book.genreTags b = Some (default [] (NewBook.genreTags book))).
Proof.
  split; [reflexivity|]. split; [exact decodeGenreTags_stringify|].
  intros now book this s Hdb Hfresh.
  unfold createBook, requireDb. rewrite Hdb. cbn. rewrite Hfresh.
  eexists. eexists. split; [reflexivity|].
  erewrite getBookById_lookup by (cbn; apply lookup_insert_eq).
  unfold decodeBook. cbn [encodeBook BookRow.genreTags].
  rewrite decodeGenreTags_stringify. cbn. split; reflexivity.
Qed.

Lemma genreTags_round_trip_witness :
  exists this' b,
    createBook 1714557600000 Examples.pickedBook Examples.service0
      = Ok ("1714557600000", this')
    /\ getBookById "1714557600000" this' = Ok (Some b)
    /\ Book.genreTags b = Some ["finance"; "history"].
Proof.
  exact (proj2 (proj2 genreTags_round_trip) 1714557600000 Examples.pickedBook
           Examples.service0 _ eq_refl eq_refl).
Defined.

(** C4: once [markBookCompleted] has run on a stored book, [getBookById]
    returns that book with [isCompleted] true, [categoryId] "4" and
    [updatedAt] the clock reading, whatever category it was in; every other
    field is as before. *)
Theorem markBookCompleted_read_back (now id : string) (this : DatabaseService.t) (b : Book.t) :
  getBookById id this = Ok (Some b) ->
  exists this',
    markBookCompleted now id this = Ok this'
    /\ getBookById id this'
       = Ok (Some (Book.mk (Book.id b) (Book.title b) (Book.author b) (Book.filePath b)
                     (Book.coverImage b) (Book.lastPageRead b) (Book.totalPages b)
                     (Some "4") (Book.genreTags b) (Book.fileType b)
                     true (Book.isFavorite b) (Book.source b) (Book.price b)
                     (Book.affiliateUrl b) (Book.createdAt b) now)).
Proof.
  intros Hget. destruct (getBookById_Some _ _ _ Hget) as (s & r & Hdb & Hr & Hdec).
  destruct (decodeBook_inv _ _ Hdec) as (tags & Htags & ->).
  unfold markBookCompleted, requireDb. rewrite Hdb. cbn.
  eexists. split; [reflexivity|].
  erewrite getBookById_lookup by (apply books_updateBookRow; exact Hr).
  unfold decodeBook. cbn. rewrite Htags. reflexivity.
Qed.

Lemma markBookCompleted_read_back_witness :
  exists b this',
    getBookById "1714557600000" Examples.service1 = Ok (Some b)
    /\ Book.categoryId b = Some "2" /\ Book.isCompleted b = false
    /\ markBookCompleted Examples.later "1714557600000" Examples.service1 = Ok this'
    /\ (exists b', getBookById "1714557600000" this' = Ok (Some b')
                   /\ Book.isCompleted b' = true /\ Book.categoryId b' = Some "4"
                   /\ Book.title b' = Book.title b).
Proof.
  eexists. 
  assert (Hget : getBookById "1714557600000" Examples.service1 = Ok (Some _))
    by (vm_compute; reflexivity).
  destruct (markBookCompleted_read_back Examples.later _ _ _ Hget) as (this' & Hmark & Hback).
  exists this'. split; [exact Hget|]. split; [reflexivity|]. split; [reflexivity|].
  split; [exact Hmark|]. eexists. split; [exact Hback|]. repeat split.
Defined.

(** C8: one call of [toggleBookFavorite] on a stored book leaves it with
    [isFavorite] negated (and [updatedAt] refreshed); nothing else in the
    book changes. *)
Theorem toggleBookFavorite_negates (now id : string) (this : DatabaseService.t) (b : Book.t) :
  getBookById id this = Ok (Some b) ->
  exists this',
    toggleBookFavorite now id this = Ok this'
    /\ getBookById id this'
       = Ok (Some (Book.mk (Book.id b) (Book.title b) (Book.author b) (Book.filePath b)
                     (Book.coverImage b) (Book.lastPageRead b) (Book.totalPages b)
                     (Book.categoryId b) (Book.genreTags b) (Book.fileType b)
                     (Book.isCompleted b) (negb (Book.isFavorite b)) (Book.source b)
                     (Book.price b) (Book.affiliateUrl b) (Book.createdAt b) now)).
Proof.
  intros Hget. destruct (getBookById_Some _ _ _ Hget) as (s & r & Hdb & Hr & Hdec).
  destruct (decodeBook_inv _ _ Hdec) as (tags & Htags & Hb).
  unfold toggleBookFavorite, requireDb. rewrite Hdb, Hget. cbn.
  eexists. split; [reflexivity|].
  erewrite getBookById_lookup by (apply books_updateBookRow; exact Hr).
  unfold decodeBook. cbn. rewrite Htags. subst b. cbn.
  now destruct (Boolean (BookRow.isFavorite r)).
Qed.

Lemma toggleBookFavorite_negates_witness :
  exists b this' b',
    getBookById "1714557600000" Examples.service1 = Ok (Some b)
    /\ toggleBookFavorite Examples.later "1714557600000" Examples.service1 = Ok this'
    /\ getBookById "1714557600000" this' = Ok (Some b')
    /\ Book.isFavorite b = false /\ Book.isFavorite b' = true.
Proof.
  eexists.
  assert (Hget : getBookById "1714557600000" Examples.service1 = Ok (Some _))
    by (vm_compute; reflexivity).
  destruct (toggleBookFavorite_negates Examples.later _ _ _ Hget) as (this' & Htoggle & Hback).
  exists this'. eexists. split; [exact Hget|]. split; [exact Htoggle|].
  split; [exact Hback|]. split; reflexivity.
Defined.

(** C10: for an id that no book has, [toggleBookFavorite] returns without
    throwing and the service, its store included, is left as it was. *)
Theorem toggleBookFavorite_missing (now id : string) (this : DatabaseService.t) :
  getBookById id this = Ok None ->
  toggleBookFavorite now id this = Ok this.
Proof.
  intros Hget. destruct (getBookById_None _ _ Hget) as (s & Hdb & _).
  unfold toggleBookFavorite, requireDb. rewrite Hdb, Hget. reflexivity.
Qed.

Lemma toggleBookFavorite_missing_witness :
  getBookById "42" Examples.service1 = Ok None
  /\ toggleBookFavorite Examples.later "42" Examples.service1 = Ok Examples.service1.
Proof.
  assert (Hget : getBookById "42" Examples.service1 = Ok None) by (vm_compute; reflexivity).
  split; [exact Hget|]. exact (toggleBookFavorite_missing Examples.later "42" _ Hget).
Defined.

(** *** Stored books stay readable *)

Lemma readable_initialized (now : string) : readable (initialized now).
Proof.
  intros s id r Hdb Hr. injection Hdb as <-. cbn in Hr.
  rewrite lookup_empty in Hr. discriminate.
Qed.

Lemma readable_createBook (now : Z) (book : NewBook.t) (this this' : DatabaseService.t)
    (id : string) :
  readable this -> createBook now book this = Ok (id, this') -> readable this'.
Proof.
  intros Hwf. unfold createBook, requireDb. destruct (db this) as [s|] eqn:Hdb; [|discriminate].
  cbn. destruct (books s !! pretty now) eqn:Hfresh; [discriminate|].
  intros H. injection H as <- <-. intros s' id' r Hdb' Hr. injection Hdb' as <-.
  cbn in Hr. destruct (decide (pretty now = id')) as [<- | Hne].
  - rewrite lookup_insert_eq in Hr. injection Hr as <-.
    eexists. cbn [encodeBook BookRow.genreTags]. apply decodeGenreTags_stringify.
  - rewrite lookup_insert_ne in Hr by exact Hne. exact (Hwf s id' r Hdb Hr).
Qed.

Lemma readable_updateBookRow (f : BookRow.t -> BookRow.t) (bookId : string) (s : Store) :
  (forall r, BookRow.genreTags (f r) = BookRow.genreTags r) ->
  readable (mk (Some s)) -> readable (mk (Some (updateBookRow f bookId s))).
Proof.
  intros Hf Hwf s' id r Hdb Hr. injection Hdb as <-. cbn in Hr.
  destruct (decide (bookId = id)) as [<- | Hne].
  - rewrite lookup_alter_eq in Hr. destruct (books s !! bookId) as [r0|] eqn:Hr0; [|discriminate].
    cbn in Hr. injection Hr as <-. rewrite Hf. exact (Hwf s bookId r0 eq_refl Hr0).
  - rewrite lookup_alter_ne in Hr by exact Hne. exact (Hwf s id r eq_refl Hr).
Qed.

Lemma readable_markBookCompleted (now id : string) (this this' : DatabaseService.t) :
  readable this -> markBookCompleted now id this = Ok this' -> readable this'.
Proof.
  intros Hwf. unfold markBookCompleted, requireDb. destruct this as [[s|]]; [|discriminate].
  cbn. intros H. injection H as <-. now apply readable_updateBookRow.
Qed.

Lemma readable_updateBookProgress (now id : string) (page : Z) (this this' : DatabaseService.t) :
  readable this -> updateBookProgress now id page this = Ok this' -> readable this'.
Proof.
  intros Hwf. unfold updateBookProgress, requireDb. destruct this as [[s|]]; [|discriminate].
  cbn. intros H. injection H as <-. now apply readable_updateBookRow.
Qed.

Lemma readable_toggleBookFavorite (now id : string) (this this' : DatabaseService.t) :
  readable this -> toggleBookFavorite now id this = Ok this' -> readable this'.
Proof.
  intros Hwf. unfold toggleBookFavorite, requireDb. destruct this as [[s|]]; [|discriminate].
  cbn -[getBookById]. destruct (getBookById id (mk (Some s))) as [[b|]|e]; cbn; try discriminate.
  - intros H. injection H as <-. now apply readable_updateBookRow.
  - intros H. now injection H as <-.
Qed.

(** In a readable store, a stored id is one that [getBookById] finds. *)
Lemma readable_getBookById (this : DatabaseService.t) (s : Store) (id : string) (r : BookRow.t) :
  readable this -> db this = Some s -> books s !! id = Some r ->
  exists b, getBookById id this = Ok (Some b).
Proof.
  intros Hwf Hdb Hr. destruct (Hwf s id r Hdb Hr) as [tags Htags].
  unfold getBookById, requireDb. rewrite Hdb. cbn. rewrite Hr.
  unfold decodeBook. rewrite Htags. cbn. eexists. reflexivity.
Qed.

(** What a successful [getUserSubscription] says about the store. *)
Lemma getUserSubscription_Some (this : DatabaseService.t) (cur : UserSubscription.t) :
  getUserSubscription this = Ok (Some cur) ->
  exists s r features,
    db this = Some s /\ userSubscription s !! "1" = Some r
    /\ jsonParse (SubscriptionRow.features r) = Ok features
    /\ cur = UserSubscription.mk (SubscriptionRow.id r) (SubscriptionRow.tier r)
               (SubscriptionRow.price r) features (SubscriptionRow.booksPerMonth r)
               (Boolean (SubscriptionRow.hasAI r))
               (Boolean (SubscriptionRow.hasNaturalTTS r))
               (SubscriptionRow.expiresAt r) (SubscriptionRow.createdAt r).
Proof.
  unfold getUserSubscription, requireDb. destruct (db this) as [s|]; [|discriminate].
  cbn. destruct (userSubscription s !! "1") as [r|] eqn:Hr; [|discriminate].
  destruct (jsonParse (SubscriptionRow.features r)) as [features|e] eqn:Hf; cbn; [|discriminate].
  intros H. injection H as <-. now exists s, r, features.
Qed.

Lemma jsonParse_stringify (l : list string) : jsonParse (JSON.stringify l) = Ok l.
Proof. unfold jsonParse. now rewrite parse_stringify. Qed.

(** C9, as stated, fails on a partial that names [createdAt]: the UPDATE
    has no such column in its SET list, and the record read back keeps the
    creation time it had. *)
Lemma updateSubscription_keeps_createdAt :
  exists this' after,
    PartialSubscription.createdAt Examples.backdated = Some Examples.later
    /\ updateSubscription Examples.backdated Examples.service0 = Ok this'
    /\ getUserSubscription this' = Ok (Some after)
    /\ UserSubscription.createdAt after <> Examples.later.
Proof.
  eexists. eexists. split; [reflexivity|]. split; [reflexivity|].
  split; [vm_compute; reflexivity|]. cbn. discriminate.
Qed.

(** C9, amended: [updateSubscription] reads the current record, merges the
    partial over it and writes back the seven columns [tier], [price],
    [features], [booksPerMonth], [hasAI], [hasNaturalTTS] and [expiresAt].
    Read back, each of these holds the partial's value when the partial
    names it and its former value otherwise; [id] and [createdAt] keep
    their former values whatever the partial holds. *)
Theorem updateSubscription_merges (p : PartialSubscription.t) (this : DatabaseService.t)
    (cur : UserSubscription.t) :
  getUserSubscription this = Ok (Some cur) ->
  exists this',
    updateSubscription p this = Ok this'
    /\ getUserSubscription this'
       = Ok (Some (UserSubscription.mk
                     (UserSubscription.id cur)
                     (default (UserSubscription.tier cur) (PartialSubscription.tier p))
                     (default (UserSubscription.price cur) (PartialSubscription.price p))
                     (default (UserSubscription.features cur) (PartialSubscription.features p))
                     (default (UserSubscription.booksPerMonth cur)
                        (PartialSubscription.booksPerMonth p))
                     (default (UserSubscription.hasAI cur) (PartialSubscription.hasAI p))
                     (default (UserSubscription.hasNaturalTTS cur)
                        (PartialSubscription.hasNaturalTTS p))
                     (default (UserSubscription.expiresAt cur)
                        (PartialSubscription.expiresAt p))
                     (UserSubscription.createdAt cur))).
Proof.
  intros Hget.
  destruct (getUserSubscription_Some _ _ Hget) as (s & r & features & Hdb & Hr & Hf & Hcur).
  unfold updateSubscription, requireDb. rewrite Hdb, Hget. cbn.
  eexists. split; [reflexivity|].
  unfold getUserSubscription, requireDb. cbn -[JSON.stringify].
  rewrite lookup_alter_eq, Hr. cbn -[JSON.stringify].
  rewrite jsonParse_stringify. cbn. rewrite !Boolean_bit.
  subst cur. reflexivity.
Qed.

(** Without a subscription row, [updateSubscription] does nothing. *)
Lemma updateSubscription_absent (p : PartialSubscription.t) (this : DatabaseService.t) :
  getUserSubscription this = Ok None -> updateSubscription p this = Ok this.
Proof.
  intros Hget. destruct this as [[s|]].
  - unfold updateSubscription, requireDb. now rewrite Hget.
  - discriminate Hget.
Qed.

Lemma updateSubscription_merges_witness :
  exists cur this' after,
    getUserSubscription Examples.service0 = Ok (Some cur)
    /\ updateSubscription Examples.upgradeToBasic Examples.service0 = Ok this'
    /\ getUserSubscription this' = Ok (Some after)
    /\ UserSubscription.tier cur = "free" /\ UserSubscription.tier after = "basic"
    /\ UserSubscription.hasAI after = true
    /\ UserSubscription.createdAt after = UserSubscription.createdAt cur.
Proof.
  eexists.
  assert (Hget : getUserSubscription Examples.service0 = Ok (Some _))
    by (vm_compute; reflexivity).
  destruct (updateSubscription_merges Examples.upgradeToBasic _ _ Hget) as (this' & Hup & Hback).
  exists this'. eexists. split; [exact Hget|]. split; [exact Hup|]. split; [exact Hback|].
  repeat split.
Defined.

End DatabaseServiceFacts.

(** ** The AI gate *)

Module AIServiceFacts.
Import DatabaseService AIService.

(** C6: with a subscription whose [hasAI] is false, [askQuestion] returns
    the failure that carries the subscription-required message, and no
    request is handed to the network. *)
Theorem askQuestion_requires_subscription
    (apiKey : string) (fetch : FetchRequest -> FetchOutcome)
    (question bookContent bookTitle : string) (page : option Z)
    (this : DatabaseService.t) (subscription : UserSubscription.t) :
  SubscriptionService.getCurrentSubscription this = Ok (Some subscription) ->
  UserSubscription.hasAI subscription = false ->
  askQuestion apiKey fetch question bookContent bookTitle page this
  = (mkResponse false EmptyString (Some subscriptionRequired), []).
Proof.
  intros Hsub HnoAI. unfold askQuestion, attempt. rewrite Hsub. cbn.
  rewrite HnoAI. reflexivity.
Qed.

(** The same holds when there is no subscription record at all. *)
Lemma askQuestion_without_subscription
    (apiKey : string) (fetch : FetchRequest -> FetchOutcome)
    (question bookContent bookTitle : string) (page : option Z)
    (this : DatabaseService.t) :
  SubscriptionService.getCurrentSubscription this = Ok None ->
  askQuestion apiKey fetch question bookContent bookTitle page this
  = (mkResponse false EmptyString (Some subscriptionRequired), []).
Proof. intros Hsub. unfold askQuestion, attempt. now rewrite Hsub. Qed.

Lemma askQuestion_requires_subscription_witness :
  exists subscription,
    SubscriptionService.getCurrentSubscription Examples.service0 = Ok (Some subscription)
    /\ UserSubscription.hasAI subscription = false
    /\ askQuestion "sk-or-v1-key" Examples.answering "Who is Ahab?" "Call me Ishmael."
         "Moby Dick" (Some 3) Examples.service0
       = (mkResponse false EmptyString (Some subscriptionRequired), []).
Proof.
  eexists.
  assert (Hsub : SubscriptionService.getCurrentSubscription Examples.service0 = Ok (Some _))
    by (vm_compute; reflexivity).
  split; [exact Hsub|]. split; [reflexivity|].
  exact (askQuestion_requires_subscription "sk-or-v1-key" Examples.answering
           "Who is Ahab?" "Call me Ishmael." "Moby Dick" (Some 3) _ _ Hsub eq_refl).
Defined.

(** With the entitlement and a key, the same call does reach the network:
    the gate is what held the request back. *)
Lemma askQuestion_entitled_sends :
  exists this' response request,
    updateSubscription Examples.upgradeToBasic Examples.service0 = Ok this'
    /\ askQuestion "sk-or-v1-key" Examples.answering "Who is Ahab?" "Call me Ishmael."
         "Moby Dick" (Some 3) this'
       = (response, [request])
    /\ success response = true.
Proof.
  eexists. eexists. eexists. split; [reflexivity|]. split; [vm_compute; reflexivity|].
  reflexivity.
Qed.

End AIServiceFacts.

(** ** The pager *)

Module ReaderFacts.
Import JsString Reader JsStringFacts.

(** [ceilDiv a b] is the ceiling of the quotient: the least number of
    pages of [b] words that hold [a] words. *)
Lemma ceilDiv_spec (a b : Z) :
  0 < b -> (ceilDiv a b - 1) * b < a <= ceilDiv a b * b.
Proof.
  intros Hb. unfold ceilDiv.
  pose proof (Z.div_mod (a + b - 1) b ltac:(lia)) as Hdm.
  pose proof (Z.mod_pos_bound (a + b - 1) b Hb) as Hm.
  nia.
Qed.

Lemma firstn_min_length {A : Type} (n : nat) (l : list A) :
  firstn n l = firstn (Nat.min n (length l)) l.
Proof.
  destruct (Nat.le_ge_cases n (length l)) as [H | H].
  - now rewrite Nat.min_l.
  - rewrite Nat.min_r by exact H. now rewrite !firstn_all2.
Qed.

(** A page is the slice of 400 pieces that starts at 400 times its index. *)
Lemma slice_page {A : Type} (l : list A) (p : Z) :
  0 <= p ->
  slice l (p * wordsPerPage) (p * wordsPerPage + wordsPerPage)
  = firstn 400 (skipn (Z.to_nat (p * 400)) l).
Proof.
  intros Hp. unfold slice, relativeIndex, wordsPerPage.
  assert (H1 : (p * 400 <? 0) = false) by (apply Z.ltb_ge; lia).
  assert (H2 : (p * 400 + 400 <? 0) = false) by (apply Z.ltb_ge; lia).
  rewrite H1, H2.
  destruct (Z.le_gt_cases (p * 400) (Z.of_nat (length l))) as [Hin | Hout].
  - rewrite (Z.min_l (p * 400)) by exact Hin.
    rewrite (firstn_min_length 400). rewrite length_skipn.
    f_equal. lia.
  - rewrite (Z.min_r (p * 400)) by lia. rewrite (Z.min_r (p * 400 + 400)) by lia.
    rewrite Nat2Z.id. rewrite !skipn_all2 by lia. now rewrite !firstn_nil.
Qed.

Lemma pageWords_page (st : State) (p : Z) :
  0 <= p ->
  pageWords (withPage p st) = firstn 400 (skipn (Z.to_nat (p * 400)) (split (content st))).
Proof. intros Hp. unfold pageWords. cbn. now apply slice_page. Qed.

(** A page index at or past [totalPages] leaves the screen and the store
    as they are. *)
Lemma goToPage_out_of_range (now now' : string) (page : Z) (st : State)
    (this : DatabaseService.t) :
  totalPages st <= page -> goToPage now now' page st this = (st, Ok this).
Proof.
  intros H. unfold goToPage.
  assert (Hge : (totalPages st <=? page) = true) by now apply Z.leb_le.
  now rewrite Hge, orb_true_r.
Qed.

(** A page index in range is taken: the screen moves to it. *)
Lemma goToPage_in_range (now now' : string) (page : Z) (st : State)
    (this : DatabaseService.t) :
  0 <= page < totalPages st ->
  fst (goToPage now now' page st this) = withPage page st.
Proof.
  intros [H0 H1]. unfold goToPage.
  assert (Hlt : (page <? 0) = false) by (apply Z.ltb_ge; lia).
  assert (Hge : (totalPages st <=? page) = false) by (apply Z.leb_gt; lia).
  rewrite Hlt, Hge. cbn [orb]. now destruct (book st).
Qed.

Lemma goToPage_negative (now now' : string) (page : Z) (st : State)
    (this : DatabaseService.t) :
  page < 0 -> goToPage now now' page st this = (st, Ok this).
Proof.
  intros H. unfold goToPage.
  assert (Hlt : (page <? 0) = true) by now apply Z.ltb_lt.
  now rewrite Hlt.
Qed.

(** *** What [split] returns on words joined by single spaces *)

Lemma splitFrom_word (w : string) :
  forall cur gap rest,
    FileService.noneOf is_space w = true ->
    splitFrom cur gap (w +:+ rest)
    = splitFrom (cur +:+ w) (if truthy w then false else gap) rest.
Proof.
  induction w as [|c w IH]; intros cur gap rest Hw.
  - simpl. now rewrite append_nil_r.
  - simpl in Hw. apply andb_true_iff in Hw as [Hc Hw].
    apply negb_true_iff in Hc. cbn [String.append splitFrom truthy]. rewrite Hc.
    rewrite IH by exact Hw. rewrite append_assoc. cbn [String.append].
    now destruct (truthy w).
Qed.

Lemma splitFrom_join (ws : list string) :
  forall w gap,
    Forall (fun x => FileService.noneOf is_space x = true /\ truthy x = true) (w :: ws) ->
    splitFrom EmptyString gap (join " " (w :: ws)) = w :: ws.
Proof.
  induction ws as [|w' ws IH]; intros w gap Hall.
  - apply Forall_cons_1 in Hall as [[Hw Ht] _]. cbn [join].
    rewrite <- (append_nil_r w) at 1. rewrite splitFrom_word by exact Hw. reflexivity.
  - apply Forall_cons_1 in Hall as [[Hw Ht] Hrest].
    change (join " " (w :: w' :: ws)) with (w +:+ " " +:+ join " " (w' :: ws)).
    rewrite splitFrom_word by exact Hw. rewrite Ht.
    change (splitFrom (EmptyString +:+ w) false (" " +:+ join " " (w' :: ws)))
      with (w :: splitFrom EmptyString true (join " " (w' :: ws))).
    now rewrite IH.
Qed.

(** Non-empty words without white space, joined by single spaces, are the
    pieces that [split] returns. *)
Lemma split_join (ws : list string) :
  ws <> [] ->
  Forall (fun x => FileService.noneOf is_space x = true /\ truthy x = true) ws ->
  split (join " " ws) = ws.
Proof.
  destruct ws as [|w ws]; [congruence|]. intros _ Hall.
  now apply splitFrom_join.
Qed.

(** The pieces at the edges: the empty text is one empty piece, and white
    space at the end of the text leaves an empty last piece. *)
Remark split_empty : split EmptyString = [EmptyString].
Proof. reflexivity. Qed.

Remark split_trailing_space : split "call me Ishmael " = ["call"; "me"; "Ishmael"; EmptyString].
Proof. reflexivity. Qed.

(** A text of [n] words joined by single spaces has [n] pieces. *)
Lemma split_join_length (ws : list string) :
  ws <> [] ->
  Forall (fun x => FileService.noneOf is_space x = true /\ truthy x = true) ws ->
  length (split (join " " ws)) = length ws.
Proof. intros Hne Hall. now rewrite split_join. Qed.

(** *** Pieces and words *)

Lemma wordsFrom_pieces (s : string) :
  forall cur gap,
    (gap = true -> cur = EmptyString) ->
    splitFrom cur gap s
    = (if negb gap && negb (truthy cur) && FileService.startsWithSpace s
       then [EmptyString] else [])
      ++ wordsFrom cur s
      ++ (match s with
          | EmptyString => if truthy cur then [] else [EmptyString]
          | String _ _ => if FileService.endsWithSpace s then [EmptyString] else []
          end).
Proof.
  induction s as [|c s IH]; intros cur gap Hgap.
  - cbn [splitFrom wordsFrom FileService.startsWithSpace]. rewrite andb_false_r.
    destruct cur; reflexivity.
  - cbn [splitFrom wordsFrom FileService.startsWithSpace].
    assert (Hend : (match s with
                    | EmptyString => if truthy EmptyString then [] else [EmptyString]
                    | String _ _ =>
                        if FileService.endsWithSpace s then [EmptyString] else []
                    end)
                   = (if FileService.endsWithSpace (String c s) then [EmptyString] else [])
                   \/ is_space c = false).
    { destruct s as [|d s]; [|left; reflexivity].
      cbn. destruct (is_space c); [left|right]; reflexivity. }
    destruct (is_space c) eqn:Hc.
    + destruct Hend as [Hend|Hend]; [|discriminate Hend].
      destruct gap.
      * rewrite (Hgap eq_refl). cbn [truthy negb andb app].
        rewrite (IH EmptyString true) by reflexivity. cbn [negb andb app].
        now rewrite Hend.
      * rewrite (IH EmptyString true) by reflexivity. cbn [negb andb app].
        rewrite Hend. now destruct cur.
    + rewrite (IH (cur +:+ String c EmptyString) false) by discriminate.
      assert (Ht : truthy (cur +:+ String c EmptyString) = true)
        by (clear; induction cur; reflexivity).
      rewrite Ht, !andb_false_r. cbn [negb andb app].
      destruct s as [|d s]; [|reflexivity].
      cbn [FileService.endsWithSpace]. now rewrite Hc.
Qed.

(** The pieces of [split] are the words, with an empty piece in front
    when the text begins with white space and an empty piece behind when
    it ends with white space or is empty. *)
Lemma split_pieces (s : string) : split s = leading s ++ wordsOf s ++ trailing s.
Proof.
  unfold split, leading, wordsOf, trailing.
  rewrite (wordsFrom_pieces s EmptyString false) by discriminate.
  cbn [negb andb truthy]. now destruct s.
Qed.

Lemma split_clean (s : string) :
  truthy s = true -> FileService.startsWithSpace s = false ->
  FileService.endsWithSpace s = false ->
  split s = wordsOf s.
Proof.
  intros Hs Hstart Hend. rewrite split_pieces. unfold leading, trailing.
  rewrite Hstart. destruct s; [discriminate Hs|]. rewrite Hend. apply app_nil_r.
Qed.

Lemma noneOf_snoc (p : ascii -> bool) (s : string) (c : ascii) :
  FileService.noneOf p s = true -> p c = false ->
  FileService.noneOf p (s +:+ String c EmptyString) = true.
Proof.
  intros Hs Hc. induction s as [|d s IH]; cbn [String.append FileService.noneOf] in *.
  - now rewrite Hc.
  - apply andb_true_iff in Hs as [Hd Hs]. now rewrite Hd, IH.
Qed.

Lemma splitFrom_no_space (s : string) :
  forall cur gap,
    FileService.noneOf is_space cur = true ->
    Forall (fun piece => FileService.noneOf is_space piece = true) (splitFrom cur gap s).
Proof.
  induction s as [|c s IH]; intros cur gap Hcur; cbn [splitFrom].
  - now constructor.
  - destruct (is_space c) eqn:Hc.
    + destruct gap; [now apply IH|]. constructor; [exact Hcur | now apply IH].
    + apply IH. now apply noneOf_snoc.
Qed.

Lemma wordsFrom_word (w : string) :
  forall cur rest,
    FileService.noneOf is_space w = true ->
    wordsFrom cur (w +:+ rest) = wordsFrom (cur +:+ w) rest.
Proof.
  induction w as [|c w IH]; intros cur rest Hw.
  - cbn [String.append]. now rewrite append_nil_r.
  - cbn [FileService.noneOf] in Hw. apply andb_true_iff in Hw as [Hc Hw].
    apply negb_true_iff in Hc. cbn [String.append wordsFrom]. rewrite Hc.
    rewrite IH by exact Hw. now rewrite append_assoc.
Qed.

(** The words of pieces joined by single spaces are the pieces that are
    not empty. *)
Lemma wordsOf_join (l : list string) :
  Forall (fun piece => FileService.noneOf is_space piece = true) l ->
  wordsOf (join " " l) = List.filter truthy l.
Proof.
  unfold wordsOf. induction l as [|w l IH]; intros Hall; [reflexivity|].
  apply Forall_cons_1 in Hall as [Hw Hl]. destruct l as [|w' l].
  - cbn [join List.filter]. rewrite <- (append_nil_r w) at 1.
    rewrite wordsFrom_word by exact Hw.
    cbn [String.append wordsFrom]. now destruct (truthy w).
  - change (join " " (w :: w' :: l)) with (w +:+ " " +:+ join " " (w' :: l)).
    rewrite wordsFrom_word by exact Hw.
    change (wordsFrom (EmptyString +:+ w) (" " +:+ join " " (w' :: l)))
      with (if truthy w then w :: wordsFrom EmptyString (join " " (w' :: l))
            else wordsFrom EmptyString (join " " (w' :: l))).
    rewrite (IH Hl). cbn [List.filter]. now destruct (truthy w).
Qed.

(** What a page shows is its pieces joined by single spaces, also when
    the content is empty. *)
Lemma getPageContent_join (st : State) : getPageContent st = join " " (pageWords st).
Proof.
  unfold getPageContent. destruct (truthy (content st)) eqn:Hc; [reflexivity|].
  assert (Hempty : content st = EmptyString) by (destruct (content st); [reflexivity|discriminate]).
  unfold pageWords, slice. rewrite Hempty. change (split EmptyString) with [EmptyString].
  destruct (Z.to_nat _) as [|[|n]], (Z.to_nat _) as [|[|m]]; reflexivity.
Qed.

Lemma In_page {A : Type} (n m : nat) (l : list A) (x : A) :
  In x (firstn n (skipn m l)) -> In x l.
Proof.
  intros Hin. rewrite <- (firstn_skipn m l). apply in_or_app. right.
  rewrite <- (firstn_skipn n (skipn m l)). apply in_or_app. now left.
Qed.

Lemma getPageContent_page (st : State) (p : Z) :
  0 <= p ->
  getPageContent (withPage p st)
  = join " " (firstn 400 (skipn (Z.to_nat (p * 400)) (split (content st)))).
Proof. intros Hp. now rewrite getPageContent_join, pageWords_page. Qed.

Lemma wordsOf_page (st : State) (p : Z) :
  0 <= p ->
  wordsOf (getPageContent (withPage p st))
  = List.filter truthy (firstn 400 (skipn (Z.to_nat (p * 400)) (split (content st)))).
Proof.
  intros Hp. rewrite getPageContent_page by exact Hp. apply wordsOf_join.
  apply List.Forall_forall. intros piece Hin.
  apply (proj1 (List.Forall_forall _ _) (splitFrom_no_space (content st) EmptyString false eq_refl)).
  fold (split (content st)). exact (In_page _ _ _ _ Hin).
Qed.

Lemma wordsFrom_truthy (s : string) :
  forall cur, Forall (fun w => truthy w = true) (wordsFrom cur s).
Proof.
  induction s as [|c s IH]; intros cur; cbn [wordsFrom].
  - destruct (truthy cur) eqn:Hc; repeat constructor. exact Hc.
  - destruct (is_space c); [|apply IH].
    destruct (truthy cur) eqn:Hc; [constructor; [exact Hc|]|]; apply IH.
Qed.

Lemma filter_truthy_words (l : list string) :
  Forall (fun w => truthy w = true) l -> List.filter truthy l = l.
Proof.
  induction 1 as [|w l Hw _ IH]; [reflexivity|]. cbn [List.filter]. now rewrite Hw, IH.
Qed.

(** C5, as stated, fails on a text that begins or ends with white space:
    [split] leaves an empty piece there, and the pager counts and places
    it like a word. Of the thousand words behind one space, page 0 shows
    399 and page 2 shows 201; four hundred words and a line feed make two
    pages, where the ceiling of 400 over 400 is one. *)
Lemma pager_counts_empty_pieces :
  let st := loadFound Examples.indentedDisk Examples.loremBook initial in
  let st' := loadFound Examples.lineDisk Examples.loremBook initial in
  length (wordsOf (content st)) = 1000%nat
  /\ totalPages st = 3
  /\ length (wordsOf (getPageContent (withPage 0 st))) = 399%nat
  /\ length (wordsOf (getPageContent (withPage 2 st))) = 201%nat
  /\ length (wordsOf (content st')) = 400%nat
  /\ ceilDiv 400 400 = 1
  /\ totalPages st' = 2.
Proof. repeat split; vm_compute; reflexivity. Qed.

(** C5, amended: for a text book the screen holds the file's content;
    the pieces of its split on white space are its words, with one empty
    piece more in front when it begins with white space and one more
    behind when it ends with white space or is empty; [totalPages] is the
    ceiling of the number of pieces over 400; page [p] (from 0) shows the
    400 pieces from piece 400 p on, joined by single spaces, so that its
    words are those pieces that are not empty. When the content is not
    empty and has no white space at either end, the pieces are the words,
    and page [p] shows the 400 words from word 400 p on; with exactly 1000
    words, [totalPages] is 3, pages 0 and 1 show 400 words each, page 2
    shows 200, the three pages together show the words of the content, and
    [goToPage 3] changes neither the screen nor the store. *)
Theorem pager_pages (readAsStringAsync : string -> option string)
    (foundBook : Book.t) (st0 : State) :
  Book.fileType foundBook = "txt" ->
  let st := loadFound readAsStringAsync foundBook st0 in
  let pieces := split (content st) in
  let words := wordsOf (content st) in
  content st = readTextFile readAsStringAsync (Book.filePath foundBook)
  /\ pieces = leading (content st) ++ words ++ trailing (content st)
  /\ (totalPages st - 1) * 400 < Z.of_nat (length pieces) <= totalPages st * 400
  /\ (forall p, 0 <= p ->
        getPageContent (withPage p st)
        = join " " (firstn 400 (skipn (Z.to_nat (p * 400)) pieces)))
  /\ (forall p, 0 <= p ->
        wordsOf (getPageContent (withPage p st))
        = List.filter truthy (firstn 400 (skipn (Z.to_nat (p * 400)) pieces)))
  /\ (truthy (content st) = true ->
      FileService.startsWithSpace (content st) = false ->
      FileService.endsWithSpace (content st) = false ->
      pieces = words
      /\ (forall p, 0 <= p ->
            wordsOf (getPageContent (withPage p st))
            = firstn 400 (skipn (Z.to_nat (p * 400)) words))
      /\ (length words = 1000%nat ->
            totalPages st = 3
            /\ length (wordsOf (getPageContent (withPage 0 st))) = 400%nat
            /\ length (wordsOf (getPageContent (withPage 1 st))) = 400%nat
            /\ length (wordsOf (getPageContent (withPage 2 st))) = 200%nat
            /\ wordsOf (getPageContent (withPage 0 st))
                 ++ wordsOf (getPageContent (withPage 1 st))
                 ++ wordsOf (getPageContent (withPage 2 st)) = words
            /\ forall now now' this, goToPage now now' 3 st this = (st, Ok this))).
Proof.
  intros Htxt st pieces words.
  assert (Hst : st = MkState (Some foundBook)
                       (readTextFile readAsStringAsync (Book.filePath foundBook))
                       (Book.lastPageRead foundBook)
                       (ceilDiv (Z.of_nat (length (split
                          (readTextFile readAsStringAsync (Book.filePath foundBook))))) 400)).
  { unfold st, loadFound. now rewrite Htxt. }
  assert (Hcontent : content st = readTextFile readAsStringAsync (Book.filePath foundBook))
    by now rewrite Hst.
  assert (Htotal : totalPages st = ceilDiv (Z.of_nat (length pieces)) 400).
  { unfold pieces. rewrite Hcontent. now rewrite Hst. }
  split; [exact Hcontent|]. split; [apply split_pieces|].
  split; [rewrite Htotal; apply ceilDiv_spec; lia|].
  split; [intros p Hp; now apply getPageContent_page|].
  split; [intros p Hp; now apply wordsOf_page|].
  intros Hsome Hstart Hend.
  assert (Hclean : pieces = words) by now apply split_clean.
  assert (Hpage : forall p, 0 <= p ->
            wordsOf (getPageContent (withPage p st))
            = firstn 400 (skipn (Z.to_nat (p * 400)) words)).
  { intros p Hp. rewrite wordsOf_page by exact Hp. fold pieces. rewrite Hclean.
    apply filter_truthy_words. apply List.Forall_forall. intros w Hin.
    apply (proj1 (List.Forall_forall _ _) (wordsFrom_truthy (content st) EmptyString)).
    exact (In_page _ _ _ _ Hin). }
  split; [exact Hclean|]. split; [exact Hpage|].
  intros Hlen.
  assert (H3 : totalPages st = 3) by (rewrite Htotal, Hclean, Hlen; reflexivity).
  split; [exact H3|].
  rewrite !Hpage by lia.
  change (Z.to_nat (0 * 400)) with 0%nat. change (Z.to_nat (1 * 400)) with 400%nat.
  change (Z.to_nat (2 * 400)) with 800%nat.
  rewrite !length_firstn, !length_skipn, Hlen.
  split; [reflexivity|]. split; [reflexivity|]. split; [reflexivity|]. split.
  - cbn [skipn].
    rewrite (firstn_all2 (n := 400) (skipn 800 words)) by (rewrite length_skipn, Hlen; cbn; lia).
    replace (skipn 800 words) with (skipn 400 (skipn 400 words))
      by (rewrite skipn_skipn; reflexivity).
    now rewrite !firstn_skipn.
  - intros now now' this. apply goToPage_out_of_range. lia.
Qed.

Lemma pager_pages_witness :
  let st := loadFound Examples.disk Examples.loremBook initial in
  length (wordsOf (content st)) = 1000%nat
  /\ totalPages st = 3
  /\ length (wordsOf (getPageContent (withPage 2 st))) = 200%nat
  /\ goToPage Examples.later Examples.later 3 st Examples.service0
     = (st, Ok Examples.service0).
Proof.
  intros st.
  assert (Hlen : length (wordsOf (content st)) = 1000%nat) by (vm_compute; reflexivity).
  destruct (pager_pages Examples.disk Examples.loremBook initial eq_refl)
    as (_ & _ & _ & _ & _ & H).
  destruct H as (_ & _ & H); [reflexivity | reflexivity | vm_compute; reflexivity |].
  destruct (H Hlen) as (H3 & _ & _ & H2 & _ & Hgo).
  split; [exact Hlen|]. split; [exact H3|]. split; [exact H2|]. apply Hgo.
Defined.

End ReaderFacts.

(** ** The recommendation ranking *)

Module RecommendationFacts.
Import JsString RecommendationService RecommendationService.Plain.

(** *** The tally *)

Lemma count_bump (g genre : string) (r : record) :
  count g (bump genre r) = count g r + (if String.eqb genre g then 1 else 0).
Proof.
  induction r as [|[k n] rest IH]; cbn [bump count].
  - destruct (String.eqb genre g); lia.
  - destruct (String.eqb k genre) eqn:Hk; cbn [count].
    + apply String.eqb_eq in Hk. subst k.
      destruct (String.eqb genre g); lia.
    + destruct (String.eqb k g) eqn:Hg; [|exact IH].
      apply String.eqb_eq in Hg. subst k. rewrite String.eqb_sym, Hk. lia.
Qed.

Lemma count_tags (g : string) (tags : list string) :
  forall r, count g (fold_left (fun acc genre => bump genre acc) tags r)
            = count g r + countTag g tags.
Proof.
  induction tags as [|t tags IH]; intros r; cbn [fold_left countTag]; [lia|].
  rewrite IH, count_bump. lia.
Qed.

Lemma count_books (g : string) (books : list Book.t) :
  forall r, count g (fold_left tallyStep books r) = count g r + occurrences g books.
Proof.
  induction books as [|b books IH]; intros r; cbn [fold_left occurrences]; [lia|].
  rewrite IH. unfold tallyStep. destruct (Book.genreTags b) as [tags|]; cbn [from_option id].
  - rewrite count_tags. lia.
  - cbn [countTag]. lia.
Qed.

(** The tally holds, for each genre, the number of its occurrences in the
    tags of the library. *)
Lemma count_analyze (g : string) (books : list Book.t) :
  count g (analyzeGenrePreferences books) = occurrences g books.
Proof. exact (count_books g books []). Qed.

(** The keys of the tally are the genres in the order of their first
    appearance. *)
Lemma keys_bump (genre : string) (r : record) :
  map fst (bump genre r) = note (map fst r) genre.
Proof.
  unfold note. induction r as [|[k n] rest IH]; cbn [bump map fst existsb]; [reflexivity|].
  rewrite (String.eqb_sym genre k).
  destruct (String.eqb k genre); cbn [map fst orb]; [reflexivity|].
  rewrite IH. now destruct (existsb (String.eqb genre) (map fst rest)).
Qed.

Lemma keys_tags (tags : list string) :
  forall r, map fst (fold_left (fun acc genre => bump genre acc) tags r)
            = fold_left note tags (map fst r).
Proof.
  induction tags as [|t tags IH]; intros r; cbn [fold_left]; [reflexivity|].
  now rewrite IH, keys_bump.
Qed.

Lemma keys_books (books : list Book.t) :
  forall r, map fst (fold_left tallyStep books r)
            = fold_left note (allTags books) (map fst r).
Proof.
  induction books as [|b books IH]; intros r; cbn [fold_left]; [reflexivity|].
  unfold allTags. cbn [flat_map]. rewrite fold_left_app, IH. f_equal.
  unfold tallyStep. destruct (Book.genreTags b) as [tags|]; cbn [from_option id fold_left].
  - apply keys_tags.
  - reflexivity.
Qed.

Lemma keys_analyze (books : list Book.t) :
  map fst (analyzeGenrePreferences books) = firstSeen (allTags books).
Proof. exact (keys_books books []). Qed.

Lemma existsb_eqb_In (g : string) (l : list string) :
  existsb (String.eqb g) l = true <-> In g l.
Proof.
  rewrite existsb_exists. split.
  - intros [x [Hin Hx]]. apply String.eqb_eq in Hx. now subst.
  - intros H. exists g. split; [exact H | apply String.eqb_refl].
Qed.

Lemma NoDup_note (seen : list string) (genre : string) :
  List.NoDup seen -> List.NoDup (note seen genre).
Proof.
  intros H. unfold note. destruct (existsb (String.eqb genre) seen) eqn:He; [exact H|].
  apply List.NoDup_app; [exact H | constructor; [intros [] | constructor] |].
  intros x Hx [<- | []]. apply existsb_eqb_In in Hx. congruence.
Qed.

Lemma NoDup_fold_note (tags : list string) :
  forall seen, List.NoDup seen -> List.NoDup (fold_left note tags seen).
Proof.
  induction tags as [|t tags IH]; intros seen H; cbn [fold_left]; [exact H|].
  apply IH. now apply NoDup_note.
Qed.

(** No genre has two entries in the tally. *)
Lemma NoDup_keys_analyze (books : list Book.t) :
  List.NoDup (map fst (analyzeGenrePreferences books)).
Proof. rewrite keys_analyze. apply NoDup_fold_note. constructor. Qed.

(** With distinct keys, an entry holds the count of its key. *)
Lemma count_entry (r : record) (g : string) (n : Z) :
  List.NoDup (map fst r) -> In (g, n) r -> count g r = n.
Proof.
  induction r as [|[k m] rest IH]; intros Hnd Hin; [destruct Hin|].
  cbn [map fst] in Hnd. apply List.NoDup_cons_iff in Hnd as [Hk Hnd]. cbn [count].
  destruct Hin as [Heq | Hin].
  - injection Heq as -> ->. now rewrite String.eqb_refl.
  - destruct (String.eqb k g) eqn:Hkg.
    + apply String.eqb_eq in Hkg. subst k. exfalso. apply Hk.
      apply in_map_iff. now exists (g, n).
    + now apply IH.
Qed.

Lemma count_pos_In (r : record) (g : string) :
  count g r <> 0 -> In (g, count g r) r.
Proof.
  induction r as [|[k m] rest IH]; cbn [count]; intros H; [congruence|].
  destruct (String.eqb k g) eqn:Hkg.
  - apply String.eqb_eq in Hkg. subst k. now left.
  - right. now apply IH.
Qed.

(** *** [Object.entries] *)

Lemma insertIndexed_perm (e : N * (string * Z)) (l : list (N * (string * Z))) :
  Permutation (insertIndexed e l) (e :: l).
Proof.
  induction l as [|x l IH]; cbn [insertIndexed]; [reflexivity|].
  destruct (fst e <? fst x)%N; [reflexivity|].
  rewrite IH. apply perm_swap.
Qed.

Lemma indexSort_perm (l : list (N * (string * Z))) :
  Permutation (foldr insertIndexed [] l) l.
Proof.
  induction l as [|x l IH]; cbn [foldr]; [reflexivity|].
  rewrite insertIndexed_perm. now rewrite IH.
Qed.

Lemma indexed_filter (r : record) :
  map snd (indexed r) = List.filter (fun e => isArrayIndex (fst e)) r.
Proof.
  unfold indexed, isArrayIndex. induction r as [|e r IH]; [reflexivity|].
  cbn [omap list_omap List.filter]. destruct (arrayIndex (fst e)); cbn; now rewrite IH.
Qed.

Lemma filter_split {A : Type} (f : A -> bool) (l : list A) :
  Permutation (List.filter f l ++ List.filter (fun x => negb (f x)) l) l.
Proof.
  induction l as [|x l IH]; [reflexivity|].
  cbn [List.filter]. destruct (f x); cbn [negb app].
  - now rewrite IH.
  - rewrite <- Permutation_middle. now rewrite IH.
Qed.

(** [entries] lists every property of the record once. *)
Lemma entries_perm (r : record) : Permutation (entries r) r.
Proof.
  unfold entries. rewrite indexSort_perm, indexed_filter. apply filter_split.
Qed.

(** When no key is an array index, the entries are in the order in which
    the keys were created. *)
Lemma entries_plain (r : record) :
  Forall (fun e => isArrayIndex (fst e) = false) r -> entries r = r.
Proof.
  intros H. unfold entries.
  assert (Hi : indexed r = []).
  { unfold indexed. induction H as [|e r He _ IH]; [reflexivity|].
    cbn [omap list_omap]. unfold isArrayIndex in He.
    destruct (arrayIndex (fst e)); [discriminate|]. exact IH. }
  rewrite Hi. cbn [foldr map app]. clear Hi.
  induction H as [|e r He _ IH]; [reflexivity|].
  cbn [List.filter]. rewrite He. cbn [negb]. now rewrite IH.
Qed.

(** *** The stable sort by descending count *)

Lemma insertByCount_perm (e : string * Z) (l : record) :
  Permutation (insertByCount e l) (e :: l).
Proof.
  induction l as [|x l IH]; cbn [insertByCount]; [reflexivity|].
  destruct (snd x <? snd e); [reflexivity|].
  rewrite IH. apply perm_swap.
Qed.

Lemma insertByCount_sorted (e : string * Z) (l : record) :
  StronglySorted byCountDesc l -> StronglySorted byCountDesc (insertByCount e l).
Proof.
  induction 1 as [|x l Hl IH Hx]; cbn [insertByCount].
  - repeat constructor.
  - destruct (snd x <? snd e) eqn:Hlt.
    + apply Z.ltb_lt in Hlt. constructor; [now constructor|].
      constructor; [unfold byCountDesc; lia|].
      eapply List.Forall_impl; [|exact Hx]. unfold byCountDesc. intros y Hy. cbn beta in Hy. lia.
    + apply Z.ltb_ge in Hlt. constructor; [exact IH|].
      rewrite (insertByCount_perm e l). constructor; [exact Hlt | exact Hx].
Qed.

(** Insertion does not disturb the order among entries of equal count: the
    new entry goes behind the ones that are there. *)
Lemma insertByCount_stable (n : Z) (e : string * Z) (l : record) :
  StronglySorted byCountDesc l ->
  withCount n (insertByCount e l) = withCount n l ++ withCount n [e].
Proof.
  unfold withCount. induction 1 as [|x l Hl IH Hx]; cbn [insertByCount]; [reflexivity|].
  destruct (snd x <? snd e) eqn:Hlt.
  - apply Z.ltb_lt in Hlt. cbn [List.filter].
    destruct (snd e =? n) eqn:He; [|now rewrite app_nil_r].
    apply Z.eqb_eq in He.
    assert (Hx' : (snd x =? n) = false) by (apply Z.eqb_neq; lia).
    rewrite Hx'.
    assert (Hnone : List.filter (fun y => snd y =? n) l = []).
    { clear IH Hl. induction Hx as [|y l Hy _ IHl]; [reflexivity|].
      cbn [List.filter]. unfold byCountDesc in Hy.
      assert (Hy' : (snd y =? n) = false) by (apply Z.eqb_neq; lia).
      now rewrite Hy'. }
    now rewrite Hnone.
  - cbn [List.filter]. rewrite IH. now destruct (snd x =? n).
Qed.

Lemma sort_from (l : record) :
  forall acc,
    StronglySorted byCountDesc acc ->
    StronglySorted byCountDesc (fold_left (fun sorted e => insertByCount e sorted) l acc)
    /\ Permutation (fold_left (fun sorted e => insertByCount e sorted) l acc) (acc ++ l)
    /\ forall n, withCount n (fold_left (fun sorted e => insertByCount e sorted) l acc)
                 = withCount n acc ++ withCount n l.
Proof.
  induction l as [|e l IH]; intros acc Hacc; cbn [fold_left].
  - split; [exact Hacc|]. split; [now rewrite app_nil_r|].
    intros n. unfold withCount. cbn [List.filter]. now rewrite app_nil_r.
  - destruct (IH (insertByCount e acc) (insertByCount_sorted e acc Hacc)) as (Hs & Hp & Hn).
    split; [exact Hs|]. split.
    + rewrite Hp, insertByCount_perm. apply Permutation_middle.
    + intros n. rewrite Hn, insertByCount_stable by exact Hacc.
      rewrite <- app_assoc. f_equal. unfold withCount. cbn [List.filter].
      now destruct (snd e =? n).
Qed.

Lemma sortByCount_sorted (l : record) : StronglySorted byCountDesc (sortByCount l).
Proof. apply (sort_from l []). constructor. Qed.

Lemma sortByCount_perm (l : record) : Permutation (sortByCount l) l.
Proof. apply (sort_from l []). constructor. Qed.

(** The sort is stable: entries of equal count keep the order they had. *)
Lemma sortByCount_stable (n : Z) (l : record) :
  withCount n (sortByCount l) = withCount n l.
Proof. apply (sort_from l []). constructor. Qed.

(** *** Finance ahead of fiction *)

Lemma existsb_firstn {A : Type} (f : A -> bool) (n : nat) (l : list A) :
  existsb f l = false -> existsb f (firstn n l) = false.
Proof.
  revert n. induction l as [|x l IH]; intros [|n] H; try reflexivity.
  cbn [firstn existsb] in *. apply orb_false_iff in H as [-> H]. now apply IH.
Qed.

Lemma financeLeads_firstn (n : nat) (l : list string) :
  financeLeads l = true -> financeLeads (firstn n l) = true.
Proof.
  revert n. induction l as [|g l IH]; intros [|n] H; try reflexivity.
  cbn [firstn financeLeads] in *.
  destruct (String.eqb "finance" g).
  - apply negb_true_iff in H. apply negb_true_iff. now apply existsb_firstn.
  - destruct (String.eqb "fiction" g); [discriminate | now apply IH].
Qed.

(** In a list sorted by descending count with distinct keys, "finance"
    stands before "fiction" as soon as its count is the greater one. *)
Lemma financeLeads_sorted (ranked : record) (a : Z) :
  StronglySorted byCountDesc ranked ->
  List.NoDup (map fst ranked) ->
  In ("finance", a) ranked ->
  (forall b, In ("fiction", b) ranked -> b < a) ->
  financeLeads (map fst ranked) = true.
Proof.
  induction ranked as [|[g n] rest IH]; intros Hs Hnd Hfin Hfic; [destruct Hfin|].
  apply StronglySorted_inv in Hs as [Hs Hhead].
  cbn [map fst] in Hnd. apply List.NoDup_cons_iff in Hnd as [Hg Hnd].
  cbn [map fst financeLeads].
  destruct (String.eqb "finance" g) eqn:E1.
  - apply String.eqb_eq in E1. subst g. apply negb_true_iff.
    destruct (existsb (String.eqb "finance") (map fst rest)) eqn:He; [|reflexivity].
    apply existsb_eqb_In in He. contradiction.
  - assert (Hfin' : In ("finance", a) rest).
    { destruct Hfin as [Heq | Hin]; [|exact Hin].
      injection Heq as -> _. now rewrite String.eqb_refl in E1. }
    destruct (String.eqb "fiction" g) eqn:E2.
    + apply String.eqb_eq in E2. subst g. exfalso.
      pose proof (Hfic n (or_introl eq_refl)) as Hlt.
      rewrite List.Forall_forall in Hhead. specialize (Hhead _ Hfin').
      unfold byCountDesc in Hhead. cbn [snd] in Hhead. lia.
    + apply IH; [exact Hs | exact Hnd | exact Hfin' |].
      intros b Hb. apply Hfic. now right.
Qed.

Lemma existsb_classify (l : list string) :
  existsb (fun c => match c with Finance => true | _ => false end) (map classify l)
  = existsb (String.eqb "finance") l.
Proof.
  induction l as [|g l IH]; [reflexivity|]. cbn [map existsb]. rewrite IH. f_equal.
  unfold classify. destruct (String.eqb "finance" g); [reflexivity|].
  now repeat match goal with |- context [String.eqb ?k g] => destruct (String.eqb k g) end.
Qed.

Lemma financeLeads_shelves (l : list string) :
  financeLeadsOnShelves (map classify l) = financeLeads l.
Proof.
  induction l as [|g l IH]; [reflexivity|].
  cbn [map financeLeads financeLeadsOnShelves]. unfold classify at 1.
  destruct (String.eqb "finance" g) eqn:E1; [now rewrite existsb_classify|].
  destruct (String.eqb "business" g) eqn:E2.
  { apply String.eqb_eq in E2. subst g. exact IH. }
  destruct (String.eqb "fiction" g) eqn:E3; [reflexivity|].
  destruct (String.eqb "technical" g); exact IH.
Qed.

Lemma catalogOf_shelf (g : string) : catalogOf bookDatabase g = shelf (classify g).
Proof.
  unfold classify, bookDatabase. cbn [catalogOf].
  now repeat match goal with |- context [String.eqb ?k g] => destruct (String.eqb k g) end.
Qed.

Lemma generate_fromShelves (genreFrequency : record) :
  generateRecommendations genreFrequency
  = fromShelves (map classify (topGenres genreFrequency)).
Proof.
  unfold generateRecommendations, fromShelves. cbv zeta. do 2 f_equal.
  induction (topGenres genreFrequency) as [|g l IH]; [reflexivity|].
  cbn [flat_map map]. now rewrite IH, catalogOf_shelf.
Qed.

(** Every selection of at most three shelves in which finance leads gives
    recommendations in which the finance ids stand before the fiction id. *)
Lemma fromShelves_ordered (cs : list shelfName) :
  (length cs <= 3)%nat -> financeLeadsOnShelves cs = true ->
  aheadIds ["fin-1"; "fin-2"] ["fic-1"] (map RecommendedBook.id (fromShelves cs)) = true.
Proof.
  intros Hlen Hlead.
  destruct cs as [|c1 [|c2 [|c3 [|c4 cs]]]]; [| | | | cbn [length] in Hlen; lia];
    repeat match goal with c : shelfName |- _ => destruct c end;
    first [reflexivity | discriminate Hlead].
Qed.

Lemma inIds_map (x : RecommendedBook.t) (l : list RecommendedBook.t) :
  In x l -> inIds (RecommendedBook.id x) (map RecommendedBook.id l) = true.
Proof.
  intros H. unfold inIds. apply existsb_exists. exists (RecommendedBook.id x).
  split; [now apply in_map | apply String.eqb_refl].
Qed.

(** The test on ids is sound for the order of the entries. *)
Lemma aheadIds_ahead (first second result : list RecommendedBook.t) :
  aheadIds (map RecommendedBook.id first) (map RecommendedBook.id second)
    (map RecommendedBook.id result) = true ->
  ahead first second result.
Proof.
  unfold ahead. induction result as [|x rest IH]; intros Hids i j a b Hi Hj Ha Hb.
  - destruct i; discriminate Hi.
  - cbn [map aheadIds] in Hids. apply andb_true_iff in Hids as [Hx Hrest].
    destruct j as [|j].
    + exfalso. cbn in Hj. injection Hj as ->.
      rewrite (inIds_map b second Hb) in Hx. apply andb_true_iff in Hx as [Hx1 Hx2].
      destruct i as [|i].
      * cbn in Hi. injection Hi as ->. rewrite (inIds_map a first Ha) in Hx1. discriminate.
      * cbn in Hi. apply negb_true_iff in Hx2.
        assert (Hex : existsb (fun y => inIds y (map RecommendedBook.id first))
                        (map RecommendedBook.id rest) = true).
        { apply existsb_exists. exists (RecommendedBook.id a). split.
          - apply in_map. apply list_elem_of_In. eapply list_elem_of_lookup_2. exact Hi.
          - now apply inIds_map. }
        congruence.
    + destruct i as [|i]; [lia|].
      cbn in Hi, Hj. pose proof (IH Hrest i j a b Hi Hj Ha Hb). lia.
Qed.

Lemma topGenres_firstn (genreFrequency : record) :
  topGenres genreFrequency = firstn 3 (map fst (sortByCount (entries genreFrequency))).
Proof. unfold topGenres. now rewrite firstn_map. Qed.

(** Whenever "finance" occurs more often than "fiction", the finance
    entries of the catalog stand before the fiction entry in the result. *)
Lemma finance_ahead_of_fiction (books : list Book.t) :
  occurrences "fiction" books < occurrences "finance" books ->
  ahead (catalogOf bookDatabase "finance") (catalogOf bookDatabase "fiction")
    (recommend books).
Proof.
  intros Hmore. unfold recommend. set (freq := analyzeGenrePreferences books).
  set (ranked := sortByCount (entries freq)).
  assert (Hperm : Permutation ranked freq).
  { unfold ranked. rewrite sortByCount_perm. apply entries_perm. }
  assert (Hnd : List.NoDup (map fst ranked)).
  { eapply Permutation_NoDup; [apply Permutation_map; symmetry; exact Hperm|].
    apply NoDup_keys_analyze. }
  assert (Hlead : financeLeads (map fst ranked) = true).
  { apply (financeLeads_sorted ranked (occurrences "finance" books)).
    - apply sortByCount_sorted.
    - exact Hnd.
    - eapply Permutation_in; [symmetry; exact Hperm|].
      rewrite <- (count_analyze "finance" books). apply count_pos_In.
      fold freq. unfold freq. rewrite count_analyze.
      assert (0 <= occurrences "fiction" books).
      { clear. induction books as [|b books IH]; cbn [occurrences]; [lia|].
        assert (forall tags, 0 <= countTag "fiction" tags).
        { induction tags as [|t tags IHt]; cbn [countTag]; [lia|].
          destruct (String.eqb t "fiction"); lia. }
        specialize (H (default [] (Book.genreTags b))). lia. }
      lia.
    - intros b Hb. apply (Permutation_in _ Hperm) in Hb.
      apply count_entry in Hb; [|apply NoDup_keys_analyze].
      unfold freq in Hb. rewrite count_analyze in Hb. lia. }
  rewrite generate_fromShelves.
  apply (aheadIds_ahead (catalogOf bookDatabase "finance") (catalogOf bookDatabase "fiction")).
  apply fromShelves_ordered.
  - rewrite length_map. unfold topGenres. rewrite length_map, length_firstn. lia.
  - rewrite financeLeads_shelves, topGenres_firstn. now apply financeLeads_firstn.
Qed.

(** *** The three genres selected *)

Lemma StronglySorted_app_inv {A : Type} (R : A -> A -> Prop) (l1 l2 : list A) :
  StronglySorted R (l1 ++ l2) -> forall x y, In x l1 -> In y l2 -> R x y.
Proof.
  induction l1 as [|a l1 IH]; intros Hs x y Hx Hy; [destruct Hx|].
  cbn [app] in Hs. apply StronglySorted_inv in Hs as [Hs Ha].
  destruct Hx as [<- | Hx].
  - rewrite List.Forall_forall in Ha. apply Ha. apply in_or_app. now right.
  - now apply IH.
Qed.

(** No genre left out has a greater count than a genre selected. *)
Lemma topGenres_dominate (books : list Book.t) (g g' : string) :
  let freq := analyzeGenrePreferences books in
  In g (topGenres freq) -> In g' (map fst freq) -> ~ In g' (topGenres freq) ->
  count g' freq <= count g freq.
Proof.
  intros freq Hg Hg' Hout. set (ranked := sortByCount (entries freq)).
  assert (Hperm : Permutation ranked freq).
  { unfold ranked. rewrite sortByCount_perm. apply entries_perm. }
  pose proof (sortByCount_sorted (entries freq)) as Hs. fold ranked in Hs.
  rewrite <- (firstn_skipn 3 ranked) in Hs.
  unfold topGenres in Hg, Hout. fold ranked in Hg, Hout.
  apply in_map_iff in Hg as [[k n] [Hk Hin]]. cbn [fst] in Hk. subst k.
  apply in_map_iff in Hg' as [[k n'] [Hk Hin']]. cbn [fst] in Hk. subst k.
  assert (Hn : count g freq = n).
  { apply count_entry; [apply NoDup_keys_analyze|].
    apply (Permutation_in _ Hperm). rewrite <- (firstn_skipn 3 ranked).
    apply in_or_app. now left. }
  assert (Hn' : count g' freq = n') by (apply count_entry; [apply NoDup_keys_analyze | exact Hin']).
  assert (Hrest : In (g', n') (skipn 3 ranked)).
  { apply (Permutation_in _ (Permutation_sym Hperm)) in Hin'.
    rewrite <- (firstn_skipn 3 ranked) in Hin'. apply in_app_or in Hin' as [Hfirst | Hrest].
    - exfalso. apply Hout. apply in_map_iff. now exists (g', n').
    - exact Hrest. }
  pose proof (StronglySorted_app_inv _ _ _ Hs _ _ Hin Hrest) as Hle.
  unfold byCountDesc in Hle. cbn [snd] in Hle. lia.
Qed.

End RecommendationFacts.

(** * Further properties of the code *)

(** ** File types, genres and authors *)

Module FileHelperFacts.
Import JsString FileService JsStringFacts FileServiceFacts.

(** Membership in a list that is written out. *)
Ltac in_list := vm_compute; repeat (first [left; reflexivity | right]).

Lemma lastSegment_after_dot (stem ext : string) :
  forall cur, lastSegment cur (stem +:+ "." +:+ ext) = lastSegment EmptyString ext.
Proof.
  induction stem as [|c stem IH]; intros cur; [reflexivity|].
  cbn [String.append lastSegment]. destruct (Ascii.eqb c "."); apply IH.
Qed.

Lemma lastSegment_no_dot (ext : string) :
  forall cur, noneOf (lit ".") ext = true -> lastSegment cur ext = cur +:+ ext.
Proof.
  induction ext as [|c ext IH]; intros cur H; cbn [lastSegment].
  - now rewrite append_nil_r.
  - cbn [noneOf] in H. apply andb_true_iff in H as [Hc H]. unfold lit in Hc.
    apply negb_true_iff in Hc. rewrite Hc, IH by exact H.
    now rewrite append_assoc.
Qed.

(** The file type is read off the text after the last dot, whatever its
    letter case: pdf, epub, txt, doc and docx are known (docx is a doc), and
    every other extension is taken for a text file. *)
Theorem getFileTypeFromUri_extension (stem ext : string) :
  noneOf (lit ".") ext = true ->
  getFileTypeFromUri (stem +:+ "." +:+ ext)
  = (let e := toLowerCase ext in
     if String.eqb e "pdf" then "pdf"
     else if String.eqb e "epub" then "epub"
     else if String.eqb e "doc" then "doc"
     else if String.eqb e "docx" then "doc"
     else "txt").
Proof.
  intros H. unfold getFileTypeFromUri.
  rewrite lastSegment_after_dot, lastSegment_no_dot by exact H. cbn [String.append].
  cbv zeta. destruct (String.eqb (toLowerCase ext) "pdf"); [reflexivity|].
  destruct (String.eqb (toLowerCase ext) "epub"); [reflexivity|].
  destruct (String.eqb (toLowerCase ext) "txt") eqn:Ht; [|reflexivity].
  apply String.eqb_eq in Ht. now rewrite Ht.
Qed.

Lemma getFileTypeFromUri_extension_witness :
  getFileTypeFromUri "Notes.v2.DocX" = "doc".
Proof.
  exact (getFileTypeFromUri_extension "Notes.v2" "DocX" eq_refl).
Defined.

(** *** Genres *)

Lemma genreKeywords_functional (genre : string) (k k' : list string) :
  In (genre, k) genreKeywords -> In (genre, k') genreKeywords -> k = k'.
Proof.
  intros H H'. cbn in H, H'.
  repeat (destruct H as [H | H]; [injection H as <- <- |]); try destruct H;
    repeat (destruct H' as [H' | H']; [first [discriminate H' | now injection H' as <-] |]);
    destruct H'.
Qed.

Lemma genreKeywords_not_general (keywords : list string) :
  ~ In ("general", keywords) genreKeywords.
Proof.
  intros H. cbn in H. repeat (destruct H as [H | H]; [discriminate H |]). destruct H.
Qed.

(** A genre of the table is assigned exactly when one of its keywords
    occurs in the lower-cased title or in the lower-cased excerpt. *)
Theorem detectGenre_assigns (title : string) (content : option string)
    (genre : string) (keywords : list string) :
  In (genre, keywords) genreKeywords ->
  (In genre (detectGenre title content) <->
   exists keyword,
     In keyword keywords
     /\ (occursIn keyword (toLowerCase title) \/ occursIn keyword (lowerContent content))).
Proof.
  intros Hin. rewrite <- keywordHit_true. unfold detectGenre. cbv zeta.
  destruct (collectGenres _ _ genreKeywords) as [|g gs] eqn:Hc.
  - split.
    + intros [H | []]. subst genre. now apply genreKeywords_not_general in Hin.
    + intros H. exfalso.
      assert (Hg : In genre (collectGenres (toLowerCase title) (lowerContent content) genreKeywords))
        by (apply collectGenres_In; now exists keywords).
      rewrite Hc in Hg. destruct Hg.
  - rewrite <- Hc, collectGenres_In. split.
    + intros [k' [Hin' H]]. now rewrite (genreKeywords_functional genre keywords k' Hin Hin').
    + intros H. now exists keywords.
Qed.

Lemma detectGenre_assigns_witness :
  In "history" (detectGenre "Money and War" None).
Proof.
  apply (detectGenre_assigns "Money and War" None "history"
           ["history"; "historical"; "war"; "ancient"; "civilization"]).
  - in_list.
  - exists "war". split; [in_list|]. left. now exists "money and ", EmptyString.
Defined.

Lemma collectGenres_sublist (tl cl : string) (table : list (string * list string)) :
  sublist (collectGenres tl cl table) (map fst table).
Proof.
  induction table as [|[g ks] rest IH]; cbn [collectGenres map fst]; [constructor|].
  destruct (keywordHit tl cl ks); now constructor.
Qed.

(** The tags of a book are never empty: they are the fallback alone, or
    genres of the table, each at most once and in the table's order. *)
Theorem detectGenre_shape (title : string) (content : option string) :
  detectGenre title content <> []
  /\ (detectGenre title content = ["general"]
      \/ sublist (detectGenre title content) (map fst genreKeywords)).
Proof.
  unfold detectGenre. cbv zeta.
  pose proof (collectGenres_sublist (toLowerCase title) (lowerContent content) genreKeywords) as Hs.
  destruct (collectGenres _ _ genreKeywords) as [|g gs].
  - split; [discriminate | now left].
  - split; [discriminate | now right].
Qed.

Lemma keywordHit_more_content (tl cl : string) (keywords : list string) :
  keywordHit tl EmptyString keywords = true -> keywordHit tl cl keywords = true.
Proof.
  unfold keywordHit. rewrite !existsb_exists. intros [k [Hin H]]. exists k. split; [exact Hin|].
  apply orb_true_iff in H as [H | H]; apply orb_true_iff; [now left|].
  destruct k; [|discriminate H]. left. now destruct tl.
Qed.

(** A genre found in the title alone is still assigned when an excerpt of
    the content is given as well. *)
Theorem detectGenre_title_persists (title content genre : string) :
  In genre (detectGenre title None) -> genre <> "general" ->
  In genre (detectGenre title (Some content)).
Proof.
  unfold detectGenre. cbv zeta. cbn [lowerContent]. intros Hin Hne.
  assert (Hg : In genre (collectGenres (toLowerCase title) EmptyString genreKeywords)).
  { destruct (collectGenres (toLowerCase title) EmptyString genreKeywords); [|exact Hin].
    destruct Hin as [<- | []]. congruence. }
  apply collectGenres_In in Hg as [ks [Hks Hhit]].
  assert (Hg' : In genre (collectGenres (toLowerCase title) (toLowerCase content) genreKeywords)).
  { apply collectGenres_In. exists ks. split; [exact Hks|]. now apply keywordHit_more_content. }
  destruct (collectGenres (toLowerCase title) (toLowerCase content) genreKeywords);
    [destruct Hg' | exact Hg'].
Qed.

Lemma detectGenre_title_persists_witness :
  In "finance" (detectGenre "Money" (Some "Once upon a time, a story.")).
Proof.
  apply detectGenre_title_persists; [in_list | discriminate].
Defined.

End FileHelperFacts.

Module AuthorFacts.
Import JsString FileService JsStringFacts FileServiceFacts.

Lemma trimStart_no_space (s : string) : startsWithSpace (trimStart s) = false.
Proof.
  induction s as [|c s IH]; [reflexivity|]. cbn [trimStart].
  destruct (is_space c) eqn:Hc; [exact IH | exact Hc].
Qed.

Lemma trimStart_fixed (s : string) : startsWithSpace s = false -> trimStart s = s.
Proof. destruct s as [|c s]; [reflexivity|]. cbn. now intros ->. Qed.

Lemma trimEnd_keeps_start (s : string) :
  startsWithSpace s = false -> startsWithSpace (trimEnd s) = false.
Proof.
  destruct s as [|c s]; [reflexivity|]. cbn [startsWithSpace trimEnd]. intros Hc.
  destruct (trimEnd s); [rewrite Hc|]; exact Hc.
Qed.

Lemma trimEnd_no_space (s : string) : endsWithSpace (trimEnd s) = false.
Proof.
  induction s as [|c s IH]; [reflexivity|]. cbn [trimEnd].
  destruct (trimEnd s) as [|d t] eqn:Ht.
  - destruct (is_space c) eqn:Hc; [reflexivity | exact Hc].
  - exact IH.
Qed.

Lemma trimEnd_fixed (s : string) : trimEnd (trimEnd s) = trimEnd s.
Proof.
  induction s as [|c s IH]; [reflexivity|]. cbn [trimEnd].
  destruct (trimEnd s) as [|d t] eqn:Ht.
  - destruct (is_space c) eqn:Hc; [reflexivity|]. cbn [trimEnd]. now rewrite Hc.
  - cbn [trimEnd] in *. now rewrite IH.
Qed.

(** [trim] leaves no white space at either end, and trimming again changes
    nothing. *)
Lemma trim_no_space (s : string) :
  startsWithSpace (trim s) = false /\ endsWithSpace (trim s) = false.
Proof.
  unfold trim. split; [|apply trimEnd_no_space].
  apply trimEnd_keeps_start, trimStart_no_space.
Qed.

Lemma trim_fixed (s : string) : trim (trim s) = trim s.
Proof.
  unfold trim. rewrite trimStart_fixed by apply trim_no_space. apply trimEnd_fixed.
Qed.

Lemma firstMatch_trimmed (ps : list (list node)) (filename author : string) :
  firstMatch ps filename = Some author -> exists text, author = trim text.
Proof.
  induction ps as [|pattern ps IH]; cbn [firstMatch]; [discriminate|].
  destruct (matchAnchored pattern filename) as [m|]; [|exact IH].
  unfold orElse.
  destruct (group filename m 2) as [g2|]; destruct (group filename m 1) as [g1|]; cbn;
    try destruct (truthy (trim g2)); intros H; try discriminate H;
    injection H as <-; eauto.
Qed.

(** Whatever author is returned has no white space at its start or end. *)
Theorem extractAuthor_trimmed (filename author : string) :
  extractAuthorFromFilename filename = Some author ->
  startsWithSpace author = false /\ endsWithSpace author = false /\ trim author = author.
Proof.
  intros H. apply firstMatch_trimmed in H as [text ->].
  split; [apply trim_no_space|]. split; [apply trim_no_space | apply trim_fixed].
Qed.

Lemma extractAuthor_trimmed_witness :
  extractAuthorFromFilename "Dune  by   Frank Herbert  " = Some "Frank Herbert"
  /\ trim "Frank Herbert" = "Frank Herbert".
Proof.
  assert (H : extractAuthorFromFilename "Dune  by   Frank Herbert  " = Some "Frank Herbert")
    by (vm_compute; reflexivity).
  split; [exact H|]. exact (proj2 (proj2 (extractAuthor_trimmed _ _ H))).
Defined.

(** A pattern that demands a character of one class followed by a
    character of another fails on a text without such a pair. *)
Lemma run_needs_pair (p q : ascii -> bool) (before after : list node) :
  forall s pos m,
    noPair p q s = true -> run (before ++ One p :: One q :: after) s pos m = None.
Proof.
  assert (Htail : forall c s, noPair p q (String c s) = true -> noPair p q s = true).
  { intros c [|d s] H; [reflexivity|]. cbn [noPair] in H. now apply andb_true_iff in H. }
  induction before as [|n before IH]; intros s pos m Hs.
  - destruct s as [|c [|d s]]; cbn [app run]; [reflexivity | now destruct (p c) |].
    cbn [noPair] in Hs. apply andb_true_iff in Hs as [Hcd _]. apply negb_true_iff in Hcd.
    destruct (p c); [|reflexivity]. cbn [andb] in Hcd. now rewrite Hcd.
  - destruct n as [r | [|] r | k | k]; cbn [app run].
    + destruct s as [|c s]; [reflexivity|].
      destruct (r c); [apply IH; eapply Htail; exact Hs | reflexivity].
    + revert pos m. induction s as [|c s IHs]; intros pos m.
      * now apply IH.
      * destruct (r c); [rewrite (IHs (Htail _ _ Hs))|]; now apply IH.
    + revert pos m. induction s as [|c s IHs]; intros pos m.
      * now rewrite IH.
      * rewrite IH by exact Hs. destruct (r c); [apply IHs; eapply Htail; exact Hs | reflexivity].
    + now apply IH.
    + now apply IH.
Qed.

Lemma noPair_by (s : string) :
  includes (toLowerCase s) "by" = false ->
  noPair (litNoCase "b") (litNoCase "y") s = true.
Proof.
  induction s as [|c s IH]; [reflexivity|]. intros H.
  cbn [toLowerCase includes] in H. apply orb_false_iff in H as [Hhere Hrest].
  destruct s as [|d s]; [reflexivity|].
  change (noPair (litNoCase "b") (litNoCase "y") (String c (String d s)))
    with (negb (litNoCase "b" c && litNoCase "y" d)
          && noPair (litNoCase "b") (litNoCase "y") (String d s)).
  rewrite (IH Hrest), andb_true_r.
  cbn [toLowerCase startsWith] in Hhere. rewrite andb_true_r in Hhere.
  apply negb_true_iff. exact Hhere.
Qed.

(** A file name with no hyphen and, in any letter case, no "by" gives no
    author. *)
Theorem extractAuthor_without_separator (filename : string) :
  noneOf (lit "-") filename = true ->
  includes (toLowerCase filename) "by" = false ->
  extractAuthorFromFilename filename = None.
Proof.
  intros Hhyphen Hby. apply extractAuthor_no_match.
  - now apply hyphenPattern_needs_hyphen.
  - unfold matchAnchored.
    exact (run_needs_pair (litNoCase "b") (litNoCase "y")
             [Open 1; One dot; Many false dot; Close 1; Many true is_space]
             [Many true is_space; Open 2; One dot; Many true dot; Close 2]
             filename 0%nat noMarks (noPair_by filename Hby)).
Qed.

Lemma extractAuthor_without_separator_witness :
  extractAuthorFromFilename "Brave New World (Aldous Huxley).epub" = None.
Proof.
  exact (extractAuthor_without_separator "Brave New World (Aldous Huxley).epub" eq_refl eq_refl).
Defined.

(** *** What the patterns capture *)

Local Open Scope nat_scope.

Lemma length_trimStart (u : string) : String.length (trimStart u) <= String.length u.
Proof.
  induction u as [|c u IH]; [reflexivity|]. cbn [trimStart].
  destruct (is_space c); cbn [String.length]; lia.
Qed.

(** [(.+)$] from its second character on: the rest of the text, when it
    has no line terminator. *)
Lemma run_rest_of_line (x : string) :
  forall pos m,
    noneOf is_line_terminator x = true ->
    run [Many true dot; Close 2] x pos m = Some (markClose 2 (pos + String.length x) m).
Proof.
  cbn [run]. induction x as [|c x IH]; intros pos m Hx.
  - cbn [String.length]. now rewrite Nat.add_0_r.
  - cbn [noneOf] in Hx. apply andb_true_iff in Hx as [Hc Hx].
    unfold dot at 1. rewrite Hc. rewrite (IH (S pos) m Hx).
    cbn [String.length]. now rewrite Nat.add_succ_r.
Qed.

(** [\s*(.+)$]: the white space is skipped and group 2 is the rest. *)
Lemma run_second_group (u : string) :
  forall pos m,
    noneOf is_line_terminator u = true -> truthy (trimStart u) = true ->
    run [Many true is_space; Open 2; One dot; Many true dot; Close 2] u pos m
    = Some (markClose 2 (pos + String.length u)
              (markOpen 2 (pos + (String.length u - String.length (trimStart u))) m)).
Proof.
  induction u as [|c u IH]; intros pos m Hu Ht; [discriminate Ht|].
  cbn [noneOf] in Hu. apply andb_true_iff in Hu as [Hc Hu].
  pose proof (length_trimStart u) as Hlen.
  change (run [Many true is_space; Open 2; One dot; Many true dot; Close 2] (String c u) pos m)
    with (if is_space c
          then match run [Many true is_space; Open 2; One dot; Many true dot; Close 2] u (S pos) m with
               | Some r => Some r
               | None => run [Open 2; One dot; Many true dot; Close 2] (String c u) pos m
               end
          else run [Open 2; One dot; Many true dot; Close 2] (String c u) pos m).
  cbn [trimStart] in Ht |- *. destruct (is_space c) eqn:Hsp.
  - rewrite (IH (S pos) m Hu Ht). cbn [String.length]. do 2 f_equal; [lia|].
    f_equal. lia.
  - change (run [Open 2; One dot; Many true dot; Close 2] (String c u) pos m)
      with (if dot c then run [Many true dot; Close 2] u (S pos) (markOpen 2 pos m) else None).
    unfold dot at 1. rewrite Hc. rewrite run_rest_of_line by exact Hu.
    cbn [String.length]. do 2 f_equal; [lia|]. f_equal. lia.
Qed.

Lemma run_separator (seps : list (ascii -> bool)) (rest : list node) :
  forall s pos m,
    sepAt seps s = false -> run (map One seps ++ rest) s pos m = None.
Proof.
  induction seps as [|p seps IH]; intros s pos m H; [discriminate H|].
  cbn [map app run]. destruct s as [|c s]; [reflexivity|].
  cbn [sepAt] in H. destruct (p c); [|reflexivity]. now apply IH.
Qed.

Lemma run_separator_here (seps : list (ascii -> bool)) (rest : list node) (sep : string) :
  forall u pos m,
    sepAt seps sep = true -> String.length sep = length seps ->
    run (map One seps ++ rest) (sep +:+ u) pos m
    = run rest u (pos + String.length sep) m.
Proof.
  revert sep. induction seps as [|p seps IH]; intros sep u pos m H Hlen.
  - destruct sep; [|discriminate Hlen]. cbn. now rewrite Nat.add_0_r.
  - destruct sep as [|c sep]; [discriminate H|].
    cbn [sepAt] in H. apply andb_true_iff in H as [Hc H].
    cbn [map app run String.append]. rewrite Hc.
    rewrite IH by (try exact H; cbn in Hlen; lia).
    cbn [String.length]. now rewrite Nat.add_succ_r.
Qed.

Lemma afterFirst_step (seps : list (ascii -> bool)) (c : ascii) (s : string)
    (pos : nat) (m : marks) :
  run (afterFirst seps) (String c s) pos m
  = if is_space c
    then match run (afterFirst seps) s (S pos) m with
         | Some r => Some r
         | None => run (map One seps
                        ++ [Many true is_space; Open 2; One dot; Many true dot; Close 2])
                     (String c s) pos m
         end
    else run (map One seps
              ++ [Many true is_space; Open 2; One dot; Many true dot; Close 2])
           (String c s) pos m.
Proof. reflexivity. Qed.

(** At the separator itself the rest of the pattern matches. *)
Lemma run_afterFirst_end (seps : list (ascii -> bool)) (sep u : string) (pos : nat) (m : marks) :
  goodSeparator seps sep u ->
  run (afterFirst seps) (sep +:+ u) pos m = Some (secondGroup sep u pos m).
Proof.
  intros (Hhere & Hlen & Hnsp & Hne & Hline & Hblank).
  destruct sep as [|s1 sep'] eqn:Hsep; [discriminate Hne|].
  cbn [String.append]. rewrite afterFirst_step.
  cbn [startsWithSpace] in Hnsp. rewrite Hnsp.
  change (String s1 (sep' +:+ u)) with (String s1 sep' +:+ u).
  rewrite run_separator_here by assumption.
  now rewrite run_second_group by assumption.
Qed.

(** From the end of group 1 on: either no match, or the separator is the
    one that follows [a]. *)
Lemma run_afterFirst (seps : list (ascii -> bool)) (sep u a : string) :
  goodSeparator seps sep u ->
  forall pos m,
    clearBefore seps a (sep +:+ u) = true ->
    run (afterFirst seps) (a +:+ sep +:+ u) pos m = None
    \/ run (afterFirst seps) (a +:+ sep +:+ u) pos m
       = Some (secondGroup sep u (pos + String.length a) m).
Proof.
  intros Hgood. induction a as [|c a IH]; intros pos m Hclear.
  - right. cbn [String.append String.length]. rewrite Nat.add_0_r.
    now apply run_afterFirst_end.
  - cbn [clearBefore] in Hclear. apply andb_true_iff in Hclear as [Hhere Hclear].
    apply negb_true_iff in Hhere.
    cbn [String.append String.length]. rewrite afterFirst_step.
    cbn [String.append] in Hhere.
    rewrite (run_separator seps _ _ pos m Hhere).
    destruct (is_space c); [|now left].
    destruct (IH (S pos) m Hclear) as [-> | ->]; [now left | right].
    do 2 f_equal. lia.
Qed.

Lemma lazy_step (seps : list (ascii -> bool)) (c : ascii) (s : string) (pos : nat) (m : marks) :
  run (Many false dot :: Close 1 :: afterFirst seps) (String c s) pos m
  = match run (afterFirst seps) (String c s) pos (markClose 1 pos m) with
    | Some r => Some r
    | None => if dot c
              then run (Many false dot :: Close 1 :: afterFirst seps) s (S pos) m
              else None
    end.
Proof. reflexivity. Qed.

(** The lazy group 1 stops somewhere in [a]; wherever it stops, group 2 is
    what follows the separator after [a]. *)
Lemma run_lazy (seps : list (ascii -> bool)) (sep u a : string) :
  goodSeparator seps sep u ->
  forall pos m,
    clearBefore seps a (sep +:+ u) = true ->
    noneOf is_line_terminator a = true ->
    exists q,
      run (Many false dot :: Close 1 :: afterFirst seps) (a +:+ sep +:+ u) pos m
      = Some (secondGroup sep u (pos + String.length a) (markClose 1 q m)).
Proof.
  intros Hgood. induction a as [|c a IH]; intros pos m Hclear Hline.
  - exists pos. cbn [String.append String.length]. rewrite Nat.add_0_r.
    pose proof (run_afterFirst_end seps sep u pos (markClose 1 pos m) Hgood) as Hend.
    destruct Hgood as (_ & _ & _ & Hne & _).
    destruct sep as [|s1 sep']; [discriminate Hne|].
    cbn [String.append] in *. rewrite lazy_step. now rewrite Hend.
  - cbn [String.append]. rewrite lazy_step.
    change (String c (a +:+ sep +:+ u)) with (String c a +:+ sep +:+ u).
    destruct (run_afterFirst seps sep u (String c a) Hgood pos (markClose 1 pos m) Hclear)
      as [-> | ->].
    + cbn [noneOf] in Hline. apply andb_true_iff in Hline as [Hc Hline].
      change (dot c) with (negb (is_line_terminator c)). rewrite Hc.
      cbn [clearBefore] in Hclear. apply andb_true_iff in Hclear as [_ Hclear].
      destruct (IH (S pos) m Hclear Hline) as [q ->]. exists q.
      cbn [String.length]. do 2 f_equal. lia.
    + now exists pos.
Qed.

(** A text [a], the separator, and a text [u]: the pattern matches, and
    group 2 is [u] from its first character that is not white space. *)
Lemma run_separated (seps : list (ascii -> bool)) (sep u a : string) :
  goodSeparator seps sep u ->
  truthy a = true ->
  clearBefore seps a (sep +:+ u) = true ->
  noneOf is_line_terminator a = true ->
  exists q,
    matchAnchored (separated seps) (a +:+ sep +:+ u)
    = Some (secondGroup sep u (String.length a) (markClose 1 q (markOpen 1 0 noMarks))).
Proof.
  intros Hgood Ha Hclear Hline. destruct a as [|c a]; [discriminate Ha|].
  cbn [noneOf] in Hline. apply andb_true_iff in Hline as [Hc Hline].
  cbn [clearBefore] in Hclear. apply andb_true_iff in Hclear as [_ Hclear].
  destruct (run_lazy seps sep u a Hgood 1 (markOpen 1 0 noMarks) Hclear Hline) as [q Hq].
  exists q. unfold matchAnchored, separated.
  change (run ([Open 1; One dot; Many false dot; Close 1; Many true is_space]
               ++ map One seps
               ++ [Many true is_space; Open 2; One dot; Many true dot; Close 2])
            (String c a +:+ sep +:+ u) 0 noMarks)
    with (if dot c
          then run (Many false dot :: Close 1 :: afterFirst seps) (a +:+ sep +:+ u) 1
                 (markOpen 1 0 noMarks)
          else None).
  unfold dot at 1. rewrite Hc. exact Hq.
Qed.

Lemma substring_skip (pre s : string) (k n : nat) :
  String.substring (String.length pre + k) n (pre +:+ s) = String.substring k n s.
Proof. induction pre as [|c pre IH]; [reflexivity | exact IH]. Qed.

Lemma substring_whole (s : string) : String.substring 0 (String.length s) s = s.
Proof. induction s as [|c s IH]; [reflexivity|]. cbn. now rewrite IH. Qed.

Lemma substring_trimStart (s : string) :
  String.substring (String.length s - String.length (trimStart s))
    (String.length (trimStart s)) s
  = trimStart s.
Proof.
  induction s as [|c s IH]; [reflexivity|]. cbn [trimStart].
  pose proof (length_trimStart s) as Hlen.
  destruct (is_space c).
  - cbn [String.length].
    replace (S (String.length s) - String.length (trimStart s))
      with (S (String.length s - String.length (trimStart s))) by lia.
    exact IH.
  - rewrite Nat.sub_diag. apply substring_whole.
Qed.

(** The value returned for such a match is the trimmed text after the
    separator. *)
Lemma result_separated (sep u a : string) (q : nat) :
  truthy (trim u) = true ->
  let m := secondGroup sep u (String.length a) (markClose 1 q (markOpen 1 0 noMarks)) in
  orElse (trim <$> group (a +:+ sep +:+ u) m 2) (trim <$> group (a +:+ sep +:+ u) m 1)
  = Some (trim u).
Proof.
  intros Hu m.
  assert (Hg : group (a +:+ sep +:+ u) m 2 = Some (trimStart u)).
  { unfold group, m, secondGroup. cbn [opened closed markOpen markClose findMark Nat.eqb].
    f_equal. pose proof (length_trimStart u) as Hlen.
    replace (String.length a + String.length sep + String.length u
             - (String.length a + String.length sep
                + (String.length u - String.length (trimStart u))))
      with (String.length (trimStart u)) by lia.
    rewrite <- append_assoc.
    replace (String.length a + String.length sep) with (String.length (a +:+ sep)).
    - rewrite substring_skip. apply substring_trimStart.
    - clear. induction a as [|c a IH]; [reflexivity|]. cbn. now rewrite IH. }
  rewrite Hg. cbn [fmap option_fmap option_map orElse].
  assert (Htrim : trim (trimStart u) = trim u).
  { unfold trim. now rewrite (trimStart_fixed (trimStart u)) by apply trimStart_no_space. }
  rewrite Htrim, Hu. reflexivity.
Qed.

Local Close Scope nat_scope.

Lemma clearBefore_no_hyphen (a rest : string) :
  noneOf (lit "-") a = true -> clearBefore [lit "-"] a rest = true.
Proof.
  induction a as [|c a IH]; intros H; [reflexivity|].
  cbn [noneOf] in H. apply andb_true_iff in H as [Hc H].
  cbn [clearBefore String.append sepAt]. rewrite andb_true_r, Hc. now apply IH.
Qed.

(** For a name of the form "left-right" whose left part has no hyphen, the
    value returned is the right part, trimmed: the text after the first
    hyphen, whatever stands in the left part. *)
Theorem extractAuthor_after_hyphen (left right : string) :
  truthy left = true ->
  noneOf (lit "-") left = true ->
  noneOf is_line_terminator left = true ->
  noneOf is_line_terminator right = true ->
  truthy (trim right) = true ->
  extractAuthorFromFilename (left +:+ "-" +:+ right) = Some (trim right).
Proof.
  intros Hleft Hhyphen Hl Hr Htrim.
  assert (Hstart : truthy (trimStart right) = true).
  { unfold trim in Htrim. destruct (trimStart right); [discriminate Htrim | reflexivity]. }
  assert (Hgood : goodSeparator [lit "-"] "-" right) by (repeat split; assumption).
  destruct (run_separated [lit "-"] "-" right left Hgood Hleft
              (clearBefore_no_hyphen left _ Hhyphen) Hl) as [q Hq].
  unfold extractAuthorFromFilename, patterns. cbn [firstMatch].
  change hyphenPattern with (separated [lit "-"]). rewrite Hq.
  now apply (result_separated "-" right left q).
Qed.

Lemma extractAuthor_after_hyphen_witness :
  extractAuthorFromFilename "J. R. R. Tolkien - The Hobbit - illustrated.epub"
  = Some "The Hobbit - illustrated.epub".
Proof.
  exact (extractAuthor_after_hyphen "J. R. R. Tolkien " " The Hobbit - illustrated.epub"
           eq_refl eq_refl eq_refl eq_refl eq_refl).
Defined.

Lemma clearBefore_no_by (a sep rest : string) :
  includes (toLowerCase a) "by" = false ->
  toLowerCase sep = "by" ->
  clearBefore [litNoCase "b"; litNoCase "y"] a (sep +:+ rest) = true.
Proof.
  intros Ha Hsep.
  destruct sep as [|s1 sep]; [discriminate Hsep|]. cbn [toLowerCase] in Hsep.
  injection Hsep as Hs1 _.
  induction a as [|c a IH]; [reflexivity|].
  cbn [toLowerCase includes] in Ha. apply orb_false_iff in Ha as [Hhere Ha].
  cbn [clearBefore]. rewrite (IH Ha), andb_true_r. apply negb_true_iff.
  destruct a as [|d a].
  - cbn [String.append sepAt]. rewrite andb_true_r.
    unfold litNoCase at 2. rewrite Hs1. now rewrite andb_false_r.
  - cbn [String.append sepAt]. rewrite andb_true_r.
    cbn [toLowerCase startsWith] in Hhere. rewrite andb_true_r in Hhere. exact Hhere.
Qed.

(** For a name of the form "left by right" (the separator in any letter
    case) with no hyphen anywhere and no "by" in the left part, the value
    returned is the right part, trimmed, extension included. *)
Theorem extractAuthor_after_by (left sep right : string) :
  toLowerCase sep = "by" ->
  truthy left = true ->
  noneOf (lit "-") (left +:+ sep +:+ right) = true ->
  includes (toLowerCase left) "by" = false ->
  noneOf is_line_terminator left = true ->
  noneOf is_line_terminator right = true ->
  truthy (trim right) = true ->
  extractAuthorFromFilename (left +:+ sep +:+ right) = Some (trim right).
Proof.
  intros Hsep Hleft Hhyphen Hby Hl Hr Htrim.
  assert (Hstart : truthy (trimStart right) = true).
  { unfold trim in Htrim. destruct (trimStart right); [discriminate Htrim | reflexivity]. }
  assert (Hsep' : sepAt [litNoCase "b"; litNoCase "y"] sep = true
                  /\ String.length sep = 2%nat /\ startsWithSpace sep = false
                  /\ truthy sep = true).
  { destruct sep as [|s1 [|s2 [|s3 sep]]]; try discriminate Hsep.
    cbn [toLowerCase] in Hsep. injection Hsep as H1 H2.
    cbn [sepAt]. unfold litNoCase. rewrite H1, H2. repeat split.
    cbn [startsWithSpace]. clear -H1.
    destruct s1 as [[] [] [] [] [] [] [] []]; try reflexivity; discriminate H1. }
  destruct Hsep' as (Hat & Hlen & Hnsp & Hne).
  assert (Hgood : goodSeparator [litNoCase "b"; litNoCase "y"] sep right)
    by (repeat split; assumption).
  destruct (run_separated [litNoCase "b"; litNoCase "y"] sep right left Hgood Hleft
              (clearBefore_no_by left sep right Hby Hsep) Hl) as [q Hq].
  unfold extractAuthorFromFilename, patterns. cbn [firstMatch].
  rewrite (hyphenPattern_needs_hyphen _ Hhyphen).
  change byPattern with (separated [litNoCase "b"; litNoCase "y"]). rewrite Hq.
  now apply (result_separated sep right left q).
Qed.

Lemma extractAuthor_after_by_witness :
  extractAuthorFromFilename "Hobbits and Rabbits BY J. R. R. Tolkien.pdf"
  = Some "J. R. R. Tolkien.pdf".
Proof.
  exact (extractAuthor_after_by "Hobbits and Rabbits " "BY" " J. R. R. Tolkien.pdf"
           eq_refl eq_refl eq_refl eq_refl eq_refl eq_refl eq_refl).
Defined.

End AuthorFacts.

(** ** The AI service beyond the gate *)

Module AIGateFacts.
Import JsString DatabaseService AIService.

(** The three parts of the outcome for a call that failed. *)
Ltac failed_call :=
  split; [cbn; lia |
  split; [discriminate | intros _; split; [reflexivity | eexists; reflexivity]]].

(** One call sends at most one request. It succeeds only with the
    entitlement and a key, after exactly one request, and then carries an
    answer and no error; every failure carries an error message and no
    content. *)
Theorem askQuestion_outcome
    (apiKey : string) (fetch : FetchRequest -> FetchOutcome)
    (question bookContent bookTitle : string) (page : option Z)
    (this : DatabaseService.t) :
  let response := fst (askQuestion apiKey fetch question bookContent bookTitle page this) in
  let sent := snd (askQuestion apiKey fetch question bookContent bookTitle page this) in
  (length sent <= 1)%nat
  /\ (success response = true ->
        truthy (content response) = true /\ error response = None
        /\ sent = [buildRequest apiKey question bookContent bookTitle page]
        /\ truthy apiKey = true
        /\ exists subscription,
             SubscriptionService.getCurrentSubscription this = Ok (Some subscription)
             /\ UserSubscription.hasAI subscription = true)
  /\ (success response = false ->
        content response = EmptyString /\ exists message, error response = Some message).
Proof.
  cbv zeta. unfold askQuestion, attempt.
  destruct (SubscriptionService.getCurrentSubscription this) as [[subscription|]|e]; cbn;
    try failed_call.
  destruct (UserSubscription.hasAI subscription) eqn:HAI; cbn; [|failed_call].
  destruct (truthy apiKey) eqn:Hkey; cbn; [|failed_call].
  destruct (fetch (buildRequest apiKey question bookContent bookTitle page))
    as [e | [|] statusText [e | [text|]]]; cbn; try failed_call.
  - split; [lia|]. split; [|discriminate]. intros _.
    split; [now destruct (truthy text) eqn:Htext|]. repeat split. now exists subscription.
  - split; [lia|]. split; [|discriminate]. intros _. repeat split. now exists subscription.
Qed.

(** With the entitlement but no API key, the call fails as not configured
    and nothing is sent. *)
Theorem askQuestion_without_key
    (fetch : FetchRequest -> FetchOutcome)
    (question bookContent bookTitle : string) (page : option Z)
    (this : DatabaseService.t) (subscription : UserSubscription.t) :
  SubscriptionService.getCurrentSubscription this = Ok (Some subscription) ->
  UserSubscription.hasAI subscription = true ->
  askQuestion EmptyString fetch question bookContent bookTitle page this
  = (mkResponse false EmptyString (Some notConfigured), []).
Proof.
  intros Hsub HAI. unfold askQuestion, attempt. rewrite Hsub. cbn. now rewrite HAI.
Qed.

Lemma askQuestion_without_key_witness :
  askQuestion EmptyString Examples.answering "Who is Ahab?" "Call me Ishmael."
    "Moby Dick" (Some 1) Examples.service2
  = (mkResponse false EmptyString (Some notConfigured), []).
Proof.
  assert (H : exists subscription,
             SubscriptionService.getCurrentSubscription Examples.service2
             = Ok (Some subscription)
             /\ UserSubscription.hasAI subscription = true)
    by (eexists; split; [vm_compute; reflexivity | reflexivity]).
  destruct H as (subscription & Hsub & HAI).
  exact (askQuestion_without_key Examples.answering "Who is Ahab?" "Call me Ishmael."
           "Moby Dick" (Some 1) Examples.service2 subscription Hsub HAI).
Defined.

Lemma substring_prefix_fixed (n : nat) (s : string) :
  String.substring 0 n (String.substring 0 n s) = String.substring 0 n s.
Proof.
  revert s. induction n as [|n IH]; intros [|c s]; try reflexivity.
  cbn. now rewrite IH.
Qed.

Lemma substring_prefix_length (n : nat) (s : string) :
  (String.length (String.substring 0 n s) <= n)%nat.
Proof.
  revert s. induction n as [|n IH]; intros [|c s]; cbn; try lia.
  specialize (IH s). lia.
Qed.

(** Only the first 2000 code units of the book content reach the request:
    the content beyond them changes neither what is sent nor what comes
    back. *)
Theorem askQuestion_truncates
    (apiKey : string) (fetch : FetchRequest -> FetchOutcome)
    (question bookContent bookTitle : string) (page : option Z)
    (this : DatabaseService.t) :
  askQuestion apiKey fetch question bookContent bookTitle page this
  = askQuestion apiKey fetch question (String.substring 0 2000 bookContent) bookTitle page this
  /\ (String.length (String.substring 0 2000 bookContent) <= 2000)%nat.
Proof.
  split; [|apply substring_prefix_length].
  unfold askQuestion, attempt, buildRequest. now rewrite substring_prefix_fixed.
Qed.

(** [summarizePage] and [explainConcept] go through the same gate: without
    the entitlement they fail as [askQuestion] does and send nothing. *)
Theorem helpers_require_subscription
    (apiKey : string) (fetch : FetchRequest -> FetchOutcome)
    (text bookTitle concept : string) (page : Z)
    (this : DatabaseService.t) (subscription : UserSubscription.t) :
  SubscriptionService.getCurrentSubscription this = Ok (Some subscription) ->
  UserSubscription.hasAI subscription = false ->
  summarizePage apiKey fetch text bookTitle page this
  = (mkResponse false EmptyString (Some subscriptionRequired), [])
  /\ explainConcept apiKey fetch concept text bookTitle this
     = (mkResponse false EmptyString (Some subscriptionRequired), []).
Proof.
  intros Hsub HAI. unfold summarizePage, explainConcept, askQuestion, attempt.
  rewrite Hsub. cbn. now rewrite HAI.
Qed.

Lemma helpers_require_subscription_witness :
  summarizePage "sk-or-v1-key" Examples.answering "Call me Ishmael." "Moby Dick" 0
    Examples.service0
  = (mkResponse false EmptyString (Some subscriptionRequired), []).
Proof.
  assert (Hsub : exists subscription,
            SubscriptionService.getCurrentSubscription Examples.service0 = Ok (Some subscription)
            /\ UserSubscription.hasAI subscription = false).
  { eexists. split; [vm_compute; reflexivity | reflexivity]. }
  destruct Hsub as (subscription & Hsub & HAI).
  exact (proj1 (helpers_require_subscription "sk-or-v1-key" Examples.answering
                  "Call me Ishmael." "Moby Dick" "whiteness" 0 Examples.service0
                  subscription Hsub HAI)).
Defined.

End AIGateFacts.

(** ** Subscriptions: [SubscriptionService] over the store *)

Module SubscriptionFacts.
Import JsString DatabaseService SubscriptionService.
Import JSONFacts DatabaseServiceFacts.

(** What [updateSubscription] does to a store whose subscription can be
    read: the row is rewritten in place, the other tables are untouched. *)
Lemma updateSubscription_stored (p : PartialSubscription.t) (this : DatabaseService.t)
    (cur : UserSubscription.t) :
  getUserSubscription this = Ok (Some cur) ->
  exists s this',
    db this = Some s
    /\ updateSubscription p this = Ok this'
    /\ db this'
       = Some (withUserSubscription
                 (alter (writeSubscription (merge cur p)) "1" (userSubscription s)) s)
    /\ getUserSubscription this'
       = Ok (Some (UserSubscription.mk
                     (UserSubscription.id cur)
                     (UserSubscription.tier (merge cur p))
                     (UserSubscription.price (merge cur p))
                     (UserSubscription.features (merge cur p))
                     (UserSubscription.booksPerMonth (merge cur p))
                     (UserSubscription.hasAI (merge cur p))
                     (UserSubscription.hasNaturalTTS (merge cur p))
                     (UserSubscription.expiresAt (merge cur p))
                     (UserSubscription.createdAt cur))).
Proof.
  intros Hget.
  destruct (getUserSubscription_Some _ _ Hget) as (s & r & features & Hdb & Hr & Hf & Hcur).
  unfold updateSubscription, requireDb. rewrite Hdb, Hget. cbn -[merge].
  exists s. eexists. split; [reflexivity|]. split; [reflexivity|]. split; [reflexivity|].
  unfold getUserSubscription, requireDb. cbn -[JSON.stringify merge].
  rewrite lookup_alter_eq, Hr. cbn -[JSON.stringify merge].
  rewrite jsonParse_stringify. cbn -[merge]. rewrite !Boolean_bit.
  subst cur. reflexivity.
Qed.

Lemma getTierByName_Some (tierName : string) (tier : SubscriptionTier.t) :
  getTierByName tierName = Some tier ->
  SubscriptionTier.id tier = tierName /\ In tier tiers.
Proof.
  intros H. apply List.find_some in H as [Hin Heq].
  apply String.eqb_eq in Heq. now split.
Qed.

(** An upgrade can be read back: with a known tier, a date in range and a
    readable subscription, [upgradeSubscription] reports success, and the
    subscription read afterwards has the tier's id, price, features,
    allowance and entitlements and expires at the date thirty days from
    now; its id and creation time are those it had, and every book reads
    as before. *)
Theorem upgradeSubscription_read_back
    (toISOString : Z -> Result string) (now : Z) (tierId : string)
    (tier : SubscriptionTier.t) (expiresAt : string)
    (this : DatabaseService.t) (cur : UserSubscription.t) :
  getTierByName tierId = Some tier ->
  toISOString (now + 2592000000) = Ok expiresAt ->
  getCurrentSubscription this = Ok (Some cur) ->
  exists this',
    upgradeSubscription toISOString now tierId this = (true, this')
    /\ getCurrentSubscription this'
       = Ok (Some (UserSubscription.mk
                     (UserSubscription.id cur) tierId (SubscriptionTier.price tier)
                     (SubscriptionTier.features tier) (SubscriptionTier.booksPerMonth tier)
                     (SubscriptionTier.hasAI tier) (SubscriptionTier.hasNaturalTTS tier)
                     (Some expiresAt) (UserSubscription.createdAt cur)))
    /\ forall id, getBookById id this' = getBookById id this.
Proof.
  intros Htier Hdate Hcur.
  destruct (getTierByName_Some _ _ Htier) as [Hid _].
  destruct (updateSubscription_stored (upgradeTo tier expiresAt) _ _ Hcur)
    as (s & this' & Hdb & Hup & Hdb' & Hback).
  exists this'. unfold upgradeSubscription.
  change (List.find _ tiers) with (getTierByName tierId). rewrite Htier.
  change (now + thirtyDays) with (now + 2592000000). rewrite Hdate, Hup.
  split; [reflexivity|]. split.
  - unfold getCurrentSubscription. rewrite Hback. cbn. now rewrite Hid.
  - intros id. unfold getBookById, requireDb. now rewrite Hdb, Hdb'.
Qed.

Lemma upgradeSubscription_read_back_witness :
  exists this' after,
    upgradeSubscription Examples.endOfMay 1714557600000 "premium" Examples.service1
    = (true, this')
    /\ getCurrentSubscription this' = Ok (Some after)
    /\ UserSubscription.tier after = "premium"
    /\ UserSubscription.booksPerMonth after = 2
    /\ UserSubscription.expiresAt after = Some "2024-05-31T10:00:00.000Z"
    /\ UserSubscription.createdAt after = Examples.clock.
Proof.
  assert (Hcur : exists cur, getCurrentSubscription Examples.service1 = Ok (Some cur)
                             /\ UserSubscription.createdAt cur = Examples.clock)
    by (eexists; split; [vm_compute; reflexivity | reflexivity]).
  destruct Hcur as (cur & Hcur & Hcreated).
  assert (Htier : exists tier, getTierByName "premium" = Some tier
                               /\ SubscriptionTier.booksPerMonth tier = 2)
    by (eexists; split; reflexivity).
  destruct Htier as (tier & Htier & Hbooks).
  destruct (upgradeSubscription_read_back Examples.endOfMay 1714557600000 "premium" tier
              "2024-05-31T10:00:00.000Z" Examples.service1 cur Htier eq_refl Hcur)
    as (this' & Hup & Hback & _).
  exists this'. eexists. split; [exact Hup|]. split; [exact Hback|].
  cbn. now rewrite Hbooks, Hcreated.
Defined.

(** A cancellation can be read back: with a readable subscription,
    [cancelSubscription] reports success and the subscription read
    afterwards is the free tier, without AI, natural voice or allowance,
    with the feature list of the tier table and no expiry date; its id and
    creation time are those it had. *)
Theorem cancelSubscription_read_back (this : DatabaseService.t) (cur : UserSubscription.t) :
  getCurrentSubscription this = Ok (Some cur) ->
  exists this',
    cancelSubscription this = (true, this')
    /\ getCurrentSubscription this'
       = Ok (Some (UserSubscription.mk
                     (UserSubscription.id cur) "free" 0
                     ["Basic reading"; "Notes"; "Basic TTS (robotic)"; "Local files only"]
                     0 false false None (UserSubscription.createdAt cur)))
    /\ forall id, getBookById id this' = getBookById id this.
Proof.
  intros Hcur.
  destruct (updateSubscription_stored freeSubscription _ _ Hcur)
    as (s & this' & Hdb & Hup & Hdb' & Hback).
  exists this'. unfold cancelSubscription. rewrite Hup.
  split; [reflexivity|]. split.
  - unfold getCurrentSubscription. now rewrite Hback.
  - intros id. unfold getBookById, requireDb. now rewrite Hdb, Hdb'.
Qed.

Lemma cancelSubscription_read_back_witness :
  exists this' after,
    cancelSubscription Examples.service2 = (true, this')
    /\ getCurrentSubscription this' = Ok (Some after)
    /\ UserSubscription.tier after = "free"
    /\ UserSubscription.hasAI after = false
    /\ UserSubscription.expiresAt after = None.
Proof.
  assert (Hcur : exists cur, getCurrentSubscription Examples.service2 = Ok (Some cur))
    by (eexists; vm_compute; reflexivity).
  destruct Hcur as (cur & Hcur).
  destruct (cancelSubscription_read_back Examples.service2 cur Hcur)
    as (this' & Hcancel & Hback & _).
  exists this'. eexists. split; [exact Hcancel|]. split; [exact Hback|].
  repeat split.
Defined.

(** [upgradeSubscription] reports success exactly when the tier is in the
    table, the expiry date can be formatted and the store answers the
    read of the subscription; when it answers that there is none, success
    is reported and nothing is stored. A failure leaves the store as it
    was. *)
Theorem upgradeSubscription_reports
    (toISOString : Z -> Result string) (now : Z) (tierId : string)
    (this : DatabaseService.t) :
  (fst (upgradeSubscription toISOString now tierId this) = true
   <-> (exists tier, getTierByName tierId = Some tier)
       /\ (exists expiresAt, toISOString (now + 2592000000) = Ok expiresAt)
       /\ (exists current, getCurrentSubscription this = Ok current))
  /\ (getCurrentSubscription this = Ok None ->
      snd (upgradeSubscription toISOString now tierId this) = this)
  /\ (fst (upgradeSubscription toISOString now tierId this) = false ->
      snd (upgradeSubscription toISOString now tierId this) = this).
Proof.
  unfold upgradeSubscription, getCurrentSubscription.
  change (List.find _ tiers) with (getTierByName tierId).
  change (now + thirtyDays) with (now + 2592000000).
  destruct (getTierByName tierId) as [tier|].
  2:{ cbn. split; [|now split]. split; [discriminate|]. now intros [[? ?] _]. }
  destruct (toISOString (now + 2592000000)) as [expiresAt|e].
  2:{ cbn. split; [|now split]. split; [discriminate|]. now intros (_ & [? ?] & _). }
  destruct (getUserSubscription this) as [[cur|]|e] eqn:Hget.
  - destruct (updateSubscription_stored (upgradeTo tier expiresAt) _ _ Hget)
      as (s & this' & _ & Hup & _). rewrite Hup. cbn.
    split; [|split; discriminate]. split; [|reflexivity]. intros _.
    split; [now exists tier|]. split; [now exists expiresAt | now exists (Some cur)].
  - rewrite (updateSubscription_absent _ _ Hget). cbn.
    split; [|split; [reflexivity|discriminate]]. split; [|reflexivity]. intros _.
    split; [now exists tier|]. split; [now exists expiresAt | now exists None].
  - assert (Hup : updateSubscription (upgradeTo tier expiresAt) this = Throw e).
    { destruct this as [[s|]].
      - unfold updateSubscription, requireDb. now rewrite Hget.
      - injection Hget as <-. reflexivity. }
    rewrite Hup. cbn. split; [|now split]. split; [discriminate|].
    now intros (_ & _ & [? ?]).
Qed.

End SubscriptionFacts.

(** ** Entitlements: what the subscription opens and closes *)

Module EntitlementFacts.
Import JsString DatabaseService SubscriptionService AIService TTSService.
Import DatabaseServiceFacts SubscriptionFacts.

Lemma tiers_paid (tier : SubscriptionTier.t) :
  In tier tiers -> SubscriptionTier.id tier <> "free" ->
  SubscriptionTier.hasAI tier = true /\ SubscriptionTier.hasNaturalTTS tier = true.
Proof.
  intros Hin Hfree. unfold tiers in Hin. cbn [In] in Hin.
  destruct Hin as [<-|[<-|[<-|[<-|[]]]]]; first [now split | now destruct Hfree].
Qed.

(** After a successful upgrade the stored entitlements are those that
    [canAccessFeature] gives for the tier: the subscription read back has
    that tier, its [hasAI] and [hasNaturalTTS] are the answers for [ai]
    and [naturalTTS], and its monthly allowance is positive exactly when
    [freeBooks] is granted. *)
Theorem stored_entitlements_follow_tier
    (toISOString : Z -> Result string) (now : Z) (tierId : string)
    (this this' : DatabaseService.t) (subscription : UserSubscription.t) :
  upgradeSubscription toISOString now tierId this = (true, this') ->
  getCurrentSubscription this' = Ok (Some subscription) ->
  UserSubscription.tier subscription = tierId
  /\ UserSubscription.hasAI subscription = canAccessFeature tierId "ai"
  /\ UserSubscription.hasNaturalTTS subscription = canAccessFeature tierId "naturalTTS"
  /\ (0 <? UserSubscription.booksPerMonth subscription) = canAccessFeature tierId "freeBooks".
Proof.
  unfold upgradeSubscription, canAccessFeature.
  change (List.find _ tiers) with (getTierByName tierId).
  destruct (getTierByName tierId) as [tier|] eqn:Htier; [|discriminate].
  destruct (toISOString (now + thirtyDays)) as [expiresAt|e]; [|discriminate].
  destruct (getTierByName_Some _ _ Htier) as [Hid _].
  destruct (getUserSubscription this) as [[cur|]|e] eqn:Hget.
  - destruct (updateSubscription_stored (upgradeTo tier expiresAt) _ _ Hget)
      as (s & this1 & _ & Hup & _ & Hback).
    rewrite Hup. intros H. injection H as <-.
    unfold getCurrentSubscription. rewrite Hback. intros H. injection H as <-.
    cbn. now rewrite Hid.
  - rewrite (updateSubscription_absent _ _ Hget). intros H. injection H as <-.
    unfold getCurrentSubscription. rewrite Hget. discriminate.
  - destruct this as [[s|]].
    + unfold updateSubscription, requireDb. rewrite Hget. discriminate.
    + discriminate.
Qed.

Lemma stored_entitlements_follow_tier_witness :
  exists this' subscription,
    upgradeSubscription Examples.endOfMay 1714557600000 "basic" Examples.service0
    = (true, this')
    /\ getCurrentSubscription this' = Ok (Some subscription)
    /\ UserSubscription.hasAI subscription = canAccessFeature "basic" "ai"
    /\ (0 <? UserSubscription.booksPerMonth subscription) = true.
Proof.
  assert (H : exists this' subscription,
             upgradeSubscription Examples.endOfMay 1714557600000 "basic" Examples.service0
             = (true, this')
             /\ getCurrentSubscription this' = Ok (Some subscription))
    by (eexists; eexists; split; vm_compute; reflexivity).
  destruct H as (this' & subscription & Hup & Hback).
  destruct (stored_entitlements_follow_tier _ _ _ _ _ _ Hup Hback) as (_ & HAI & _ & Hbooks).
  exists this', subscription. now repeat split.
Defined.

(** After a cancellation that reports success both gates are closed:
    [askQuestion] fails with the subscription-required message and sends
    nothing, and [speak] with the natural voice throws without a call
    into the speech module. *)
Theorem cancelSubscription_closes_gates
    (apiKey : string) (fetch : FetchRequest -> FetchOutcome)
    (question bookContent bookTitle : string) (page : option Z)
    (web : bool) (voices : list Voice) (text : string) (isSpeaking : bool)
    (this this' : DatabaseService.t) :
  cancelSubscription this = (true, this') ->
  askQuestion apiKey fetch question bookContent bookTitle page this'
  = (failure subscriptionRequired, [])
  /\ speak web voices text true this' isSpeaking = (Throw naturalRequired, false, []).
Proof.
  unfold cancelSubscription.
  destruct (getUserSubscription this) as [[cur|]|e] eqn:Hget.
  - destruct (updateSubscription_stored freeSubscription _ _ Hget)
      as (s & this1 & _ & Hup & _ & Hback).
    rewrite Hup. intros H. injection H as <-.
    unfold askQuestion, attempt, speak, getCurrentSubscription. now rewrite Hback.
  - rewrite (updateSubscription_absent _ _ Hget). intros H. injection H as <-.
    unfold askQuestion, attempt, speak, getCurrentSubscription. now rewrite Hget.
  - destruct this as [[s|]].
    + unfold updateSubscription, requireDb. rewrite Hget. discriminate.
    + discriminate.
Qed.

Lemma cancelSubscription_closes_gates_witness :
  exists this',
    cancelSubscription Examples.service2 = (true, this')
    /\ askQuestion "sk-test" Examples.answering "Who is Ahab?" "Call me Ishmael."
         "Moby Dick" (Some 1) this'
       = (failure subscriptionRequired, [])
    /\ speak false [] "Call me Ishmael." true this' false
       = (Throw naturalRequired, false, []).
Proof.
  assert (H : exists this', cancelSubscription Examples.service2 = (true, this'))
    by (eexists; vm_compute; reflexivity).
  destruct H as (this' & Hcancel). exists this'. split; [exact Hcancel|].
  exact (cancelSubscription_closes_gates _ _ _ _ _ _ _ _ _ _ _ _ Hcancel).
Defined.

(** After an upgrade to a paid tier both gates are open: with an API key,
    [askQuestion] hands its request to the network, and [speak] with the
    natural voice returns and ends with the call that speaks the text. *)
Theorem upgradeSubscription_opens_gates
    (toISOString : Z -> Result string) (now : Z) (tierId : string)
    (tier : SubscriptionTier.t) (expiresAt : string)
    (apiKey : string) (fetch : FetchRequest -> FetchOutcome)
    (question bookContent bookTitle : string) (page : option Z)
    (web : bool) (voices : list Voice) (text : string) (isSpeaking : bool)
    (this : DatabaseService.t) (cur : UserSubscription.t) :
  getTierByName tierId = Some tier ->
  tierId <> "free" ->
  toISOString (now + 2592000000) = Ok expiresAt ->
  getCurrentSubscription this = Ok (Some cur) ->
  truthy apiKey = true ->
  exists this' calls options,
    upgradeSubscription toISOString now tierId this = (true, this')
    /\ snd (askQuestion apiKey fetch question bookContent bookTitle page this')
       = [buildRequest apiKey question bookContent bookTitle page]
    /\ speak web voices text true this' isSpeaking
       = (Ok tt, false, calls ++ [Speak text options]).
Proof.
  intros Htier Hpaid Hdate Hcur Hkey.
  destruct (updateSubscription_stored (upgradeTo tier expiresAt) _ _ Hcur)
    as (s & this' & _ & Hstored & _ & Hback).
  assert (Hup : upgradeSubscription toISOString now tierId this = (true, this')).
  { unfold upgradeSubscription. change (List.find _ tiers) with (getTierByName tierId).
    rewrite Htier. change (now + thirtyDays) with (now + 2592000000).
    now rewrite Hdate, Hstored. }
  destruct (getTierByName_Some _ _ Htier) as [Hid Hin].
  destruct (tiers_paid tier Hin) as [HAI HTTS]; [now rewrite Hid|].
  exists this'. unfold askQuestion, attempt, speak, getCurrentSubscription.
  rewrite Hback. cbn.
  rewrite HAI, HTTS, Hkey. cbn.
  eexists. eexists. split; [exact Hup|]. split.
  - now destruct (fetch (buildRequest apiKey question bookContent bookTitle page))
      as [e|[] statusText [e|answer]].
  - rewrite app_assoc. reflexivity.
Qed.

Lemma upgradeSubscription_opens_gates_witness :
  exists this' calls options,
    upgradeSubscription Examples.endOfMay 1714557600000 "pro" Examples.service0
    = (true, this')
    /\ snd (askQuestion "sk-test" Examples.answering "Who is Ahab?" "Call me Ishmael."
              "Moby Dick" (Some 1) this')
       = [buildRequest "sk-test" "Who is Ahab?" "Call me Ishmael." "Moby Dick" (Some 1)]
    /\ speak false [] "Call me Ishmael." true this' false
       = (Ok tt, false, calls ++ [Speak "Call me Ishmael." options]).
Proof.
  assert (Hcur : exists cur, getCurrentSubscription Examples.service0 = Ok (Some cur))
    by (eexists; vm_compute; reflexivity).
  destruct Hcur as (cur & Hcur).
  assert (Htier : exists tier, getTierByName "pro" = Some tier)
    by (eexists; reflexivity).
  destruct Htier as (tier & Htier).
  apply (upgradeSubscription_opens_gates Examples.endOfMay 1714557600000 "pro" tier
           "2024-05-31T10:00:00.000Z" "sk-test" Examples.answering "Who is Ahab?"
           "Call me Ishmael." "Moby Dick" (Some 1) false [] "Call me Ishmael." false
           Examples.service0 cur Htier);
    [discriminate | reflexivity | exact Hcur | reflexivity].
Defined.

End EntitlementFacts.

(** ** Speech: [TTSService.speak] and the reader's [toggleTTS] *)

Module SpeechFacts.
Import JsString DatabaseService SubscriptionService TTSService Reader.

Lemma findNatural_Some (voices : list Voice) (v : Voice) :
  findNatural voices = Some v ->
  In v voices /\ (quality v = "Enhanced" \/ includes (name v) "Premium" = true).
Proof.
  intros H. apply List.find_some in H as [Hin Hv]. split; [exact Hin|].
  apply orb_true_iff in Hv as [Hq|Hn]; [left; now apply String.eqb_eq | now right].
Qed.

(** What [speak] can do. It leaves the flag down. It either throws
    without any call into the speech module or returns after a last call
    that speaks the given text, preceded by a stop exactly when it was
    speaking. A voice is chosen only for the natural voice, off the web,
    under a subscription with [hasNaturalTTS], and it is then a voice of
    the device whose quality is Enhanced or whose name contains Premium;
    without the natural voice the rate is 0.8 and the pitch 0.9. *)
Theorem speak_outcome (web : bool) (voices : list Voice) (text : string)
    (useNaturalVoice : bool) (this : DatabaseService.t) (isSpeaking : bool) :
  exists result calls,
    speak web voices text useNaturalVoice this isSpeaking = (result, false, calls)
    /\ ((exists e, result = Throw e) -> calls = [])
    /\ (result = Ok tt ->
        exists before options,
          calls = (if isSpeaking then [Stop] else []) ++ before ++ [Speak text options]
          /\ (forall c, In c before -> c = GetAvailableVoices)
          /\ (useNaturalVoice = false ->
              before = [] /\ voice options = None
              /\ rate options = (8 # 10)%Q /\ pitch options = (9 # 10)%Q)
          /\ (forall id, voice options = Some id ->
              useNaturalVoice = true /\ web = false
              /\ (exists subscription,
                    getCurrentSubscription this = Ok (Some subscription)
                    /\ UserSubscription.hasNaturalTTS subscription = true)
              /\ exists v, In v voices /\ identifier v = id
                           /\ (quality v = "Enhanced"
                               \/ includes (name v) "Premium" = true))).
Proof.
  unfold speak.
  destruct (getCurrentSubscription this) as [subscription|e] eqn:Hsub.
  2:{ eexists. eexists. split; [reflexivity|]. split; [reflexivity|discriminate]. }
  destruct useNaturalVoice.
  - destruct subscription as [subscription|]; cbn [from_option].
    2:{ cbn. eexists. eexists. split; [reflexivity|]. split; [reflexivity|discriminate]. }
    destruct (UserSubscription.hasNaturalTTS subscription) eqn:Hnat; cbn [andb negb].
    2:{ eexists. eexists. split; [reflexivity|]. split; [reflexivity|discriminate]. }
    eexists. eexists. split; [reflexivity|]. split; [now intros [e He]|]. intros _.
    destruct web; cbn [negb].
    + exists [], (mkOptions (9 # 10) 1 "en-US" None false).
      split; [reflexivity|]. split; [now intros c []|]. split; [discriminate|].
      intros id Hid. discriminate Hid.
    + eexists [GetAvailableVoices], _.
      split; [reflexivity|]. split; [intros c [<-|[]]; reflexivity|].
      split; [discriminate|]. cbn [voice]. intros id Hid.
      destruct (findNatural voices) as [v|] eqn:Hv; [|discriminate Hid].
      injection Hid as <-. destruct (findNatural_Some _ _ Hv) as [Hin Hq].
      repeat split. { now exists subscription. } now exists v.
  - cbn [andb]. eexists. eexists. split; [reflexivity|].
    split; [now intros [e He]|]. intros _.
    exists [], (mkOptions (8 # 10) (9 # 10) "en-US" None (negb web)).
    split; [reflexivity|]. split; [now intros c []|]. split; [now repeat split|].
    intros id Hid. discriminate Hid.
Qed.

(** The natural voice is gated: asked for under a subscription without
    [hasNaturalTTS], or without any subscription, [speak] throws the
    upgrade message, leaves the flag down and makes no call into the
    speech module, whether or not it was speaking. *)
Theorem speak_requires_subscription (web : bool) (voices : list Voice) (text : string)
    (this : DatabaseService.t) (isSpeaking : bool)
    (subscription : option UserSubscription.t) :
  getCurrentSubscription this = Ok subscription ->
  from_option UserSubscription.hasNaturalTTS false subscription = false ->
  speak web voices text true this isSpeaking = (Throw naturalRequired, false, []).
Proof.
  intros Hsub Hnat. unfold speak. rewrite Hsub. cbn. now rewrite Hnat.
Qed.

Lemma speak_requires_subscription_witness :
  speak false [mkVoice "com.apple.voice.premium.en-US.Zoe" "Zoe (Premium)" "Enhanced"]
    "Call me Ishmael." true Examples.service1 true
  = (Throw naturalRequired, false, []).
Proof.
  assert (H : exists subscription,
             getCurrentSubscription Examples.service1 = Ok subscription
             /\ from_option UserSubscription.hasNaturalTTS false subscription = false)
    by (eexists; split; [vm_compute; reflexivity | reflexivity]).
  destruct H as (subscription & Hsub & Hnat).
  exact (speak_requires_subscription _ _ _ _ _ subscription Hsub Hnat).
Defined.

(** When the screen's copy of the subscription is what the store holds,
    [toggleTTS] never shows an alert: it lowers the screen's flag, and,
    started on a page that has text, its last call into the speech module
    speaks that page. *)
Theorem toggleTTS_in_step (web : bool) (voices : list Voice)
    (subscription : option UserSubscription.t) (isSpeaking : bool) (st : State)
    (this : DatabaseService.t) (serviceSpeaking : bool) :
  getCurrentSubscription this = Ok subscription ->
  exists calls,
    toggleTTS web voices subscription isSpeaking st this serviceSpeaking
    = (false, None, (if isSpeaking then false
                     else if truthy (getPageContent st) then false else serviceSpeaking),
       calls)
    /\ (isSpeaking = true -> calls = [Stop])
    /\ (isSpeaking = false -> truthy (getPageContent st) = false -> calls = [])
    /\ (isSpeaking = false -> truthy (getPageContent st) = true ->
        exists before options, calls = before ++ [Speak (getPageContent st) options]).
Proof.
  intros Hsub. unfold toggleTTS. destruct isSpeaking.
  { eexists. split; [reflexivity|]. split; [reflexivity|]. split; discriminate. }
  destruct (truthy (getPageContent st)) eqn:Hpage.
  2:{ eexists. split; [reflexivity|]. split; [discriminate|]. split; [reflexivity|discriminate]. }
  unfold speak. rewrite Hsub.
  destruct (from_option UserSubscription.hasNaturalTTS false subscription) eqn:Hnat;
    cbn [andb negb].
  - eexists. rewrite app_assoc. split; [reflexivity|]. split; [discriminate|].
    split; [discriminate|]. intros _ _. eexists. eexists. reflexivity.
  - eexists. rewrite app_assoc. split; [reflexivity|]. split; [discriminate|].
    split; [discriminate|]. intros _ _. eexists. eexists. reflexivity.
Qed.

Lemma toggleTTS_in_step_witness :
  exists subscription calls,
    getCurrentSubscription Examples.service1 = Ok subscription
    /\ toggleTTS false [] subscription false
         (MkState (Some Examples.loremBook) "Call me Ishmael." 0 1) Examples.service1 false
       = (false, None, false, calls)
    /\ exists before options, calls = before ++ [Speak "Call me Ishmael." options].
Proof.
  assert (H : exists subscription, getCurrentSubscription Examples.service1 = Ok subscription)
    by (eexists; vm_compute; reflexivity).
  destruct H as (subscription & Hsub).
  destruct (toggleTTS_in_step false [] subscription false
              (MkState (Some Examples.loremBook) "Call me Ishmael." 0 1)
              Examples.service1 false Hsub)
    as (calls & Htoggle & _ & _ & Hspeak).
  exists subscription, calls. split; [exact Hsub|]. split; [exact Htoggle|].
  now apply Hspeak.
Defined.

(** When the screen's copy grants the natural voice and the store does
    not (the subscription was cancelled after the screen loaded it),
    [toggleTTS] on a page that has text speaks nothing and shows the
    upgrade message. *)
Theorem toggleTTS_stale_copy (web : bool) (voices : list Voice)
    (copy : UserSubscription.t) (stored : option UserSubscription.t) (st : State)
    (this : DatabaseService.t) (serviceSpeaking : bool) :
  UserSubscription.hasNaturalTTS copy = true ->
  getCurrentSubscription this = Ok stored ->
  from_option UserSubscription.hasNaturalTTS false stored = false ->
  truthy (getPageContent st) = true ->
  toggleTTS web voices (Some copy) false st this serviceSpeaking
  = (false, Some ("TTS Error", naturalRequired), false, []).
Proof.
  intros Hcopy Hsub Hnat Hpage. unfold toggleTTS. rewrite Hpage. cbn [from_option].
  rewrite Hcopy. unfold speak. rewrite Hsub. cbn. now rewrite Hnat.
Qed.

Lemma toggleTTS_stale_copy_witness :
  toggleTTS false []
    (Some (UserSubscription.mk "1" "basic" (5 # 1) ["Natural TTS"] 1 true true
             (Some "2024-05-31T10:00:00.000Z") Examples.clock))
    false (MkState (Some Examples.loremBook) "Call me Ishmael." 0 1) Examples.service1 false
  = (false, Some ("TTS Error", naturalRequired), false, []).
Proof.
  assert (H : exists stored,
             getCurrentSubscription Examples.service1 = Ok stored
             /\ from_option UserSubscription.hasNaturalTTS false stored = false)
    by (eexists; split; [vm_compute; reflexivity | reflexivity]).
  destruct H as (stored & Hsub & Hnat).
  apply (toggleTTS_stale_copy false [] _ stored _ Examples.service1 false);
    [reflexivity | exact Hsub | exact Hnat | reflexivity].
Defined.

End SpeechFacts.

(** ** The store: books, settings and [init] *)

Module StoreFacts.
Import JsString DatabaseService.
Import JSONFacts DatabaseServiceFacts.

Lemma alter_absent {V : Type} (f : V -> V) (k : string) (m : gmap string V) :
  m !! k = None -> alter f k m = m.
Proof.
  intros H. apply map_eq. intros j. destruct (decide (k = j)) as [<-|Hne].
  - now rewrite lookup_alter_eq, H.
  - now rewrite lookup_alter_ne.
Qed.

Lemma getBookById_updateBookRow (f : BookRow.t -> BookRow.t) (id : string) (s : Store)
    (r : BookRow.t) (b : Book.t) :
  books s !! id = Some r -> decodeBook (f r) = Ok b ->
  getBookById id (mk (Some (updateBookRow f id s))) = Ok (Some b).
Proof.
  intros Hr Hb. erewrite getBookById_lookup by (apply books_updateBookRow; exact Hr).
  now rewrite Hb.
Qed.

Lemma getBookById_frame (f : BookRow.t -> BookRow.t) (id id' : string) (s : Store) :
  id <> id' ->
  getBookById id' (mk (Some (updateBookRow f id s))) = getBookById id' (mk (Some s)).
Proof.
  intros Hne. unfold getBookById, updateBookRow. cbn. now rewrite lookup_alter_ne.
Qed.

Lemma updateBookRow_absent (f : BookRow.t -> BookRow.t) (id : string) (s : Store) :
  books s !! id = None -> updateBookRow f id s = s.
Proof.
  intros H. unfold updateBookRow. rewrite (alter_absent f id _ H). now destruct s.
Qed.

(** A created book can be read back whole: on a store that has no book
    under the clock's reading, [createBook] returns that reading as the id
    and [getBookById] gives back every field that was passed, with absent
    genre tags read as the empty list; the books stored before read as
    before. *)
Theorem createBook_round_trip (now : Z) (book : NewBook.t) (this : DatabaseService.t) :
  getBookById (pretty now) this = Ok None ->
  exists this',
    createBook now book this = Ok (pretty now, this')
    /\ getBookById (pretty now) this'
       = Ok (Some (Book.mk (pretty now) (NewBook.title book) (NewBook.author book)
                     (NewBook.filePath book) (NewBook.coverImage book)
                     (NewBook.lastPageRead book) (NewBook.totalPages book)
                     (NewBook.categoryId book)
                     (Some (default [] (NewBook.genreTags book)))
                     (NewBook.fileType book) (NewBook.isCompleted book)
                     (NewBook.isFavorite book) (NewBook.source book) (NewBook.price book)
                     (NewBook.affiliateUrl book) (NewBook.createdAt book)
                     (NewBook.updatedAt book)))
    /\ forall id, id <> pretty now -> getBookById id this' = getBookById id this.
Proof.
  intros Hget. destruct (getBookById_None _ _ Hget) as (s & Hdb & Hfresh).
  destruct this as [d]. cbn in Hdb. subst d.
  unfold createBook, requireDb. cbn. rewrite Hfresh.
  eexists. split; [reflexivity|]. split.
  - erewrite getBookById_lookup by (cbn; apply lookup_insert_eq).
    unfold decodeBook. cbn [encodeBook BookRow.genreTags].
    rewrite decodeGenreTags_stringify. cbn. now rewrite !Boolean_bit.
  - intros id Hne. unfold getBookById. cbn. now rewrite lookup_insert_ne.
Qed.

Lemma createBook_round_trip_witness :
  exists this' b,
    createBook 1714557600000 Examples.pickedBook Examples.service0
    = Ok ("1714557600000", this')
    /\ getBookById "1714557600000" this' = Ok (Some b)
    /\ Book.title b = "Money and War" /\ Book.categoryId b = Some "2"
    /\ Book.isCompleted b = false.
Proof.
  destruct (createBook_round_trip 1714557600000 Examples.pickedBook Examples.service0)
    as (this' & Hcreate & Hback & _); [vm_compute; reflexivity|].
  exists this'. eexists. split; [exact Hcreate|]. split; [exact Hback|].
  repeat split.
Defined.

(** Ids come from the clock alone: a second [createBook] at the same
    reading of the clock throws on the primary key, and the book stored
    first still reads as it did; at another reading, the id differs. *)
Theorem createBook_same_reading (now : Z) (first second : NewBook.t)
    (this this' : DatabaseService.t) (id : string) :
  createBook now first this = Ok (id, this') ->
  createBook now second this' = Throw "UNIQUE constraint failed: books.id"
  /\ (forall later id' this'',
        createBook later second this' = Ok (id', this'') -> later <> now /\ id' <> id).
Proof.
  unfold createBook, requireDb. destruct (db this) as [s|]; [|discriminate]. cbn.
  destruct (books s !! pretty now) eqn:Hfresh; [discriminate|].
  intros H. injection H as <- <-. cbn. rewrite lookup_insert_eq. split; [reflexivity|].
  intros later id' this''.
  destruct (decide (later = now)) as [->|Hne].
  - rewrite lookup_insert_eq. discriminate.
  - destruct (_ !! pretty later); [discriminate|]. intros H. injection H as <- _.
    split; [exact Hne|]. intros Heq. apply Hne. now apply (inj pretty).
Qed.

Lemma createBook_same_reading_witness :
  exists id this',
    createBook 1714557600000 Examples.pickedBook Examples.service0 = Ok (id, this')
    /\ createBook 1714557600000 Examples.pickedBook this'
       = Throw "UNIQUE constraint failed: books.id".
Proof.
  assert (H : exists id this',
             createBook 1714557600000 Examples.pickedBook Examples.service0
             = Ok (id, this'))
    by (eexists; eexists; vm_compute; reflexivity).
  destruct H as (id & this' & Hcreate). exists id, this'. split; [exact Hcreate|].
  exact (proj1 (createBook_same_reading _ _ Examples.pickedBook _ _ _ Hcreate)).
Defined.

(** [updateBookProgress] on a stored book stores whatever page number it
    is given (nothing checks it against the book's pages): the book reads
    back with that [lastPageRead] and the new [updatedAt], its other
    fields as before, and the other books read as before. *)
Theorem updateBookProgress_read_back (now id : string) (page : Z)
    (this : DatabaseService.t) (b : Book.t) :
  getBookById id this = Ok (Some b) ->
  exists this',
    updateBookProgress now id page this = Ok this'
    /\ getBookById id this'
       = Ok (Some (Book.mk (Book.id b) (Book.title b) (Book.author b) (Book.filePath b)
                     (Book.coverImage b) page (Book.totalPages b)
                     (Book.categoryId b) (Book.genreTags b) (Book.fileType b)
                     (Book.isCompleted b) (Book.isFavorite b) (Book.source b)
                     (Book.price b) (Book.affiliateUrl b) (Book.createdAt b) now))
    /\ forall id', id' <> id -> getBookById id' this' = getBookById id' this.
Proof.
  intros Hget. destruct (getBookById_Some _ _ _ Hget) as (s & r & Hdb & Hr & Hdec).
  destruct (decodeBook_inv _ _ Hdec) as (tags & Htags & ->).
  destruct this as [d]. cbn in Hdb. subst d.
  unfold updateBookProgress, requireDb. cbn.
  eexists. split; [reflexivity|]. split.
  - apply (getBookById_updateBookRow _ _ _ r); [exact Hr|].
    unfold decodeBook. cbn. now rewrite Htags.
  - intros id' Hne. now apply getBookById_frame.
Qed.

Lemma updateBookProgress_read_back_witness :
  exists this' b,
    updateBookProgress Examples.later "1714557600000" (-7) Examples.service1 = Ok this'
    /\ getBookById "1714557600000" this' = Ok (Some b)
    /\ Book.lastPageRead b = -7 /\ Book.updatedAt b = Examples.later
    /\ Book.title b = "Money and War".
Proof.
  assert (Hget : exists b, getBookById "1714557600000" Examples.service1 = Ok (Some b)
                           /\ Book.title b = "Money and War")
    by (eexists; split; [vm_compute; reflexivity | reflexivity]).
  destruct Hget as (b & Hget & Htitle).
  destruct (updateBookProgress_read_back Examples.later _ (-7) _ _ Hget)
    as (this' & Hup & Hback & _).
  exists this'. eexists. split; [exact Hup|]. split; [exact Hback|].
  now repeat split.
Defined.

(** The three updates by id do nothing, and do not throw, for an id that
    no book has: the service is left as it was. *)
Theorem updates_of_missing_book (now id category : string) (page : Z)
    (this : DatabaseService.t) :
  getBookById id this = Ok None ->
  updateBookProgress now id page this = Ok this
  /\ updateBookCategory now id category this = Ok this
  /\ markBookCompleted now id this = Ok this.
Proof.
  intros Hget. destruct (getBookById_None _ _ Hget) as (s & Hdb & Hr).
  destruct this as [d]. cbn in Hdb. subst d.
  unfold updateBookProgress, updateBookCategory, markBookCompleted, requireDb. cbn.
  now rewrite !(updateBookRow_absent _ _ _ Hr).
Qed.

Lemma updates_of_missing_book_witness :
  updateBookProgress Examples.later "42" 3 Examples.service1 = Ok Examples.service1
  /\ updateBookCategory Examples.later "42" "1" Examples.service1 = Ok Examples.service1
  /\ markBookCompleted Examples.later "42" Examples.service1 = Ok Examples.service1.
Proof.
  apply updates_of_missing_book. vm_compute. reflexivity.
Defined.

(** Two calls of [toggleBookFavorite] on a stored book bring [isFavorite]
    back to what it was: the book then differs from the original in
    [updatedAt] only. *)
Theorem toggleBookFavorite_twice (now now' id : string) (this : DatabaseService.t)
    (b : Book.t) :
  getBookById id this = Ok (Some b) ->
  exists this1 this2,
    toggleBookFavorite now id this = Ok this1
    /\ toggleBookFavorite now' id this1 = Ok this2
    /\ getBookById id this2
       = Ok (Some (Book.mk (Book.id b) (Book.title b) (Book.author b) (Book.filePath b)
                     (Book.coverImage b) (Book.lastPageRead b) (Book.totalPages b)
                     (Book.categoryId b) (Book.genreTags b) (Book.fileType b)
                     (Book.isCompleted b) (Book.isFavorite b) (Book.source b)
                     (Book.price b) (Book.affiliateUrl b) (Book.createdAt b) now')).
Proof.
  intros Hget. destruct (getBookById_Some _ _ _ Hget) as (s & r & Hdb & Hr & Hdec).
  destruct (decodeBook_inv _ _ Hdec) as (tags & Htags & Hb).
  destruct this as [d]. cbn in Hdb. subst d.
  unfold toggleBookFavorite at 1. unfold requireDb. rewrite Hget. cbn -[getBookById].
  eexists. eexists. split; [reflexivity|].
  set (f := BookRow.setFavorite (if Book.isFavorite b then 0 else 1) now).
  assert (Hmid : getBookById id (mk (Some (updateBookRow f id s)))
                 = Ok (Some (Book.mk (Book.id b) (Book.title b) (Book.author b)
                               (Book.filePath b) (Book.coverImage b) (Book.lastPageRead b)
                               (Book.totalPages b) (Book.categoryId b) (Book.genreTags b)
                               (Book.fileType b) (Book.isCompleted b)
                               (negb (Book.isFavorite b)) (Book.source b) (Book.price b)
                               (Book.affiliateUrl b) (Book.createdAt b) now))).
  { apply (getBookById_updateBookRow _ _ _ r); [exact Hr|].
    unfold decodeBook, f. cbn. rewrite Htags. subst b. cbn.
    now destruct (Boolean (BookRow.isFavorite r)). }
  unfold toggleBookFavorite, requireDb. rewrite Hmid. cbn -[getBookById].
  split; [reflexivity|].
  apply (getBookById_updateBookRow _ _ _ (f r)); [now apply books_updateBookRow|].
  unfold decodeBook, f. cbn. rewrite Htags. subst b. cbn.
  now destruct (Boolean (BookRow.isFavorite r)).
Qed.

Lemma toggleBookFavorite_twice_witness :
  exists b this1 this2 b',
    getBookById "1714557600000" Examples.service1 = Ok (Some b)
    /\ toggleBookFavorite Examples.later "1714557600000" Examples.service1 = Ok this1
    /\ toggleBookFavorite Examples.later "1714557600000" this1 = Ok this2
    /\ getBookById "1714557600000" this2 = Ok (Some b')
    /\ Book.isFavorite b' = Book.isFavorite b.
Proof.
  eexists.
  assert (Hget : getBookById "1714557600000" Examples.service1 = Ok (Some _))
    by (vm_compute; reflexivity).
  destruct (toggleBookFavorite_twice Examples.later Examples.later _ _ _ Hget)
    as (this1 & this2 & Hone & Htwo & Hback).
  exists this1, this2. eexists. split; [exact Hget|]. split; [exact Hone|].
  split; [exact Htwo|]. split; [exact Hback|]. reflexivity.
Defined.

(** [updateBookCategory] moves a stored book to the category it is given
    and touches nothing else but [updatedAt]; in particular a completed
    book that is moved out of the Read category stays completed. *)
Theorem updateBookCategory_read_back (now id category : string)
    (this : DatabaseService.t) (b : Book.t) :
  getBookById id this = Ok (Some b) ->
  exists this',
    updateBookCategory now id category this = Ok this'
    /\ getBookById id this'
       = Ok (Some (Book.mk (Book.id b) (Book.title b) (Book.author b) (Book.filePath b)
                     (Book.coverImage b) (Book.lastPageRead b) (Book.totalPages b)
                     (Some category) (Book.genreTags b) (Book.fileType b)
                     (Book.isCompleted b) (Book.isFavorite b) (Book.source b)
                     (Book.price b) (Book.affiliateUrl b) (Book.createdAt b) now))
    /\ forall id', id' <> id -> getBookById id' this' = getBookById id' this.
Proof.
  intros Hget. destruct (getBookById_Some _ _ _ Hget) as (s & r & Hdb & Hr & Hdec).
  destruct (decodeBook_inv _ _ Hdec) as (tags & Htags & ->).
  destruct this as [d]. cbn in Hdb. subst d.
  unfold updateBookCategory, requireDb. cbn.
  eexists. split; [reflexivity|]. split.
  - apply (getBookById_updateBookRow _ _ _ r); [exact Hr|].
    unfold decodeBook. cbn. now rewrite Htags.
  - intros id' Hne. now apply getBookById_frame.
Qed.

Lemma updateBookCategory_read_back_witness :
  exists this' b,
    updateBookCategory Examples.later "1714557600000" "1" Examples.service1 = Ok this'
    /\ getBookById "1714557600000" this' = Ok (Some b)
    /\ Book.categoryId b = Some "1" /\ Book.title b = "Money and War".
Proof.
  assert (Hget : exists b, getBookById "1714557600000" Examples.service1 = Ok (Some b)
                           /\ Book.title b = "Money and War")
    by (eexists; split; [vm_compute; reflexivity | reflexivity]).
  destruct Hget as (b & Hget & Htitle).
  destruct (updateBookCategory_read_back Examples.later _ "1" _ _ Hget)
    as (this' & Hup & Hback & _).
  exists this'. eexists. split; [exact Hup|]. split; [exact Hback|].
  now repeat split.
Defined.

(** *** Settings *)

Lemma getSettings_Some (this : DatabaseService.t) (cur : AppSettings.t) :
  getSettings this = Ok (Some cur) ->
  exists s r,
    db this = Some s /\ settings s !! "1" = Some r
    /\ cur = AppSettings.mk (SettingsRow.id r) (SettingsRow.ttsMode r)
               (SettingsRow.ttsVoice r) (SettingsRow.fontSize r) (SettingsRow.theme r)
               (Boolean (SettingsRow.autoSync r)).
Proof.
  unfold getSettings, requireDb. destruct (db this) as [s|]; [|discriminate].
  cbn. destruct (settings s !! "1") as [r|] eqn:Hr; [|discriminate].
  intros H. injection H as <-. now exists s, r.
Qed.

(** [updateSettings] merges the partial over the stored settings and
    writes the five columns [ttsMode], [ttsVoice], [fontSize], [theme] and
    [autoSync]: read back, each holds the partial's value when the partial
    names it and its former value otherwise, and [id] is the one it was
    whatever the partial holds. Books and subscription are untouched. *)
Theorem updateSettings_merges (p : PartialSettings.t) (this : DatabaseService.t)
    (cur : AppSettings.t) :
  getSettings this = Ok (Some cur) ->
  exists this',
    updateSettings p this = Ok this'
    /\ getSettings this'
       = Ok (Some (AppSettings.mk
                     (AppSettings.id cur)
                     (default (AppSettings.ttsMode cur) (PartialSettings.ttsMode p))
                     (default (AppSettings.ttsVoice cur) (PartialSettings.ttsVoice p))
                     (default (AppSettings.fontSize cur) (PartialSettings.fontSize p))
                     (default (AppSettings.theme cur) (PartialSettings.theme p))
                     (default (AppSettings.autoSync cur) (PartialSettings.autoSync p))))
    /\ getUserSubscription this' = getUserSubscription this
    /\ forall id, getBookById id this' = getBookById id this.
Proof.
  intros Hget. destruct (getSettings_Some _ _ Hget) as (s & r & Hdb & Hr & Hcur).
  destruct this as [d]. cbn in Hdb. subst d.
  unfold updateSettings, requireDb. rewrite Hget. cbn -[getSettings].
  eexists. split; [reflexivity|]. split; [|split; [reflexivity|reflexivity]].
  unfold getSettings, requireDb. cbn. rewrite lookup_alter_eq, Hr. cbn.
  rewrite Boolean_bit. subst cur. reflexivity.
Qed.

Lemma updateSettings_merges_witness :
  exists this' after,
    updateSettings (PartialSettings.mk (Some "9") None (Some "natural") None (Some "dark")
                      (Some true)) Examples.service1 = Ok this'
    /\ getSettings this' = Ok (Some after)
    /\ after = AppSettings.mk "1" "offline" "natural" "medium" "dark" true.
Proof.
  assert (Hget : exists cur, getSettings Examples.service1 = Ok (Some cur)
                             /\ cur = AppSettings.mk "1" "offline" "robotic" "medium"
                                        "light" false)
    by (eexists; split; [vm_compute; reflexivity | reflexivity]).
  destruct Hget as (cur & Hget & Hcur).
  destruct (updateSettings_merges
              (PartialSettings.mk (Some "9") None (Some "natural") None (Some "dark")
                 (Some true)) _ _ Hget) as (this' & Hup & Hback & _).
  exists this'. eexists. split; [exact Hup|]. split; [exact Hback|].
  now rewrite Hcur.
Defined.

End StoreFacts.

(** ** [init]: seeding the default data *)

Module InitFacts.
Import JsString DatabaseService.
Import JSONFacts DatabaseServiceFacts.

Section Seeding.
Context {V : Type}.
Implicit Types (m : gmap string V) (l : list V).

Lemma insertOrIgnore_keeps (k j : string) (v r : V) m :
  m !! j = Some r -> insertOrIgnore k v m !! j = Some r.
Proof.
  intros Hj. unfold insertOrIgnore. destruct (m !! k) eqn:Hk; [exact Hj|].
  rewrite lookup_insert_ne; [exact Hj|]. intros ->. congruence.
Qed.

Lemma insertOrIgnore_present (k : string) (v : V) m :
  is_Some (m !! k) -> insertOrIgnore k v m = m.
Proof. intros [r Hr]. unfold insertOrIgnore. now rewrite Hr. Qed.

Lemma insertOrIgnore_seeds (k : string) (v : V) m :
  is_Some (insertOrIgnore k v m !! k).
Proof.
  unfold insertOrIgnore. destruct (m !! k) eqn:Hk.
  - rewrite Hk. now eexists.
  - rewrite lookup_insert_eq. now eexists.
Qed.

Variable key : V -> string.

Lemma seed_keeps l m (j : string) (r : V) :
  m !! j = Some r ->
  fold_left (fun m v => insertOrIgnore (key v) v m) l m !! j = Some r.
Proof.
  revert m. induction l as [|v l IH]; intros m Hj; [exact Hj|].
  cbn. apply IH. now apply insertOrIgnore_keeps.
Qed.

Lemma seed_seeds l m (k : string) :
  In k (map key l) ->
  is_Some (fold_left (fun m v => insertOrIgnore (key v) v m) l m !! k).
Proof.
  revert m. induction l as [|v l IH]; intros m Hin; [destruct Hin|].
  cbn. destruct Hin as [<-|Hin]; [|now apply IH].
  destruct (insertOrIgnore_seeds (key v) v m) as [r Hr].
  exists r. now apply seed_keeps.
Qed.

Lemma seed_present l m :
  (forall k, In k (map key l) -> is_Some (m !! k)) ->
  fold_left (fun m v => insertOrIgnore (key v) v m) l m = m.
Proof.
  revert m. induction l as [|v l IH]; intros m Hall; [reflexivity|].
  cbn. rewrite insertOrIgnore_present by (apply Hall; now left).
  apply IH. intros k Hk. apply Hall. now right.
Qed.

End Seeding.

Lemma defaultCategoryRows_ids (clock : nat -> string) :
  map Category.id (defaultCategoryRows clock) = ["1"; "2"; "3"; "4"; "5"].
Proof. reflexivity. Qed.

(** On a new file, at a clock that stands still, [init] builds the store
    called [initialized]. *)
Lemma init_new_file (now : string) : init (fun _ => now) None = initialized now.
Proof. reflexivity. Qed.

(** [init] on an existing file loses nothing: every book reads as before,
    a subscription and settings that could be read are read the same (an
    upgrade survives a restart), every category that was stored is still
    stored unchanged, and the tables of notes and of chat messages are the
    same. *)
Theorem init_keeps_rows (clock : nat -> string) (s : Store) :
  (forall id, getBookById id (init clock (Some s)) = getBookById id (mk (Some s)))
  /\ (forall cur, getUserSubscription (mk (Some s)) = Ok (Some cur) ->
                  getUserSubscription (init clock (Some s)) = Ok (Some cur))
  /\ (forall cur, getSettings (mk (Some s)) = Ok (Some cur) ->
                  getSettings (init clock (Some s)) = Ok (Some cur))
  /\ (exists s', db (init clock (Some s)) = Some s'
                 /\ notes s' = notes s /\ chatHistory s' = chatHistory s
                 /\ forall k c, categories s !! k = Some c -> categories s' !! k = Some c).
Proof.
  split; [reflexivity|]. split; [|split].
  - intros cur Hget.
    destruct (getUserSubscription_Some _ _ Hget) as (s0 & r & features & Hdb & Hr & Hf & ->).
    injection Hdb as <-.
    unfold getUserSubscription, init, createDefaultData. cbn -[insertOrIgnore].
    rewrite (insertOrIgnore_keeps _ _ _ _ _ Hr). cbn. now rewrite Hf.
  - intros cur. unfold getSettings, init, createDefaultData. cbn -[insertOrIgnore].
    destruct (settings s !! "1") as [r|] eqn:Hr; [|discriminate].
    now rewrite (insertOrIgnore_keeps _ _ _ _ _ Hr).
  - eexists. split; [reflexivity|]. split; [reflexivity|]. split; [reflexivity|].
    intros k c Hk. cbn -[defaultCategoryRows]. now apply seed_keeps.
Qed.

Lemma init_keeps_rows_witness :
  exists s cur,
    db Examples.service2 = Some s
    /\ getUserSubscription (mk (Some s)) = Ok (Some cur)
    /\ UserSubscription.tier cur = "basic"
    /\ getUserSubscription (init (fun _ => Examples.later) (Some s)) = Ok (Some cur).
Proof.
  assert (H : exists s cur, db Examples.service2 = Some s
                            /\ getUserSubscription (mk (Some s)) = Ok (Some cur)
                            /\ UserSubscription.tier cur = "basic")
    by (eexists; eexists; split; [|split]; [reflexivity | vm_compute; reflexivity
                                            | reflexivity]).
  destruct H as (s & cur & Hdb & Hget & Htier). exists s, cur.
  split; [exact Hdb|]. split; [exact Hget|]. split; [exact Htier|].
  exact (proj1 (proj2 (init_keeps_rows (fun _ => Examples.later) s)) cur Hget).
Defined.

(** After [init] the seeded rows are there, on a new file and on an old
    one: the five categories, the subscription row and the settings row;
    and a second [init], at whatever clock, changes nothing. *)
Theorem init_twice (clock clock' : nat -> string) (file : option Store) :
  (exists s, db (init clock file) = Some s
             /\ (forall k, In k ["1"; "2"; "3"; "4"; "5"] -> is_Some (categories s !! k))
             /\ is_Some (userSubscription s !! "1")
             /\ is_Some (settings s !! "1"))
  /\ init clock' (db (init clock file)) = init clock file.
Proof.
  assert (Hcat : forall k, In k ["1"; "2"; "3"; "4"; "5"] ->
            is_Some (fold_left (fun m c => insertOrIgnore (Category.id c) c m)
                       (defaultCategoryRows clock)
                       (categories (default emptyStore file)) !! k)).
  { intros k Hk. apply seed_seeds. now rewrite defaultCategoryRows_ids. }
  split.
  - eexists. split; [reflexivity|]. split; [exact Hcat|].
    split; apply insertOrIgnore_seeds.
  - unfold init. cbn [db default from_option id]. f_equal. f_equal.
    unfold createDefaultData at 1.
    cbn [categories books notes chatHistory userSubscription settings createDefaultData].
    rewrite seed_present
      by (intros k Hk; apply Hcat; now rewrite defaultCategoryRows_ids in Hk).
    rewrite (insertOrIgnore_present "1" (defaultSubscription (clock' 10%nat))
               (insertOrIgnore "1" (defaultSubscription (clock 10%nat)) _))
      by apply insertOrIgnore_seeds.
    rewrite (insertOrIgnore_present "1" defaultSettings
               (insertOrIgnore "1" defaultSettings _))
      by apply insertOrIgnore_seeds.
    reflexivity.
Qed.

End InitFacts.

(** ** The reader screen: pages, position, completion and notes *)

Module PagerFacts.
Import JsString DatabaseService Reader.
Import JsStringFacts DatabaseServiceFacts ReaderFacts StoreFacts.

Lemma firstn_plus {A : Type} (n m : nat) (l : list A) :
  firstn (n + m) l = firstn n l ++ firstn m (skipn n l).
Proof.
  rewrite firstn_skipn_comm. rewrite <- (firstn_skipn n (firstn (n + m) l)) at 1.
  f_equal. rewrite firstn_firstn. f_equal. lia.
Qed.

Lemma pages_concat {A : Type} (size : nat) (l : list A) (k : nat) :
  concat (map (fun p => firstn size (skipn (p * size) l)) (seq 0 k))
  = firstn (k * size) l.
Proof.
  induction k as [|k IH]; [reflexivity|].
  rewrite seq_S, map_app, concat_app, IH. cbn [map concat Nat.add].
  rewrite app_nil_r. rewrite <- firstn_plus. f_equal. lia.
Qed.

Lemma splitFrom_nonempty (s cur : string) (gap : bool) :
  (1 <= length (splitFrom cur gap s))%nat.
Proof.
  revert cur gap. induction s as [|c s IH]; intros cur gap; cbn [splitFrom].
  - cbn. lia.
  - destruct (is_space c); [destruct gap|]; cbn [length]; try apply IH.
    specialize (IH EmptyString true). lia.
Qed.

Lemma join_app (sep : string) (l1 l2 : list string) :
  l1 <> [] -> l2 <> [] ->
  join sep (l1 ++ l2) = join sep l1 +:+ sep +:+ join sep l2.
Proof.
  intros H1 H2. induction l1 as [|x l1 IH]; [now destruct H1|].
  destruct l1 as [|y l1].
  - destruct l2 as [|z l2]; [now destruct H2|]. reflexivity.
  - change (join sep ((x :: y :: l1) ++ l2))
      with (x +:+ sep +:+ join sep ((y :: l1) ++ l2)).
    rewrite IH by discriminate.
    change (join sep (x :: y :: l1)) with (x +:+ sep +:+ join sep (y :: l1)).
    now rewrite !append_assoc.
Qed.

Lemma join_concat (sep : string) (ls : list (list string)) :
  Forall (fun l => l <> []) ls ->
  join sep (map (join sep) ls) = join sep (concat ls).
Proof.
  induction 1 as [|l ls Hl Hls IH]; [reflexivity|].
  destruct ls as [|l' ls].
  - cbn [map concat join]. now rewrite app_nil_r.
  - change (join sep (map (join sep) (l :: l' :: ls)))
      with (join sep l +:+ sep +:+ join sep (map (join sep) (l' :: ls))).
    rewrite IH. change (concat (l :: l' :: ls)) with (l ++ concat (l' :: ls)).
    rewrite (join_app sep l (concat (l' :: ls))); [reflexivity | exact Hl |].
    apply Forall_cons_1 in Hls as [Hl' _]. cbn [concat]. now destruct l'.
Qed.

(** The pages of a text book partition its pieces. There is at least one
    page. What [getPageContent] shows for a page is that page's pieces
    joined by single spaces; the pages 0 to [totalPages - 1], one after
    the other, hold the pieces of the content in order, none lost and
    none twice, so that what they show, put together with a space
    between, is the content's pieces joined by single spaces. Every page
    before the last holds 400 pieces and the last between 1 and 400; a
    page index from [totalPages] on holds nothing and shows the empty
    text. *)
Theorem pages_partition (readAsStringAsync : string -> option string)
    (foundBook : Book.t) (st0 : State) :
  Book.fileType foundBook = "txt" ->
  let st := loadFound readAsStringAsync foundBook st0 in
  1 <= totalPages st
  /\ (forall p, getPageContent (withPage p st) = join " " (pageWords (withPage p st)))
  /\ concat (map (fun p => pageWords (withPage (Z.of_nat p) st))
               (seq 0 (Z.to_nat (totalPages st))))
     = split (content st)
  /\ join " " (map (fun p => getPageContent (withPage (Z.of_nat p) st))
                 (seq 0 (Z.to_nat (totalPages st))))
     = join " " (split (content st))
  /\ (forall p, 0 <= p < totalPages st - 1 ->
        length (pageWords (withPage p st)) = 400%nat)
  /\ (1 <= length (pageWords (withPage (totalPages st - 1) st)) <= 400)%nat
  /\ (forall p, totalPages st <= p ->
        pageWords (withPage p st) = []
        /\ getPageContent (withPage p st) = EmptyString).
Proof.
  intros Htxt st.
  set (text := readTextFile readAsStringAsync (Book.filePath foundBook)).
  assert (Hst : st = MkState (Some foundBook) text (Book.lastPageRead foundBook)
                       (ceilDiv (Z.of_nat (length (split text))) 400)).
  { unfold st, loadFound. now rewrite Htxt. }
  assert (Hcontent : content st = text) by now rewrite Hst.
  assert (Htotal : totalPages st = ceilDiv (Z.of_nat (length (split text))) 400)
    by now rewrite Hst.
  clearbody st. clear Hst.
  pose proof (splitFrom_nonempty text EmptyString false) as Hlen.
  fold (split text) in Hlen.
  pose proof (ceilDiv_spec (Z.of_nat (length (split text))) 400 ltac:(lia)) as Hceil.
  rewrite <- Htotal in Hceil.
  assert (Hpage : forall p, 0 <= p ->
            pageWords (withPage p st)
            = firstn 400 (skipn (Z.to_nat p * 400) (split text))).
  { intros p Hp. rewrite pageWords_page by exact Hp. rewrite Hcontent.
    do 2 f_equal. lia. }
  assert (Hall : concat (map (fun p => pageWords (withPage (Z.of_nat p) st))
                           (seq 0 (Z.to_nat (totalPages st))))
                 = split (content st)).
  { rewrite Hcontent.
    rewrite (map_ext_in _ (fun p => firstn 400 (skipn (p * 400) (split text)))).
    - rewrite pages_concat. apply firstn_all2. lia.
    - intros p _. rewrite Hpage by lia. now rewrite Nat2Z.id. }
  split; [lia|]. split; [intros p; apply getPageContent_join|].
  split; [exact Hall|]. split; [|split; [|split]].
  - rewrite <- Hall.
    rewrite (map_ext _ (fun p => join " " (pageWords (withPage (Z.of_nat p) st))))
      by (intros p; apply getPageContent_join).
    rewrite <- (map_map (fun p => pageWords (withPage (Z.of_nat p) st)) (join " ")).
    apply join_concat. apply List.Forall_forall. intros l Hl.
    apply in_map_iff in Hl as (p & <- & Hp). apply in_seq in Hp.
    rewrite Hpage by lia. intros Hnil. apply (f_equal (@length string)) in Hnil.
    rewrite length_firstn, length_skipn in Hnil. cbn [length] in Hnil. lia.
  - intros p Hp. rewrite Hpage by lia. rewrite length_firstn, length_skipn. lia.
  - rewrite Hpage by lia. rewrite length_firstn, length_skipn. lia.
  - intros p Hp.
    assert (Hnone : pageWords (withPage p st) = []).
    { rewrite Hpage by lia. rewrite skipn_all2 by lia. apply firstn_nil. }
    split; [exact Hnone|]. now rewrite getPageContent_join, Hnone.
Qed.

Lemma pages_partition_witness :
  let st := loadFound Examples.disk Examples.loremBook initial in
  1 <= totalPages st
  /\ join " " (map (fun p => getPageContent (withPage (Z.of_nat p) st))
                 (seq 0 (Z.to_nat (totalPages st))))
     = join " " (split (content st))
  /\ getPageContent (withPage 3 st) = EmptyString.
Proof.
  destruct (pages_partition Examples.disk Examples.loremBook initial eq_refl)
    as (Hone & _ & _ & Hall & _ & _ & Hbeyond).
  split; [exact Hone|]. split; [exact Hall|]. apply Hbeyond. vm_compute. discriminate.
Defined.

(** What a page turn in range does to the store, for a book on the screen
    that the store holds. *)
Lemma goToPage_store (now now' : string) (page : Z) (st : State)
    (this : DatabaseService.t) (b b0 : Book.t) :
  book st = Some b ->
  getBookById (Book.id b) this = Ok (Some b0) ->
  0 <= page < totalPages st ->
  exists this',
    goToPage now now' page st this = (withPage page st, Ok this')
    /\ getBookById (Book.id b) this'
       = Ok (Some (if (totalPages st - 1 <=? page) && negb (Book.isCompleted b)
                   then Book.mk (Book.id b0) (Book.title b0) (Book.author b0)
                          (Book.filePath b0) (Book.coverImage b0) page
                          (Book.totalPages b0) (Some "4") (Book.genreTags b0)
                          (Book.fileType b0) true (Book.isFavorite b0) (Book.source b0)
                          (Book.price b0) (Book.affiliateUrl b0) (Book.createdAt b0) now'
                   else Book.mk (Book.id b0) (Book.title b0) (Book.author b0)
                          (Book.filePath b0) (Book.coverImage b0) page
                          (Book.totalPages b0) (Book.categoryId b0) (Book.genreTags b0)
                          (Book.fileType b0) (Book.isCompleted b0) (Book.isFavorite b0)
                          (Book.source b0) (Book.price b0) (Book.affiliateUrl b0)
                          (Book.createdAt b0) now))
    /\ forall id', id' <> Book.id b -> getBookById id' this' = getBookById id' this.
Proof.
  intros Hbook Hget [H0 H1].
  destruct (getBookById_Some _ _ _ Hget) as (s & r & Hdb & Hr & Hdec).
  destruct (decodeBook_inv _ _ Hdec) as (tags & Htags & ->).
  destruct this as [d]. cbn in Hdb. subst d.
  unfold goToPage.
  assert (Hlt : (page <? 0) = false) by (apply Z.ltb_ge; lia).
  assert (Hge : (totalPages st <=? page) = false) by (apply Z.leb_gt; lia).
  rewrite Hlt, Hge. cbn [orb]. rewrite Hbook.
  unfold updateBookProgress, requireDb. cbn -[getBookById Z.leb].
  destruct ((totalPages st - 1 <=? page) && negb (Book.isCompleted b)).
  - unfold markBookCompleted, requireDb. cbn -[getBookById].
    eexists. split; [reflexivity|]. split.
    + apply (getBookById_updateBookRow _ _ _ (BookRow.setProgress page now r)).
      * now apply books_updateBookRow.
      * unfold decodeBook. cbn. now rewrite Htags.
    + intros id' Hne. rewrite !getBookById_frame by congruence. reflexivity.
  - eexists. split; [reflexivity|]. split.
    + apply (getBookById_updateBookRow _ _ _ r); [exact Hr|].
      unfold decodeBook. cbn. now rewrite Htags.
    + intros id' Hne. now rewrite getBookById_frame by congruence.
Qed.

(** The reading position is kept: after a page turn in range on a stored
    book, the store succeeds, and opening the book again lands on that
    page, with the content and the page count that opening it before the
    turn would have given. *)
Theorem reading_position_resumes (readAsStringAsync : string -> option string)
    (now now' : string) (page : Z) (st st0 : State) (this : DatabaseService.t)
    (b b0 : Book.t) :
  book st = Some b ->
  getBookById (Book.id b) this = Ok (Some b0) ->
  0 <= page < totalPages st ->
  exists this',
    goToPage now now' page st this = (withPage page st, Ok this')
    /\ currentPage (loadBook readAsStringAsync (Book.id b) this' st0) = page
    /\ content (loadBook readAsStringAsync (Book.id b) this' st0)
       = content (loadBook readAsStringAsync (Book.id b) this st0)
    /\ totalPages (loadBook readAsStringAsync (Book.id b) this' st0)
       = totalPages (loadBook readAsStringAsync (Book.id b) this st0).
Proof.
  intros Hbook Hget Hpage.
  destruct (goToPage_store now now' page st this b b0 Hbook Hget Hpage)
    as (this' & Hgo & Hback & _).
  exists this'. split; [exact Hgo|]. unfold loadBook. rewrite Hback, Hget.
  unfold loadFound.
  destruct ((totalPages st - 1 <=? page) && negb (Book.isCompleted b));
    cbn [Book.fileType Book.filePath Book.lastPageRead];
    destruct (String.eqb (Book.fileType b0) "txt"); repeat split.
Qed.

Lemma reading_position_resumes_witness :
  exists b0 this',
    getBookById "1714557600000" Examples.service1 = Ok (Some b0)
    /\ goToPage Examples.later Examples.later 2
         (MkState (Some b0) Examples.thousandWords 0 3) Examples.service1
       = (MkState (Some b0) Examples.thousandWords 2 3, Ok this')
    /\ currentPage (loadBook Examples.disk "1714557600000" this' initial) = 2.
Proof.
  assert (Hget : exists b0, getBookById "1714557600000" Examples.service1 = Ok (Some b0)
                            /\ Book.id b0 = "1714557600000")
    by (eexists; split; [vm_compute; reflexivity | reflexivity]).
  destruct Hget as (b0 & Hget & Hid).
  destruct (reading_position_resumes Examples.disk Examples.later Examples.later 2
              (MkState (Some b0) Examples.thousandWords 0 3) initial Examples.service1
              b0 b0 eq_refl)
    as (this' & Hgo & Hpage & _).
  - rewrite Hid. exact Hget.
  - cbn. lia.
  - exists b0, this'. split; [exact Hget|]. split; [exact Hgo|].
    rewrite Hid in Hpage. exact Hpage.
Defined.

(** Reaching the last page completes the book: when the book on the
    screen is not completed and the turn goes to page [totalPages - 1],
    the stored book reads back completed, in category 4, at that page; a
    turn to an earlier page stores the page and leaves completion and
    category as they were stored. *)
Theorem last_page_completes (now now' : string) (page : Z) (st : State)
    (this : DatabaseService.t) (b b0 : Book.t) :
  book st = Some b ->
  Book.isCompleted b = false ->
  getBookById (Book.id b) this = Ok (Some b0) ->
  0 <= page < totalPages st ->
  exists this' b',
    goToPage now now' page st this = (withPage page st, Ok this')
    /\ getBookById (Book.id b) this' = Ok (Some b')
    /\ Book.lastPageRead b' = page
    /\ (page = totalPages st - 1 ->
        Book.isCompleted b' = true /\ Book.categoryId b' = Some "4")
    /\ (page < totalPages st - 1 ->
        Book.isCompleted b' = Book.isCompleted b0
        /\ Book.categoryId b' = Book.categoryId b0).
Proof.
  intros Hbook Hnot Hget Hpage.
  destruct (goToPage_store now now' page st this b b0 Hbook Hget Hpage)
    as (this' & Hgo & Hback & _).
  exists this'. eexists. split; [exact Hgo|]. split; [exact Hback|].
  rewrite Hnot, andb_true_r.
  destruct (totalPages st - 1 <=? page) eqn:Hlast.
  - apply Z.leb_le in Hlast. cbn. split; [reflexivity|]. split; [now split|]. lia.
  - apply Z.leb_gt in Hlast. cbn. split; [reflexivity|]. split; [lia|]. now split.
Qed.

Lemma last_page_completes_witness :
  exists b0 this' b',
    getBookById "1714557600000" Examples.service1 = Ok (Some b0)
    /\ Book.isCompleted b0 = false
    /\ goToPage Examples.later Examples.later 2
         (MkState (Some b0) Examples.thousandWords 1 3) Examples.service1
       = (MkState (Some b0) Examples.thousandWords 2 3, Ok this')
    /\ getBookById "1714557600000" this' = Ok (Some b')
    /\ Book.isCompleted b' = true /\ Book.categoryId b' = Some "4".
Proof.
  assert (Hget : exists b0, getBookById "1714557600000" Examples.service1 = Ok (Some b0)
                            /\ Book.id b0 = "1714557600000"
                            /\ Book.isCompleted b0 = false)
    by (eexists; split; [vm_compute; reflexivity | split; reflexivity]).
  destruct Hget as (b0 & Hget & Hid & Hnot).
  destruct (last_page_completes Examples.later Examples.later 2
              (MkState (Some b0) Examples.thousandWords 1 3) Examples.service1
              b0 b0 eq_refl Hnot)
    as (this' & b' & Hgo & Hback & _ & Hlast & _).
  - rewrite Hid. exact Hget.
  - cbn. lia.
  - exists b0, this', b'. split; [exact Hget|]. split; [exact Hnot|].
    split; [exact Hgo|]. rewrite Hid in Hback. split; [exact Hback|].
    now apply Hlast.
Defined.

(** The buttons keep the page in range. From a page in range, Next moves
    one page forward and Previous one page back, and the page stays in
    range; on the last page Next changes nothing, on page 0 Previous
    changes nothing, on the screen or in the store. So a book of a single
    page cannot be turned, and no button completes it. *)
Theorem pager_buttons (now now' : string) (st : State) (this : DatabaseService.t) :
  0 <= currentPage st < totalPages st ->
  (currentPage st + 1 < totalPages st ->
     fst (nextPage now now' st this) = withPage (currentPage st + 1) st)
  /\ (currentPage st + 1 = totalPages st -> nextPage now now' st this = (st, Ok this))
  /\ (0 < currentPage st ->
        fst (previousPage now now' st this) = withPage (currentPage st - 1) st)
  /\ (currentPage st = 0 -> previousPage now now' st this = (st, Ok this))
  /\ 0 <= currentPage (fst (nextPage now now' st this))
          < totalPages (fst (nextPage now now' st this))
  /\ 0 <= currentPage (fst (previousPage now now' st this))
          < totalPages (fst (previousPage now now' st this)).
Proof.
  intros Hrange. unfold nextPage, previousPage.
  assert (Hnext : currentPage st + 1 < totalPages st ->
                  fst (goToPage now now' (currentPage st + 1) st this)
                  = withPage (currentPage st + 1) st)
    by (intros H; apply goToPage_in_range; lia).
  assert (Hlast : currentPage st + 1 = totalPages st ->
                  goToPage now now' (currentPage st + 1) st this = (st, Ok this))
    by (intros H; apply goToPage_out_of_range; lia).
  assert (Hprev : 0 < currentPage st ->
                  fst (goToPage now now' (currentPage st - 1) st this)
                  = withPage (currentPage st - 1) st)
    by (intros H; apply goToPage_in_range; lia).
  assert (Hfirst : currentPage st = 0 ->
                   goToPage now now' (currentPage st - 1) st this = (st, Ok this))
    by (intros H; apply goToPage_negative; lia).
  split; [exact Hnext|]. split; [exact Hlast|]. split; [exact Hprev|].
  split; [exact Hfirst|]. split.
  - destruct (Z.eq_dec (currentPage st + 1) (totalPages st)) as [He|Hne].
    + now rewrite Hlast.
    + rewrite Hnext by lia. cbn. lia.
  - destruct (Z.eq_dec (currentPage st) 0) as [He|Hne].
    + now rewrite Hfirst.
    + rewrite Hprev by lia. cbn. lia.
Qed.

Lemma pager_buttons_witness :
  nextPage Examples.later Examples.later
    (MkState (Some Examples.loremBook) "Call me Ishmael." 0 1) Examples.service1
  = (MkState (Some Examples.loremBook) "Call me Ishmael." 0 1, Ok Examples.service1)
  /\ previousPage Examples.later Examples.later
       (MkState (Some Examples.loremBook) "Call me Ishmael." 0 1) Examples.service1
     = (MkState (Some Examples.loremBook) "Call me Ishmael." 0 1, Ok Examples.service1).
Proof.
  destruct (pager_buttons Examples.later Examples.later
              (MkState (Some Examples.loremBook) "Call me Ishmael." 0 1)
              Examples.service1)
    as (_ & Hnext & _ & Hprev & _); [cbn; lia|].
  split; [now apply Hnext | now apply Hprev].
Defined.

(** A note is stored trimmed, on the page on display. With a stored book
    on the screen, a note text that is not blank and no note under the
    clock's reading, [addNote] stores one note (its id the reading, its
    book the one on the screen, its content the text without the white
    space around it, its page the current page, no chapter), clears the
    form and reports success; the other notes and all books are
    untouched. *)
Theorem addNote_stores_trimmed (now : Z) (created updated : string) (form : NoteForm)
    (st : State) (this : DatabaseService.t) (s : Store) (b : Book.t) :
  book st = Some b ->
  truthy (trim (noteText form)) = true ->
  db this = Some s ->
  is_Some (books s !! Book.id b) ->
  notes s !! pretty now = None ->
  exists s',
    addNote now created updated form st this
    = (MkForm EmptyString false, Some ("Success", "Note added successfully!"),
       mk (Some s'))
    /\ notes s' !! pretty now
       = Some (Note.mk (pretty now) (Book.id b) (trim (noteText form)) (currentPage st)
                 None created updated)
    /\ (forall id, id <> pretty now -> notes s' !! id = notes s !! id)
    /\ books s' = books s.
Proof.
  intros Hbook Htext Hdb _ Hfresh. unfold addNote. rewrite Htext, Hbook. cbn [negb].
  unfold createNote, requireDb. rewrite Hdb. cbn. rewrite Hfresh.
  eexists. split; [reflexivity|]. cbn. split; [apply lookup_insert_eq|].
  split; [|reflexivity]. intros id Hne. now rewrite lookup_insert_ne.
Qed.

Lemma addNote_stores_trimmed_witness :
  exists b s s',
    getBookById "1714557600000" Examples.service1 = Ok (Some b)
    /\ db Examples.service1 = Some s
    /\ addNote 1714557600500 Examples.later Examples.later (MkForm "  whales!  " true)
         (MkState (Some b) Examples.thousandWords 2 3) Examples.service1
       = (MkForm EmptyString false, Some ("Success", "Note added successfully!"),
          mk (Some s'))
    /\ notes s' !! "1714557600500"
       = Some (Note.mk "1714557600500" "1714557600000" "whales!" 2 None Examples.later
                 Examples.later).
Proof.
  assert (H : exists b s, getBookById "1714557600000" Examples.service1 = Ok (Some b)
                          /\ Book.id b = "1714557600000"
                          /\ db Examples.service1 = Some s
                          /\ is_Some (books s !! "1714557600000")
                          /\ notes s !! pretty 1714557600500 = None).
  { eexists. eexists. split; [vm_compute; reflexivity|]. split; [reflexivity|].
    split; [reflexivity|]. split; [eexists; vm_compute; reflexivity|].
    vm_compute. reflexivity. }
  destruct H as (b & s & Hget & Hid & Hdb & Hstored & Hfresh).
  destruct (addNote_stores_trimmed 1714557600500 Examples.later Examples.later
              (MkForm "  whales!  " true)
              (MkState (Some b) Examples.thousandWords 2 3)
              Examples.service1 s b eq_refl eq_refl Hdb)
    as (s' & Hadd & Hnote & _); [now rewrite Hid | exact Hfresh |].
  exists b, s, s'. split; [exact Hget|]. split; [exact Hdb|]. split; [exact Hadd|].
  rewrite Hid in Hnote. exact Hnote.
Defined.

(** A blank note is never stored, and neither is a note without a book
    on the screen: nothing is written, no alert is shown and the form
    stays as it is. *)
Theorem addNote_blank (now : Z) (created updated : string) (form : NoteForm)
    (st : State) (this : DatabaseService.t) :
  truthy (trim (noteText form)) = false \/ book st = None ->
  addNote now created updated form st this = (form, None, this).
Proof.
  intros [Hblank|Hbook]; unfold addNote.
  - now rewrite Hblank.
  - rewrite Hbook. now destruct (truthy (trim (noteText form))).
Qed.

Lemma addNote_blank_witness :
  addNote 1714557600500 Examples.later Examples.later (MkForm "    " true)
    (MkState (Some Examples.loremBook) Examples.thousandWords 2 3) Examples.service1
  = (MkForm "    " true, None, Examples.service1).
Proof.
  apply addNote_blank. left. reflexivity.
Defined.

End PagerFacts.

(** ** Recommendations: what the result is made of *)

Module CatalogFacts.
Import JsString RecommendationService RecommendationService.Plain.
Import RecommendationFacts.

Ltac by_id :=
  match goal with
  | H : @eq RecommendedBook.t _ _ |- _ =>
      apply (f_equal RecommendedBook.id) in H; discriminate H
  end.

Ltac cases_In :=
  repeat match goal with
         | H : _ \/ _ |- _ => destruct H
         | H : False |- _ => destruct H
         end.

Lemma shelf_disjoint (c c' : shelfName) (x : RecommendedBook.t) :
  In x (shelf c) -> In x (shelf c') -> c = c'.
Proof.
  destruct c, c'; cbn; intros H H'; try reflexivity; cases_In; subst x; by_id.
Qed.

Lemma shelf_NoDup (c : shelfName) : List.NoDup (shelf c).
Proof.
  destruct c; cbn; repeat constructor; cbn; try tauto.
  all: intros H; cases_In; by_id.
Qed.

Lemma shelf_catalog (c : shelfName) (x : RecommendedBook.t) :
  In x (shelf c) -> In x allBooks.
Proof.
  destruct c; cbn; intros H; cases_In; subst x; tauto.
Qed.

Lemma classify_inj (g g' : string) :
  classify g = classify g' -> classify g <> Elsewhere -> g = g'.
Proof.
  unfold classify.
  destruct (String.eqb_spec "finance" g), (String.eqb_spec "finance" g');
    try congruence;
  destruct (String.eqb_spec "business" g), (String.eqb_spec "business" g');
    try congruence;
  destruct (String.eqb_spec "fiction" g), (String.eqb_spec "fiction" g');
    try congruence;
  destruct (String.eqb_spec "technical" g), (String.eqb_spec "technical" g');
    congruence.
Qed.

Lemma shelves_NoDup (gs : list string) :
  List.NoDup gs -> List.NoDup (flat_map (fun g => shelf (classify g)) gs).
Proof.
  induction gs as [|g gs IH]; intros Hnd; [constructor|].
  apply List.NoDup_cons_iff in Hnd as [Hg Hnd]. cbn [flat_map].
  apply List.NoDup_app; [apply shelf_NoDup | now apply IH |].
  intros x Hx Hrest. apply in_flat_map in Hrest as (g' & Hg' & Hx').
  assert (Hc : classify g = classify g') by exact (shelf_disjoint _ _ x Hx Hx').
  assert (Hne : classify g <> Elsewhere) by (intros He; rewrite He in Hx; destruct Hx).
  apply Hg. now rewrite (classify_inj g g' Hc Hne).
Qed.

Lemma shelves_catalog (gs : list string) :
  incl (flat_map (fun g => shelf (classify g)) gs) allBooks.
Proof.
  intros x Hx. apply in_flat_map in Hx as (g & _ & Hx). exact (shelf_catalog _ _ Hx).
Qed.

Lemma allBooks_NoDup : List.NoDup allBooks.
Proof.
  cbn. repeat constructor; cbn; try tauto.
  all: intros H; cases_In; by_id.
Qed.

Lemma allBooks_id_inj (a b : RecommendedBook.t) :
  In a allBooks -> In b allBooks -> RecommendedBook.id a = RecommendedBook.id b -> a = b.
Proof.
  cbn. intros Ha Hb. cases_In; subst a b; intros H; first [reflexivity | discriminate H].
Qed.

Lemma included_In (recs : list RecommendedBook.t) (b : RecommendedBook.t) :
  incl recs allBooks -> In b allBooks ->
  included recs b = true <-> In b recs.
Proof.
  intros Hincl Hb. unfold included. rewrite existsb_exists. split.
  - intros (r & Hr & Heq). apply String.eqb_eq in Heq.
    now rewrite <- (allBooks_id_inj r b (Hincl r Hr) Hb Heq).
  - intros Hin. exists b. split; [exact Hin | apply String.eqb_refl].
Qed.

(** The backfill completes any selection of catalog entries to the whole
    catalog. *)
Lemma backfill_catalog (recs : list RecommendedBook.t) :
  List.NoDup recs -> incl recs allBooks -> Permutation (firstn 8 (backfill recs)) allBooks.
Proof.
  intros Hnd Hincl.
  set (rest := List.filter (fun book => negb (included recs book)) allBooks).
  assert (Hperm : Permutation (recs ++ rest) allBooks).
  { apply Permutation.NoDup_Permutation.
    - apply List.NoDup_app; [exact Hnd | apply List.NoDup_filter, allBooks_NoDup |].
      intros x Hx Hrest. apply filter_In in Hrest as [Hall Hneg].
      apply negb_true_iff in Hneg.
      apply (included_In recs x Hincl Hall) in Hx. congruence.
    - apply allBooks_NoDup.
    - intros x. rewrite in_app_iff. split.
      + intros [Hx|Hx]; [now apply Hincl | now apply filter_In in Hx as [Hx _]].
      + intros Hx. destruct (included recs x) eqn:Hinc.
        * left. now apply (included_In recs x Hincl Hx).
        * right. apply filter_In. split; [exact Hx | now rewrite Hinc]. }
  assert (Hlen : (length recs + length rest = 6)%nat).
  { apply Permutation_length in Hperm. rewrite length_app in Hperm. exact Hperm. }
  assert (Hback : Permutation (backfill recs) allBooks).
  { unfold backfill. fold rest. destruct (length recs <? 6)%nat eqn:Hlt.
    - rewrite firstn_all2 by lia. exact Hperm.
    - apply Nat.ltb_ge in Hlt. assert (Hnil : rest = []) by (apply length_zero_iff_nil; lia).
      rewrite Hnil, app_nil_r in Hperm. exact Hperm. }
  rewrite firstn_all2; [exact Hback|].
  apply Permutation_length in Hback. rewrite Hback. cbn. lia.
Qed.

Lemma topGenres_incl (genreFrequency : record) (g : string) :
  In g (topGenres genreFrequency) -> In g (map fst genreFrequency).
Proof.
  rewrite topGenres_firstn. intros Hin.
  apply (Permutation_in g (Permutation_map fst (entries_perm genreFrequency))).
  apply (Permutation_in g (Permutation_map fst (sortByCount_perm (entries genreFrequency)))).
  rewrite <- (firstn_skipn 3). apply in_or_app. now left.
Qed.

Lemma topGenres_NoDup (books : list Book.t) :
  List.NoDup (topGenres (analyzeGenrePreferences books)).
Proof.
  rewrite topGenres_firstn.
  assert (Hnd : List.NoDup (map fst (sortByCount (entries (analyzeGenrePreferences books))))).
  { apply (Permutation.Permutation_NoDup (l := map fst (analyzeGenrePreferences books))).
    - apply Permutation_map. symmetry.
      rewrite sortByCount_perm. apply entries_perm.
    - apply NoDup_keys_analyze. }
  rewrite <- (firstn_skipn 3) in Hnd. exact (List.NoDup_app_remove_r _ _ Hnd).
Qed.

(** On numbers: the result is the six entries of the catalog, each once. *)
Lemma recommend_catalog (books : list Book.t) :
  Permutation (recommend books) allBooks
  /\ length (recommend books) = 6%nat
  /\ List.NoDup (map RecommendedBook.id (recommend books)).
Proof.
  assert (Hperm : Permutation (recommend books) allBooks).
  { unfold recommend, generateRecommendations. cbv zeta.
    rewrite (flat_map_ext _ (fun g => shelf (classify g)))
      by (intros g; apply catalogOf_shelf).
    apply backfill_catalog; [apply shelves_NoDup, topGenres_NoDup | apply shelves_catalog]. }
  split; [exact Hperm|]. split.
  - now rewrite (Permutation_length Hperm).
  - apply (Permutation.Permutation_NoDup (l := map RecommendedBook.id allBooks)).
    + apply Permutation_map. now symmetry.
    + cbn. repeat constructor; cbn; try tauto.
      all: intros H; cases_In; discriminate.
Qed.

Lemma firstSeen_In (tags : list string) (g : string) :
  forall seen, In g (fold_left note tags seen) -> In g seen \/ In g tags.
Proof.
  induction tags as [|t tags IH]; intros seen Hin; [now left|].
  cbn [fold_left] in Hin. apply IH in Hin as [Hin|Hin]; [|right; now right].
  unfold note in Hin. destruct (existsb (String.eqb t) seen); [now left|].
  apply in_app_iff in Hin as [Hin|[<-|[]]]; [now left | right; now left].
Qed.

Lemma flat_map_empty {A B : Type} (f : A -> list B) (l : list A) :
  (forall x, In x l -> f x = []) -> flat_map f l = [].
Proof.
  induction l as [|a l IH]; intros Hall; [reflexivity|].
  cbn [flat_map]. rewrite (Hall a) by now left. apply IH. intros x Hx. apply Hall. now right.
Qed.

Lemma classify_elsewhere (g : string) :
  ~ In g ["finance"; "business"; "fiction"; "technical"] -> classify g = Elsewhere.
Proof.
  intros Hnot. unfold classify.
  destruct (String.eqb_spec "finance" g) as [<-|_]; [destruct Hnot; cbn; tauto|].
  destruct (String.eqb_spec "business" g) as [<-|_]; [destruct Hnot; cbn; tauto|].
  destruct (String.eqb_spec "fiction" g) as [<-|_]; [destruct Hnot; cbn; tauto|].
  destruct (String.eqb_spec "technical" g) as [<-|_]; [destruct Hnot; cbn; tauto|].
  reflexivity.
Qed.

(** On numbers: without a tag that the catalog knows, the result is the
    catalog in its declaration order. *)
Lemma recommend_elsewhere (books : list Book.t) :
  (forall g, In g (allTags books) ->
             ~ In g ["finance"; "business"; "fiction"; "technical"]) ->
  recommend books = allBooks.
Proof.
  intros Hnone. unfold recommend, generateRecommendations. cbv zeta.
  assert (Hempty : flat_map (catalogOf bookDatabase)
                     (topGenres (analyzeGenrePreferences books)) = []).
  { apply flat_map_empty. intros g Hg. rewrite catalogOf_shelf.
    rewrite classify_elsewhere; [reflexivity|]. apply Hnone.
    apply topGenres_incl in Hg. rewrite keys_analyze in Hg.
    now destruct (firstSeen_In _ _ _ Hg) as [[]|Hin]. }
  rewrite Hempty. reflexivity.
Qed.

Lemma countTag_app (g : string) (l1 l2 : list string) :
  countTag g (l1 ++ l2) = countTag g l1 + countTag g l2.
Proof. induction l1 as [|t l1 IH]; cbn [countTag app]; [reflexivity | rewrite IH; lia]. Qed.

Lemma occurrences_allTags (g : string) (books : list Book.t) :
  occurrences g books = countTag g (allTags books).
Proof.
  induction books as [|b books IH]; [reflexivity|].
  unfold allTags in *. cbn [occurrences flat_map]. now rewrite countTag_app, IH.
Qed.

(** On numbers: the entries of a genre that occurs more often than every
    other come first. *)
Lemma favourite_first (books : list Book.t) (g : string) :
  (forall g', g' <> g -> occurrences g' books < occurrences g books) ->
  exists rest, recommend books = catalogOf bookDatabase g ++ rest.
Proof.
  intros Hmost.
  set (freq := analyzeGenrePreferences books).
  assert (Hpos : count g freq <> 0).
  { unfold freq. rewrite count_analyze.
    assert (Hother : exists g', g' <> g).
    { destruct (String.eqb_spec "a" g) as [<-|Hne]; [now exists "b" | now exists "a"]. }
    destruct Hother as (g' & Hne). specialize (Hmost g' Hne).
    assert (0 <= occurrences g' books); [|lia].
    clear. induction books as [|b books IH]; cbn [occurrences]; [lia|].
    assert (0 <= countTag g' (default [] (Book.genreTags b))); [|lia].
    induction (default [] (Book.genreTags b)) as [|t tags IHt]; cbn [countTag]; [lia|].
    destruct (String.eqb t g'); lia. }
  pose proof (count_pos_In freq g Hpos) as Hin.
  pose proof (sortByCount_sorted (entries freq)) as Hsorted.
  assert (Hperm : Permutation (sortByCount (entries freq)) freq)
    by (rewrite sortByCount_perm; apply entries_perm).
  assert (Hranked : In (g, count g freq) (sortByCount (entries freq)))
    by (apply (Permutation_in _ (Permutation_sym Hperm)); exact Hin).
  assert (Hhead : exists tl, sortByCount (entries freq) = (g, count g freq) :: tl).
  { destruct (sortByCount (entries freq)) as [|[g0 n0] tl] eqn:Hs; [destruct Hranked|].
    exists tl. destruct Hranked as [He|Htl]; [now rewrite He|].
    apply StronglySorted_inv in Hsorted as [_ Hall].
    rewrite List.Forall_forall in Hall. specialize (Hall _ Htl).
    unfold byCountDesc in Hall. cbn in Hall.
    assert (Hn0 : count g0 freq = n0).
    { apply count_entry; [apply NoDup_keys_analyze|].
      apply (Permutation_in _ Hperm). now left. }
    destruct (String.eqb_spec g0 g) as [->|Hne].
    - rewrite <- Hn0. reflexivity.
    - specialize (Hmost g0 Hne). unfold freq in Hn0, Hall.
      rewrite count_analyze in Hn0, Hall. lia. }
  destruct Hhead as (tl & Hhead).
  unfold recommend, generateRecommendations. fold freq. cbv zeta.
  unfold topGenres. rewrite Hhead. cbn [firstn map flat_map fst].
  set (more := flat_map (catalogOf bookDatabase) (map fst (firstn 2 tl))).
  assert (Hback : exists extra,
             backfill (catalogOf bookDatabase g ++ more)
             = catalogOf bookDatabase g ++ extra).
  { unfold backfill. destruct (_ <? 6)%nat.
    - rewrite <- app_assoc. now eexists.
    - now eexists. }
  destruct Hback as (extra & Hback). rewrite Hback.
  rewrite firstn_app. rewrite firstn_all2.
  - now eexists.
  - rewrite catalogOf_shelf. destruct (classify g); cbn; lia.
Qed.

End CatalogFacts.

(** ** Recommendations: from the tally of numbers to the code's tally *)

Module RankingFacts.
Import JsString RecommendationService.
Import RecommendationFacts CatalogFacts.

Lemma proto_inherited (genre : string) :
  inherited genre = false -> String.eqb genre "__proto__" = false.
Proof.
  intros H. destruct (String.eqb_spec genre "__proto__") as [->|Hne]; [|reflexivity].
  vm_compute in H. discriminate H.
Qed.

(** On a plain tag the code's tally counts as the tally of numbers does. *)
Lemma bump_numbers (genre : string) (r : record) :
  inherited genre = false -> bump genre (numbers r) = numbers (Plain.bump genre r).
Proof.
  intros Hplain. unfold bump. rewrite (proto_inherited genre Hplain), Hplain.
  unfold numbers. induction r as [|[g n] r IH]; [reflexivity|].
  cbn [map own assign Plain.bump fst snd]. destruct (String.eqb g genre) eqn:Hg.
  - reflexivity.
  - cbn [map fst snd]. f_equal. exact IH.
Qed.

Lemma tags_numbers (tags : list string) :
  Forall (fun genre => inherited genre = false) tags ->
  forall r,
    fold_left (fun acc genre => bump genre acc) tags (numbers r)
    = numbers (fold_left (fun acc genre => Plain.bump genre acc) tags r).
Proof.
  induction 1 as [|genre tags Hgenre _ IH]; intros r; [reflexivity|].
  cbn [fold_left]. rewrite bump_numbers by exact Hgenre. apply IH.
Qed.

Lemma books_numbers (books : list Book.t) :
  plainTags books ->
  forall r,
    fold_left tallyStep books (numbers r) = numbers (fold_left Plain.tallyStep books r).
Proof.
  unfold plainTags, allTags. induction books as [|b books IH]; intros Hplain r; [reflexivity|].
  cbn [flat_map] in Hplain. apply List.Forall_app in Hplain as [Hb Hrest].
  cbn [fold_left]. unfold tallyStep at 2, Plain.tallyStep at 2.
  destruct (Book.genreTags b) as [tags|]; [|now apply IH].
  cbn [from_option id] in Hb. rewrite (tags_numbers tags Hb). now apply IH.
Qed.

Lemma analyze_numbers (books : list Book.t) :
  plainTags books ->
  analyzeGenrePreferences books = numbers (Plain.analyzeGenrePreferences books).
Proof. intros Hplain. exact (books_numbers books Hplain []). Qed.

(** [Object.entries] orders by the keys alone. *)
Lemma insertIndexed_numbers (e : N * (string * Z)) (l : list (N * (string * Z))) :
  insertIndexed (fst e, (fst (snd e), Count (snd (snd e))))
    (map (fun x => (fst x, (fst (snd x), Count (snd (snd x))))) l)
  = map (fun x => (fst x, (fst (snd x), Count (snd (snd x))))) (insertIndexed e l).
Proof.
  induction l as [|x l IH]; [reflexivity|].
  cbn [map insertIndexed fst]. destruct (fst e <? fst x)%N; [reflexivity|].
  cbn [map]. now rewrite IH.
Qed.

Lemma entries_numbers (r : record) : entries (numbers r) = numbers (entries r).
Proof.
  unfold entries, numbers. rewrite map_app. f_equal.
  - assert (Hindexed : indexed (map (fun e => (fst e, Count (snd e))) r)
                       = map (fun x => (fst x, (fst (snd x), Count (snd (snd x)))))
                           (indexed r)).
    { unfold indexed. induction r as [|e r IH]; [reflexivity|].
      cbn [map omap list_omap fst]. destruct (arrayIndex (fst e)) as [i|]; cbn.
      - now rewrite <- IH.
      - exact IH. }
    rewrite Hindexed.
    assert (Hsorted : forall l,
              foldr insertIndexed []
                (map (fun x => (fst x, (fst (snd x), Count (snd (snd x))))) l)
              = map (fun x => (fst x, (fst (snd x), Count (snd (snd x)))))
                  (foldr insertIndexed [] l)).
    { induction l as [|x l IH]; [reflexivity|].
      cbn [map foldr]. rewrite IH. apply insertIndexed_numbers. }
    rewrite Hsorted, !map_map. reflexivity.
  - induction r as [|e r IH]; [reflexivity|].
    cbn [map List.filter fst]. destruct (isArrayIndex (fst e)); cbn [negb map].
    + exact IH.
    + now rewrite IH.
Qed.

Lemma consistent_numbers (l : record) : consistent (numbers l) = true.
Proof.
  unfold consistent. apply orb_true_iff. left. unfold numbers.
  induction l as [|e l IH]; [reflexivity|]. cbn [map forallb snd isCount]. exact IH.
Qed.

(** On numbers the comparator puts an entry behind one that counts more. *)
Lemma insertSorted_numbers (e : string * Z) (sorted : record) :
  insertSorted (fst e, Count (snd e)) (numbers sorted)
  = numbers (Plain.insertByCount e sorted).
Proof.
  unfold numbers. induction sorted as [|x sorted IH]; [reflexivity|].
  cbn [map insertSorted Plain.insertByCount]. unfold behind. cbn [snd difference].
  replace (0 <? snd e - snd x) with (snd x <? snd e)
    by (destruct (Z.ltb_spec (snd x) (snd e)), (Z.ltb_spec 0 (snd e - snd x)); lia).
  destruct (snd x <? snd e); [reflexivity|]. cbn [map]. now rewrite IH.
Qed.

Lemma sort_numbers (l : record) : sort (numbers l) = numbers (Plain.sortByCount l).
Proof.
  unfold sort, Plain.sortByCount. change (@nil (string * value)) with (numbers []).
  generalize (@nil (string * Z)). induction l as [|e l IH]; intros acc; [reflexivity|].
  unfold numbers at 1. cbn [map fold_left]. rewrite insertSorted_numbers. apply IH.
Qed.

Lemma topGenres_numbers (r : record) : topGenres (numbers r) = Plain.topGenres r.
Proof.
  unfold topGenres, Plain.topGenres. rewrite entries_numbers, sort_numbers.
  unfold numbers. rewrite firstn_map, map_map. reflexivity.
Qed.

Lemma catalogOf_own (catalog : list (string * list RecommendedBook.t)) (genre : string) :
  Plain.catalogOf catalog genre = default [] (own genre catalog).
Proof.
  induction catalog as [|[g l] catalog IH]; [reflexivity|].
  cbn [Plain.catalogOf own]. now destruct (String.eqb g genre).
Qed.

Lemma catalogOf_plain (genre : string) :
  inherited genre = false -> catalogOf genre = Some (Plain.catalogOf bookDatabase genre).
Proof.
  intros Hplain. unfold catalogOf. rewrite catalogOf_own, Hplain.
  now destruct (own genre bookDatabase).
Qed.

Lemma gather_plain (genres : list string) :
  Forall (fun genre => inherited genre = false) genres ->
  forall recommendations,
    gather genres recommendations
    = Some (recommendations ++ flat_map (Plain.catalogOf bookDatabase) genres).
Proof.
  induction 1 as [|genre genres Hgenre _ IH]; intros recommendations.
  - cbn. now rewrite app_nil_r.
  - cbn [gather flat_map]. rewrite (catalogOf_plain genre Hgenre), IH.
    now rewrite app_assoc.
Qed.

Lemma topGenres_plain (books : list Book.t) :
  plainTags books ->
  Forall (fun genre => inherited genre = false)
    (Plain.topGenres (Plain.analyzeGenrePreferences books)).
Proof.
  intros Hplain. apply List.Forall_forall. intros g Hg.
  apply topGenres_incl in Hg. rewrite keys_analyze in Hg.
  destruct (firstSeen_In _ _ _ Hg) as [[]|Hin].
  exact (proj1 (List.Forall_forall _ _) Hplain g Hin).
Qed.

(** On a library of plain tags the code returns what the computation on
    numbers gives. *)
Lemma recommend_plain (books : list Book.t) :
  plainTags books -> recommend books = Some (Plain.recommend books).
Proof.
  intros Hplain. unfold recommend, generateRecommendations. cbv zeta.
  rewrite (analyze_numbers books Hplain), entries_numbers, consistent_numbers.
  rewrite topGenres_numbers, (gather_plain _ (topGenres_plain books Hplain)).
  reflexivity.
Qed.

(** The tags that [detectGenre] gives a book are plain: libraries built
    by the import of files have no other. *)
Lemma detectGenre_plain (title : string) (content : option string) :
  Forall (fun genre => inherited genre = false) (FileService.detectGenre title content).
Proof.
  destruct (FileHelperFacts.detectGenre_shape title content) as [_ [-> | Hsub]].
  - repeat constructor.
  - apply List.Forall_forall. intros genre Hin. apply list_elem_of_In in Hin.
    pose proof (elem_of_sublist _ _ _ Hin Hsub) as Htable.
    apply list_elem_of_In in Htable. cbn in Htable. cases_In; subst genre; reflexivity.
Qed.

(** A tally of numbers with distinct keys is its keys, each with its
    count. *)
Lemma record_by_keys (r : record) :
  List.NoDup (map fst r) -> r = map (fun g => (g, Plain.count g r)) (map fst r).
Proof.
  induction r as [|[g n] r IH]; intros Hnd; [reflexivity|].
  cbn [map fst] in Hnd. apply List.NoDup_cons_iff in Hnd as [Hg Hnd].
  cbn [map fst Plain.count]. rewrite String.eqb_refl. f_equal.
  rewrite (IH Hnd) at 1. apply map_ext_in. intros g' Hg'.
  destruct (String.eqb_spec g g') as [->|_]; [now destruct Hg | reflexivity].
Qed.

Lemma tally_by_first_appearance (books : list Book.t) :
  Plain.analyzeGenrePreferences books
  = map (fun g => (g, occurrences g books)) (firstSeen (allTags books)).
Proof.
  rewrite (record_by_keys _ (NoDup_keys_analyze books)) at 1.
  rewrite keys_analyze. apply map_ext. intros g. now rewrite count_analyze.
Qed.

Lemma flat_map_ext_in {A B : Type} (f g : A -> list B) (l : list A) :
  (forall a, In a l -> f a = g a) -> flat_map f l = flat_map g l.
Proof.
  induction l as [|a l IH]; intros Hext; [reflexivity|].
  cbn [flat_map]. rewrite (Hext a) by now left. rewrite IH; [reflexivity|].
  intros x Hx. apply Hext. now right.
Qed.

(** The backfill keeps the selected entries in front. *)
Lemma backfill_prefix (recs : list RecommendedBook.t) :
  List.NoDup recs -> incl recs allBooks ->
  exists rest, firstn 8 (backfill recs) = recs ++ rest.
Proof.
  intros Hnd Hincl.
  assert (Hlen : (length recs <= 6)%nat) by exact (NoDup_incl_length Hnd Hincl).
  unfold backfill. destruct (length recs <? 6)%nat.
  - eexists. apply firstn_all2. rewrite length_app, length_firstn. lia.
  - exists []. rewrite app_nil_r. apply firstn_all2. lia.
Qed.

Lemma countTag_In (g : string) (tags : list string) :
  countTag g tags <> 0 -> In g tags.
Proof.
  induction tags as [|t tags IH]; cbn [countTag]; [now intros []|].
  destruct (String.eqb_spec t g) as [->|_]; [now left|]. intros H. right. now apply IH.
Qed.

Lemma countTag_nonneg (g : string) (tags : list string) : 0 <= countTag g tags.
Proof.
  induction tags as [|t tags IH]; cbn [countTag]; [lia|]. destruct (String.eqb t g); lia.
Qed.

(** C7, the tie-break as stated, fails on a library of one fiction book and
    one finance book (sorted by title, the fiction book first): both genres
    count 1, the catalog declares finance first, and fiction is selected
    first. *)
Lemma ties_not_by_catalog_order :
  ~ tiesByCatalogOrder (analyzeGenrePreferences Examples.twoBooks).
Proof.
  intros H.
  specialize (H 1%nat 0%nat "finance" "fiction" eq_refl eq_refl eq_refl).
  cbn in H. lia.
Qed.

(** On that library the fiction entry of the catalog is recommended before
    the finance entries. *)
Lemma twoBooks_recommendations :
  analyzeGenrePreferences Examples.twoBooks = [("fiction", Count 1); ("finance", Count 1)]
  /\ topGenres (analyzeGenrePreferences Examples.twoBooks) = ["fiction"; "finance"]
  /\ map RecommendedBook.id <$> recommend Examples.twoBooks
     = Some ["fic-1"; "fin-1"; "fin-2"; "bus-1"; "bus-2"; "tech-1"].
Proof. repeat split. Qed.

(** A tag that names an inherited member. The tally holds text under
    [constructor]; when that genre is among those selected the spread
    throws and the result is empty, alone or beside five finance books.
    A tag [__proto__] leaves no entry. Beside entries with different
    counts the order of the sort, and with it the result, is the
    implementation's. *)
Lemma inherited_member_tags :
  analyzeGenrePreferences [Examples.withTags "A" ["constructor"; "constructor"]]
  = [("constructor", Text)]
  /\ recommend [Examples.withTags "A" ["constructor"]] = Some []
  /\ recommend (repeat (Examples.withTags "A" ["finance"]) 5
                ++ [Examples.withTags "B" ["constructor"]]) = Some []
  /\ analyzeGenrePreferences [Examples.withTags "A" ["__proto__"; "finance"]]
     = [("finance", Count 1)]
  /\ recommend (Examples.sixBooks ++ [Examples.withTags "B" ["constructor"]]) = None.
Proof. repeat split. Qed.

(** C7, amended. For a library none of whose tags names a member that
    objects inherit: the tally holds, in the order of first appearance,
    each genre with the number of its occurrences in the tags of the
    library; the sort leaves its entries by descending count, entries of
    equal count in the order that [Object.entries] gives them, which for
    genre names that are not array indices is the order of first
    appearance in the library (not the catalog's declaration order); the
    three genres selected are the first three of them, and no genre left
    out counts more than a genre selected. The result is returned; it
    begins with the catalog's entries for the selected genres, in the
    order of selection, holds every entry of the catalog once, and so has
    at most 8 entries. In a library where "finance" occurs 5 times and
    "fiction" once, the finance entries of the catalog stand in the result
    before the fiction entry. *)
Theorem recommendation_ranking (books : list Book.t) :
  plainTags books ->
  exists (freq ranked : record) (result : list RecommendedBook.t),
    analyzeGenrePreferences books = numbers freq
    /\ freq = map (fun g => (g, occurrences g books)) (firstSeen (allTags books))
    /\ sort (entries (analyzeGenrePreferences books)) = numbers ranked
    /\ Permutation ranked freq
    /\ StronglySorted byCountDesc ranked
    /\ (forall n, withCount n ranked = withCount n (entries freq))
    /\ (Forall (fun e => isArrayIndex (fst e) = false) freq -> entries freq = freq)
    /\ topGenres (analyzeGenrePreferences books) = map fst (firstn 3 ranked)
    /\ (forall g g',
          In g (map fst (firstn 3 ranked)) -> In g' (firstSeen (allTags books)) ->
          ~ In g' (map fst (firstn 3 ranked)) ->
          occurrences g' books <= occurrences g books)
    /\ recommend books = Some result
    /\ (exists rest,
          result = flat_map (fun g => default [] (catalogOf g)) (map fst (firstn 3 ranked))
                   ++ rest)
    /\ Permutation result allBooks
    /\ (length result <= 8)%nat
    /\ (occurrences "finance" books = 5 -> occurrences "fiction" books = 1 ->
          ahead [fin1; fin2] [fic1] result).
Proof.
  intros Hplain.
  set (freq := Plain.analyzeGenrePreferences books).
  set (ranked := Plain.sortByCount (entries freq)).
  exists freq, ranked, (Plain.recommend books).
  assert (Htop : Plain.topGenres freq = map fst (firstn 3 ranked)) by reflexivity.
  assert (Hperm : Permutation (Plain.recommend books) allBooks)
    by exact (proj1 (recommend_catalog books)).
  split; [now apply analyze_numbers|].
  split; [apply tally_by_first_appearance|].
  split; [rewrite (analyze_numbers books Hplain), entries_numbers; apply sort_numbers|].
  split; [unfold ranked; rewrite sortByCount_perm; apply entries_perm|].
  split; [apply sortByCount_sorted|].
  split; [intros n; apply sortByCount_stable|].
  split; [apply entries_plain|].
  split; [rewrite (analyze_numbers books Hplain); apply topGenres_numbers|].
  split.
  { intros g g' Hg Hg' Hout. rewrite <- !(count_analyze _ books).
    apply topGenres_dominate; [exact Hg | now rewrite keys_analyze | exact Hout]. }
  split; [now apply recommend_plain|].
  split.
  { rewrite <- Htop.
    rewrite (flat_map_ext_in _ (Plain.catalogOf bookDatabase)).
    - unfold Plain.recommend, Plain.generateRecommendations. cbv zeta. fold freq.
      rewrite (flat_map_ext _ (fun g => shelf (classify g)))
        by (intros g; apply catalogOf_shelf).
      apply backfill_prefix; [apply shelves_NoDup, topGenres_NoDup | apply shelves_catalog].
    - intros g Hg. rewrite catalogOf_plain; [reflexivity|].
      exact (proj1 (List.Forall_forall _ _) (topGenres_plain books Hplain) g Hg). }
  split; [exact Hperm|].
  split; [rewrite (Permutation_length Hperm); cbn; lia|].
  intros H5 H1.
  change [fin1; fin2] with (Plain.catalogOf bookDatabase "finance").
  change [fic1] with (Plain.catalogOf bookDatabase "fiction").
  apply finance_ahead_of_fiction. lia.
Qed.

Lemma sixBooks_plain : plainTags Examples.sixBooks.
Proof.
  unfold plainTags.
  change (allTags Examples.sixBooks)
    with ["fiction"; "finance"; "finance"; "finance"; "history"; "finance"; "finance"].
  repeat constructor.
Qed.

Lemma recommendation_ranking_witness :
  exists result,
    plainTags Examples.sixBooks
    /\ occurrences "finance" Examples.sixBooks = 5
    /\ occurrences "fiction" Examples.sixBooks = 1
    /\ recommend Examples.sixBooks = Some result
    /\ Permutation result allBooks
    /\ ahead [fin1; fin2] [fic1] result.
Proof.
  destruct (recommendation_ranking Examples.sixBooks sixBooks_plain)
    as (freq & ranked & result & _ & _ & _ & _ & _ & _ & _ & _ & _ & Hrec & _ & Hperm & _ & H).
  exists result. split; [exact sixBooks_plain|]. split; [reflexivity|].
  split; [reflexivity|]. split; [exact Hrec|]. split; [exact Hperm|].
  exact (H eq_refl eq_refl).
Defined.

(** For a library none of whose tags names a member that objects
    inherit, the recommendations are returned and are the six entries of
    the catalog, each once: the library decides their order and nothing
    else. *)
Theorem recommend_is_catalog (books : list Book.t) :
  plainTags books ->
  exists result,
    recommend books = Some result
    /\ Permutation result allBooks
    /\ length result = 6%nat
    /\ List.NoDup (map RecommendedBook.id result).
Proof.
  intros Hplain. exists (Plain.recommend books).
  split; [now apply recommend_plain|]. apply recommend_catalog.
Qed.

Lemma recommend_is_catalog_witness :
  exists result,
    recommend Examples.twoBooks = Some result
    /\ Permutation result allBooks
    /\ length result = 6%nat.
Proof.
  destruct (recommend_is_catalog Examples.twoBooks) as (result & Hrec & Hperm & Hlen & _).
  - unfold plainTags. change (allTags Examples.twoBooks) with ["fiction"; "finance"].
    repeat constructor.
  - exists result. now repeat split.
Defined.

(** A library whose tags name neither a genre of the catalog nor a
    member that objects inherit gets the catalog in its declaration
    order: so does the empty library, and so does one whose books are all
    tagged history or general. *)
Theorem recommend_uncatalogued (books : list Book.t) :
  plainTags books ->
  (forall g, In g (allTags books) ->
             ~ In g ["finance"; "business"; "fiction"; "technical"]) ->
  recommend books = Some allBooks.
Proof.
  intros Hplain Hnone. rewrite (recommend_plain books Hplain). f_equal.
  now apply recommend_elsewhere.
Qed.

Lemma recommend_uncatalogued_witness :
  recommend [Examples.tagged "Ancient Rome"; Examples.tagged "Untitled"] = Some allBooks.
Proof.
  apply recommend_uncatalogued.
  - unfold plainTags.
    change (allTags [Examples.tagged "Ancient Rome"; Examples.tagged "Untitled"])
      with ["history"; "general"].
    repeat constructor.
  - intros g Hg Hin.
    change (allTags [Examples.tagged "Ancient Rome"; Examples.tagged "Untitled"])
      with ["history"; "general"] in Hg.
    cbn in Hin, Hg. cases_In; subst g; discriminate.
Defined.

(** The favourite genre leads: in a library none of whose tags names a
    member that objects inherit, when one genre occurs more often than
    every other, the recommendations begin with the catalog's entries for
    that genre. *)
Theorem favourite_genre_leads (books : list Book.t) (g : string) :
  plainTags books ->
  (forall g', g' <> g -> occurrences g' books < occurrences g books) ->
  exists genreBooks rest,
    catalogOf g = Some genreBooks
    /\ recommend books = Some (genreBooks ++ rest).
Proof.
  intros Hplain Hmost.
  assert (Hin : In g (allTags books)).
  { apply countTag_In. rewrite <- occurrences_allTags.
    assert (Hother : exists g', g' <> g).
    { destruct (String.eqb_spec "a" g) as [<-|Hne]; [now exists "b" | now exists "a"]. }
    destruct Hother as (g' & Hne). specialize (Hmost g' Hne).
    pose proof (countTag_nonneg g' (allTags books)) as Hpos.
    rewrite <- occurrences_allTags in Hpos. lia. }
  assert (Hg : inherited g = false)
    by exact (proj1 (List.Forall_forall _ _) Hplain g Hin).
  destruct (favourite_first books g Hmost) as (rest & Hrest).
  exists (Plain.catalogOf bookDatabase g), rest.
  split; [now apply catalogOf_plain|].
  rewrite (recommend_plain books Hplain). now rewrite Hrest.
Qed.

Lemma favourite_genre_leads_witness :
  exists rest, recommend Examples.sixBooks = Some ([fin1; fin2] ++ rest).
Proof.
  destruct (favourite_genre_leads Examples.sixBooks "finance" sixBooks_plain)
    as (genreBooks & rest & Hcat & Hrec).
  - intros g' Hne. rewrite !occurrences_allTags.
    change (allTags Examples.sixBooks)
      with ["fiction"; "finance"; "finance"; "finance"; "history"; "finance"; "finance"].
    cbn [countTag]. rewrite String.eqb_refl.
    change (String.eqb "fiction" "finance") with false.
    change (String.eqb "history" "finance") with false.
    destruct (String.eqb_spec "finance" g') as [<-|_]; [now destruct Hne|].
    destruct (String.eqb "fiction" g'), (String.eqb "history" g'); lia.
  - exists rest. injection Hcat as <-. exact Hrec.
Defined.

End RankingFacts.
